(** * Claude Relay Service launcher: a shallow embedding of [start.py] and
    [scripts/start_utils.py], and the properties of its specification.

    The launcher is orchestration code: it probes the environment, copies
    configuration templates, reads a PID file and spawns subprocesses.  The
    embedding keeps the control flow and the exception handling of the Python
    source and makes the environment explicit:

    - the file system is a finite map from paths to entries;
    - everything the operating system and the interpreter decide
      (subprocess results, socket connects, signals, operator input, the
      codec of the locale, the text of their errors) is an oracle of an
      [Env] record;
    - every method is a computation in a state-and-exception monad over the
      mutable part of the world (file system and an event trace). *)

From Stdlib Require Import ZArith List String Ascii Bool Lia.
From Stdlib Require Import DecimalString DecimalPos DecimalN DecimalZ.
From stdpp Require Import base option gmap strings list fin_maps.

Open Scope string_scope.
Open Scope Z_scope.

(** ** Python strings

    A Python [str] is represented by its UTF-8 encoding, one [ascii] per
    byte.  The operations below are the [str] methods the launcher calls.
    [strip], [split] and [int] work on characters, not on bytes: they know
    the white space and the decimal digits of Unicode, which take two to
    four bytes each. *)

Module PyStr.

Definition code (c : ascii) : N := N_of_ascii c.

Definition between (lo hi : N) (c : ascii) : bool :=
  ((lo <=? code c) && (code c <=? hi))%N.

(** The continuation bytes and the lead bytes of well-formed UTF-8
    (Unicode, table 3-7). *)
Definition cont (c : ascii) : bool := between 128 191 c.

Definition lead2 (a : ascii) : bool := between 194 223 a.

Definition lead3 (a b : ascii) : bool :=
  (between 224 224 a && between 160 191 b)
  || (between 225 236 a && cont b)
  || (between 237 237 a && between 128 159 b)
  || (between 238 239 a && cont b).

Definition lead4 (a b : ascii) : bool :=
  (between 240 240 a && between 144 191 b)
  || (between 241 243 a && cont b)
  || (between 244 244 a && between 128 143 b).

(** The character a string starts with: its code point and the number of
    bytes of its encoding; [None] for the empty string and for bytes that
    are not the encoding of a character. *)
Definition head_char (s : string) : option (N * nat) :=
  match s with
  | EmptyString => None
  | String a r =>
      if between 0 127 a then Some (code a, 1%nat)
      else
        match r with
        | String b r1 =>
            if lead2 a then
              if cont b then Some ((code a - 192) * 64 + (code b - 128), 2%nat)%N
              else None
            else
              match r1 with
              | String c r2 =>
                  if lead3 a b then
                    if cont c then
                      Some ((code a - 224) * 4096 + (code b - 128) * 64
                            + (code c - 128), 3%nat)%N
                    else None
                  else
                    match r2 with
                    | String d _ =>
                        if lead4 a b && cont c && cont d then
                          Some ((code a - 240) * 262144 + (code b - 128) * 4096
                                + (code c - 128) * 64 + (code d - 128), 4%nat)%N
                        else None
                    | EmptyString => None
                    end
              | EmptyString => None
              end
        | EmptyString => None
        end
  end.

(** [str.isspace] of a character: the white space of Unicode. *)
Definition is_space (cp : N) : bool :=
  ((9 <=? cp) && (cp <=? 13) || (28 <=? cp) && (cp <=? 32)
   || (cp =? 133) || (cp =? 160) || (cp =? 5760)
   || (8192 <=? cp) && (cp <=? 8202)
   || (cp =? 8232) || (cp =? 8233) || (cp =? 8239) || (cp =? 8287)
   || (cp =? 12288))%N.

(** White space skipped by the integer parser itself, once the text is
    ASCII: the C locale's [isspace]. *)
Definition is_cspace (c : ascii) : bool :=
  ((9 <=? code c) && (code c <=? 13) || (code c =? 32))%N.

Definition is_digit (c : ascii) : bool :=
  ((48 <=? code c) && (code c <=? 57))%N.

Definition digit_val (c : ascii) : Z := Z.of_N (code c) - 48.

Definition is_empty (s : string) : bool :=
  match s with EmptyString => true | _ => false end.

Fixpoint lstrip_by (p : ascii -> bool) (s : string) : string :=
  match s with
  | EmptyString => EmptyString
  | String c r => if p c then lstrip_by p r else s
  end.

(** The number of bytes of the white-space character [s] starts with, 0
    when it starts with none. *)
Definition space_width (s : string) : nat :=
  match head_char s with
  | Some (cp, n) => if is_space cp then n else 0%nat
  | None => 0%nat
  end.

(** [s.lstrip()]; [skip] counts the bytes still to drop of the white-space
    character being removed. *)
Fixpoint lstrip_from (skip : nat) (s : string) : string :=
  match s with
  | EmptyString => EmptyString
  | String _ r =>
      match skip with
      | S k => lstrip_from k r
      | O =>
          match space_width s with
          | S k => lstrip_from k r
          | O => s
          end
      end
  end.

Definition lstrip (s : string) : string := lstrip_from 0 s.

(** [s.rstrip()]: everything from the first position on after which there
    is white space only is dropped. *)
Fixpoint rstrip (s : string) : string :=
  match s with
  | EmptyString => EmptyString
  | String c r => if is_empty (lstrip s) then EmptyString else String c (rstrip r)
  end.

(** [s.strip()] *)
Definition strip (s : string) : string := lstrip (rstrip s).

(** [s.lstrip(chars)] for a one-character [chars]. *)
Definition lstrip_char (ch : ascii) (s : string) : string :=
  lstrip_by (Ascii.eqb ch) s.

(** [s.split(sep)[0]] for a one-character separator: the text before the
    first separator, the whole string when there is none. *)
Fixpoint split_head (sep : ascii) (s : string) : string :=
  match s with
  | EmptyString => EmptyString
  | String c r => if Ascii.eqb c sep then EmptyString else String c (split_head sep r)
  end.

(** [s.split(sep, 1)[1]], defined when the separator occurs. *)
Fixpoint split_tail (sep : ascii) (s : string) : option string :=
  match s with
  | EmptyString => None
  | String c r => if Ascii.eqb c sep then Some r else split_tail sep r
  end.

(** [s.startswith(p)] *)
Fixpoint startswith (p s : string) : bool :=
  match p, s with
  | EmptyString, _ => true
  | String a p', String b s' => Ascii.eqb a b && startswith p' s'
  | String _ _, EmptyString => false
  end.

(** [s.lower()] on the letters of ASCII.  The launcher compares the
    result with ["y"] only, and no character outside ASCII has [y] as its
    lower case. *)
Definition lower_char (c : ascii) : ascii :=
  if ((65 <=? code c) && (code c <=? 90))%N then ascii_of_N (code c + 32) else c.

Fixpoint lower (s : string) : string :=
  match s with
  | EmptyString => EmptyString
  | String c r => String (lower_char c) (lower r)
  end.

(** [sep.join(l)] *)
Fixpoint join (sep : string) (l : list string) : string :=
  match l with
  | [] => ""
  | [x] => x
  | x :: r => x +:+ sep +:+ join sep r
  end.

(** [str(n)] for an integer. *)
Definition str_of_Z (n : Z) : string := NilZero.string_of_int (Z.to_int n).

(** [a in b] for strings. *)
Fixpoint contains (needle hay : string) : bool :=
  startswith needle hay ||
  match hay with
  | EmptyString => false
  | String _ r => contains needle r
  end.

(** *** [int(s)]

    The interpreter first maps the text to ASCII: a character below 127
    stays, white space becomes a blank, a decimal digit of any script
    becomes the ASCII digit of its value, and the first character that is
    none of these becomes a question mark and ends the text. *)

(** The code points of the digit zero of every script with decimal digits
    (Unicode 14, the character database of CPython 3.11); the digits one
    to nine follow each of them. *)
Definition decimal_zeros : list N :=
  [48; 1632; 1776; 1984; 2406; 2534; 2662; 2790; 2918; 3046; 3174; 3302;
   3430; 3558; 3664; 3792; 3872; 4160; 4240; 6112; 6160; 6470; 6608; 6784;
   6800; 6992; 7088; 7232; 7248; 42528; 43216; 43264; 43472; 43504; 43600;
   44016; 65296; 66720; 68912; 69734; 69872; 69942; 70096; 70384; 70736;
   70864; 71248; 71360; 71472; 71904; 72016; 72784; 73040; 73120; 92768;
   92864; 93008; 120782; 120792; 120802; 120812; 120822; 123200; 123632;
   125264; 130032]%N.

(** The value of a decimal digit, [None] for any other character. *)
Definition decimal_of (cp : N) : option N :=
  (fun z => cp - z)%N <$> List.find (fun z => (z <=? cp) && (cp <? z + 10))%N decimal_zeros.

Definition to_ascii_char (cp : N) : option ascii :=
  if (cp <? 127)%N then Some (ascii_of_N cp)
  else if is_space cp then Some " "%char
  else (fun d => ascii_of_N (48 + d)) <$> decimal_of cp.

Fixpoint to_ascii_from (skip : nat) (s : string) : string :=
  match s with
  | EmptyString => EmptyString
  | String _ r =>
      match skip with
      | S k => to_ascii_from k r
      | O =>
          match head_char s with
          | Some (cp, S k) =>
              match to_ascii_char cp with
              | Some ch => String ch (to_ascii_from k r)
              | None => "?"
              end
          | _ => "?"
          end
      end
  end.

Definition to_ascii (s : string) : string := to_ascii_from 0 s.

(** The digits of a decimal literal: digits, with single underscores
    allowed between two digits.  [prev] tells whether the previous
    character was a digit. *)
Fixpoint int_digits (s : string) (prev : bool) (acc : Z) : option Z :=
  match s with
  | EmptyString => if prev then Some acc else None
  | String c r =>
      if is_digit c then int_digits r true (10 * acc + digit_val c)
      else if Ascii.eqb c "_" && prev then int_digits r false acc
      else None
  end.

Definition is_digit_or_underscore (c : ascii) : bool := is_digit c || Ascii.eqb c "_".

(** The longest prefix of digits and underscores, and what follows it. *)
Fixpoint digit_run (s : string) : string :=
  match s with
  | EmptyString => EmptyString
  | String c r => if is_digit_or_underscore c then String c (digit_run r) else EmptyString
  end.

Fixpoint after_digit_run (s : string) : string :=
  match s with
  | EmptyString => EmptyString
  | String c r => if is_digit_or_underscore c then after_digit_run r else s
  end.

Fixpoint digit_count (s : string) : N :=
  match s with
  | EmptyString => 0
  | String c r => ((if is_digit c then 1 else 0) + digit_count r)%N
  end.

(** [sys.get_int_max_str_digits()], at its default. *)
Definition int_max_str_digits : N := 4300.

(** The three outcomes of [int(s)]: the integer, or one of the two
    [ValueError]s. *)
Inductive int_result : Type :=
  | IntOk (n : Z)
  | IntInvalid
  | IntTooLong (digits : N).

(** The digits of a literal, after the sign.  A misplaced underscore is
    found while the digits are scanned, the limit on their number is
    checked next, what follows the digits last. *)
Definition int_unsigned (t : string) : int_result :=
  let run := digit_run t in
  match int_digits run false 0 with
  | None => IntInvalid
  | Some v =>
      if (int_max_str_digits <? digit_count run)%N then IntTooLong (digit_count run)
      else if is_empty (lstrip_by is_cspace (after_digit_run t)) then IntOk v
      else IntInvalid
  end.

Definition int_result_of (s : string) : int_result :=
  match lstrip_by is_cspace (to_ascii s) with
  | String "+" r => int_unsigned r
  | String "-" r =>
      match int_unsigned r with
      | IntOk v => IntOk (- v)
      | other => other
      end
  | t => int_unsigned t
  end.

(** [int(s)] in base ten; [None] stands for [ValueError]. *)
Definition py_int (s : string) : option Z :=
  match int_result_of s with
  | IntOk n => Some n
  | _ => None
  end.

Definition hex_digit (n : N) : ascii :=
  if (n <? 10)%N then ascii_of_N (48 + n) else ascii_of_N (87 + n).

(** [repr(s)].  The quote is the apostrophe unless the text has one and
    no double quote; backslash, the quote and the control characters are
    escaped.  (A character above 127 is kept as it is; the interpreter
    escapes those that are not printable.) *)
Definition repr_char (quote c : ascii) : string :=
  if Ascii.eqb c "\" then "\\"
  else if Ascii.eqb c quote then String "\" (String quote "")
  else if Ascii.eqb c "009" then "\t"
  else if Ascii.eqb c "010" then "\n"
  else if Ascii.eqb c "013" then "\r"
  else if ((code c <? 32) || (code c =? 127))%N then
    "\x" +:+ String (hex_digit (code c / 16)) (String (hex_digit (code c mod 16)) "")
  else String c "".

Fixpoint repr_body (quote : ascii) (s : string) : string :=
  match s with
  | EmptyString => EmptyString
  | String c r => repr_char quote c +:+ repr_body quote r
  end.

Definition py_repr (s : string) : string :=
  let quote : ascii :=
    if contains "'" s && negb (contains (String "034" "") s) then "034"%char
    else "'"%char in
  String quote (repr_body quote s) +:+ String quote "".

(** The first [n] characters of a text. *)
Fixpoint take_chars (n : nat) (s : string) : string :=
  match s with
  | EmptyString => EmptyString
  | String c r =>
      if cont c then String c (take_chars n r)
      else
        match n with
        | O => EmptyString
        | S k => String c (take_chars k r)
        end
  end.

(** The text of the [ValueError] of [int(s)]. *)
Definition int_error_text (s : string) : string :=
  match int_result_of s with
  | IntTooLong n =>
      "Exceeds the limit (" +:+ str_of_Z (Z.of_N int_max_str_digits)
      +:+ " digits) for integer string conversion: value has "
      +:+ str_of_Z (Z.of_N n)
      +:+ " digits; use sys.set_int_max_str_digits() to increase the limit"
  | _ => "invalid literal for int() with base 10: " +:+ take_chars 200 (py_repr s)
  end.

(** Universal-newline translation of a text stream opened for reading:
    CR LF and a lone CR both become LF. *)
Fixpoint universal_newlines (s : string) : string :=
  match s with
  | EmptyString => EmptyString
  | String c r =>
      if Ascii.eqb c "013" then
        match r with
        | String d r' =>
            if Ascii.eqb d "010" then String "010" (universal_newlines r')
            else String "010" (universal_newlines r)
        | EmptyString => String "010" EmptyString
        end
      else String c (universal_newlines r)
  end.

(** Translation of a text stream opened for writing: every LF becomes the
    platform's line separator. *)
Fixpoint write_newlines (linesep : string) (s : string) : string :=
  match s with
  | EmptyString => EmptyString
  | String c r =>
      if Ascii.eqb c "010" then linesep +:+ write_newlines linesep r
      else String c (write_newlines linesep r)
  end.

(** The lines a text stream yields when iterated: each line keeps its
    terminating LF, the last one may lack it. *)
Fixpoint lines_from (cur : string) (s : string) : list string :=
  match s with
  | EmptyString => if is_empty cur then [] else [cur]
  | String c r =>
      if Ascii.eqb c "010" then (cur +:+ String c "") :: lines_from "" r
      else lines_from (cur +:+ String c "") r
  end.

Definition lines (s : string) : list string := lines_from "" s.

(** [s.split(sep)] for a one-character separator. *)
Fixpoint split_from (sep : ascii) (cur : string) (s : string) : list string :=
  match s with
  | EmptyString => [cur]
  | String c r =>
      if Ascii.eqb c sep then cur :: split_from sep "" r
      else split_from sep (cur +:+ String c "") r
  end.

Definition split_on (sep : ascii) (s : string) : list string := split_from sep "" s.

(** [s.split()]: the maximal runs of characters that are not white space.
    [skip] counts the bytes still to drop of a white-space character. *)
Fixpoint words_from (skip : nat) (cur : string) (s : string) : list string :=
  match s with
  | EmptyString => if is_empty cur then [] else [cur]
  | String c r =>
      match skip with
      | S k => words_from k cur r
      | O =>
          match space_width s with
          | S k =>
              if is_empty cur then words_from k "" r else cur :: words_from k "" r
          | O => words_from 0 (cur +:+ String c "") r
          end
      end
  end.

Definition words (s : string) : list string := words_from 0 "" s.

(** Every character of [s] fails [p]. *)
Fixpoint none_of (p : ascii -> bool) (s : string) : bool :=
  match s with
  | EmptyString => true
  | String c r => negb (p c) && none_of p r
  end.

Definition all_digits (s : string) : bool := none_of (fun c => negb (is_digit c)) s.

(** The accumulator of the decimal reader, on the standard library's
    decimal numbers. *)
Definition uint_acc (d : Decimal.uint) (a : N) : N :=
  match a with
  | N0 => N.of_uint d
  | Npos p => Npos (Pos.of_uint_acc d p)
  end.

End PyStr.

(** ** Exceptions

    The classes the launcher can meet, and the parts of Python's class
    hierarchy its [except] clauses depend on.  [SystemExit] carries the exit
    status given to [sys.exit]. *)

Inductive exn_class : Type :=
  | ValueError | UnicodeDecodeError | TypeError | OverflowError | EOFError
  | AttributeError
  | OSError | FileNotFoundError | IsADirectoryError | NotADirectoryError
  | FileExistsError | PermissionError | ProcessLookupError
  | SubprocessError | TimeoutExpired
  | KeyboardInterrupt.

Inductive raised : Type :=
  | Exc (c : exn_class) (msg : string)
  | SystemExit (code : Z).

Definition class_is_OSError (c : exn_class) : bool :=
  match c with
  | OSError | FileNotFoundError | IsADirectoryError | NotADirectoryError
  | FileExistsError | PermissionError | ProcessLookupError => true
  | _ => false
  end.

(** [except Exception]: everything but [KeyboardInterrupt] and [SystemExit]. *)
Definition is_Exception (e : raised) : bool :=
  match e with
  | Exc KeyboardInterrupt _ => false
  | Exc _ _ => true
  | SystemExit _ => false
  end.

Definition is_KeyboardInterrupt (e : raised) : bool :=
  match e with Exc KeyboardInterrupt _ => true | _ => false end.

(** [UnicodeDecodeError] is a subclass of [ValueError]. *)
Definition is_ValueError (e : raised) : bool :=
  match e with Exc (ValueError | UnicodeDecodeError) _ => true | _ => false end.

Definition is_FileNotFoundError (e : raised) : bool :=
  match e with Exc FileNotFoundError _ => true | _ => false end.

Definition is_OSError (e : raised) : bool :=
  match e with Exc c _ => class_is_OSError c | SystemExit _ => false end.

Definition is_SubprocessError (e : raised) : bool :=
  match e with Exc (SubprocessError | TimeoutExpired) _ => true | _ => false end.

(** [str(e)] *)
Definition exn_str (e : raised) : string :=
  match e with
  | Exc _ m => m
  | SystemExit c => PyStr.str_of_Z c
  end.

(** ** The world

    Paths are lists of components below the project root; the root itself
    is the empty list and is always a directory. *)

Definition path : Type := list string.

Inductive entry : Type :=
  | File (content : string)
  | Dir.

Inductive level : Type := Info | Success | Warning | Error | Debug | Header.

(** What the launcher does to the outside, most recent event first. *)
Inductive event : Type :=
  | EvLog (l : level) (msg : string)
  | EvPrintHelp
  | EvWrite (p : path)
  | EvUnlink (p : path)
  | EvMkdir (p : path)
  | EvRun (cmd : list string)
  | EvSpawn (cmd : list string) (pid : Z)
  | EvWait (pid : Z)
  | EvConnect (host : string) (port : Z)
  | EvKill (pid sig : Z)
  | EvPrompt (text : string).

Record World : Type := mkWorld {
  fs : gmap path entry;
  trace : list event
}.

Inductive res (A : Type) : Type :=
  | Ret (a : A)
  | Raise (e : raised).
Arguments Ret {A} a.
Arguments Raise {A} e.

(** The result of [subprocess.run]. *)
Record completed : Type := mkCompleted {
  returncode : Z;
  stdout : string;
  stderr : string
}.

(** Everything the operating system and the interpreter decide.  A
    subprocess may change the file system.  The launcher replaces the
    handlers of SIGINT and SIGTERM by one that exits with status 0, so a
    signal that arrives while a call blocks shows up as [SystemExit 0]
    raised by that call. *)
Record Env : Type := {
  (** [platform.system() == 'Windows'], [sys.platform == 'win32'] *)
  windows : bool;
  (** [subprocess.run(cmd, cwd=..., env=...)] *)
  sys_run : list string -> option path -> list (string * string) ->
            gmap path entry -> res completed * gmap path entry;
  (** [subprocess.Popen(cmd, cwd=..., env=...)]: the child's pid *)
  sys_popen : list string -> list (string * string) -> gmap path entry -> res Z;
  (** [process.wait()]: the child's exit status *)
  sys_wait : Z -> gmap path entry -> res Z * gmap path entry;
  (** [sock.connect_ex((host, port))] on a fresh TCP socket *)
  sys_connect_ex : string -> Z -> res Z;
  (** [os.kill(pid, sig)] *)
  sys_kill : Z -> Z -> res unit;
  (** [input(prompt)] *)
  sys_input : string -> res string;
  (** [platform.system()], [platform.machine()], [platform.python_version()],
      [str(Path.cwd())], [str(project_root)] *)
  platform_system : string;
  platform_machine : string;
  python_version : string;
  cwd_str : string;
  project_root_str : string;
  (** The codec of the locale, which decodes a file opened without an
      [encoding]: the text of the bytes, [None] when they do not decode. *)
  locale_decode : string -> option string;
  (** [str(e)] of the [OSError] a file-system call raises on a path, and of
      the [UnicodeDecodeError] a codec raises on the bytes of a file *)
  os_error_text : exn_class -> path -> string;
  decode_error_text : string -> string;
  (** The lines a UTF-8 text stream over bytes that do not decode yields
      before its decoder fails: the stream decodes block by block, so the
      lines of the blocks before the offending one are handed out. *)
  lines_before_decode_error : string -> list string
}.

(** ** The monad: reader of [Env], state [World], exceptions *)

Definition M (A : Type) : Type := Env -> World -> res A * World.

Definition ret {A} (a : A) : M A := fun _ w => (Ret a, w).

Definition bind {A B} (m : M A) (k : A -> M B) : M B :=
  fun E w =>
    match m E w with
    | (Ret a, w') => k a E w'
    | (Raise e, w') => (Raise e, w')
    end.

Definition raise {A} (e : raised) : M A := fun _ w => (Raise e, w).

(** [try: body except <classes matched by handles> as e: handler e] *)
Definition try_except {A} (body : M A) (handles : raised -> bool)
    (handler : raised -> M A) : M A :=
  fun E w =>
    match body E w with
    | (Ret a, w') => (Ret a, w')
    | (Raise e, w') => if handles e then handler e E w' else (Raise e, w')
    end.

(** [try: body except A as e: h1 e except B as e: h2 e]: the first clause
    that matches handles the exception; what a handler raises is not handled
    by its sibling. *)
Definition try_except2 {A} (body : M A)
    (handles1 : raised -> bool) (handler1 : raised -> M A)
    (handles2 : raised -> bool) (handler2 : raised -> M A) : M A :=
  fun E w =>
    match body E w with
    | (Ret a, w') => (Ret a, w')
    | (Raise e, w') =>
        if handles1 e then handler1 e E w'
        else if handles2 e then handler2 e E w'
        else (Raise e, w')
    end.

Definition ask : M Env := fun E w => (Ret E, w).
Definition get_fs : M (gmap path entry) := fun _ w => (Ret (fs w), w).
Definition put_fs (f : gmap path entry) : M unit :=
  fun _ w => (Ret tt, mkWorld f (trace w)).
Definition emit (e : event) : M unit :=
  fun _ w => (Ret tt, mkWorld (fs w) (e :: trace w)).
Definition lift_res {A} (r : res A) : M A := fun _ w => (r, w).

Declare Scope py_scope.
Delimit Scope py_scope with py.
Notation "x <- m ;; k" := (bind m (fun x => k))
  (at level 100, m at next level, right associativity) : py_scope.
Notation "m ;;; k" := (bind m (fun _ => k))
  (at level 100, right associativity) : py_scope.
Open Scope py_scope.

(** ** Logger

    A log line is an event of the trace.  Printing is taken to succeed:
    [_safe_print] falls back to ASCII prefixes when the console cannot
    encode the decorated one. *)

Module Logger.
Definition info (msg : string) : M unit := emit (EvLog Info msg).
Definition success (msg : string) : M unit := emit (EvLog Success msg).
Definition warning (msg : string) : M unit := emit (EvLog Warning msg).
Definition error (msg : string) : M unit := emit (EvLog Error msg).
Definition debug (msg : string) : M unit := emit (EvLog Debug msg).
Definition header (msg : string) : M unit := emit (EvLog Header msg).
End Logger.

(** ** Primitives of the standard library *)

(** Well-formed UTF-8 (Unicode, table 3-7): the strict [utf-8] codec
    decodes exactly these byte strings, and encoding gives the bytes back,
    which is why a decoded text can be kept as its bytes. *)
Module Codec.
Import PyStr.

Fixpoint utf8_valid (s : string) : bool :=
  match s with
  | EmptyString => true
  | String a r =>
      if between 0 127 a then utf8_valid r
      else
        match r with
        | String b r1 =>
            if lead2 a then cont b && utf8_valid r1
            else
              match r1 with
              | String c r2 =>
                  if lead3 a b then cont c && utf8_valid r2
                  else
                    match r2 with
                    | String d r3 =>
                        lead4 a b && cont c && cont d && utf8_valid r3
                    | EmptyString => false
                    end
              | EmptyString => false
              end
        | EmptyString => false
        end
  end.
End Codec.

Definition fs_get (f : gmap path entry) (p : path) : option entry :=
  match p with
  | [] => Some Dir
  | _ => f !! p
  end.

Definition parent (p : path) : path := removelast p.

(** [os.linesep] *)
Definition linesep (E : Env) : string :=
  if windows E then String "013" (String "010" "") else String "010" "".

Module Os.

(** Raising the [OSError] of a failed file-system call.  The classes are
    those of Linux; they are all [OSError]s, and no [except] clause of the
    launcher tells them apart. *)
Definition raise_os {A} (c : exn_class) (p : path) : M A :=
  fun E w => (Raise (Exc c (os_error_text E c p)), w).

(** [Path.exists()] *)
Definition path_exists (p : path) : M bool :=
  f <- get_fs ;;
  ret (match fs_get f p with Some _ => true | None => false end).

(** [open(p, 'r', ...)]: the bytes a later [read] will see. *)
Definition open_read (p : path) : M string :=
  f <- get_fs ;;
  match fs_get f p with
  | None => raise_os FileNotFoundError p
  | Some Dir => raise_os IsADirectoryError p
  | Some (File raw) => ret raw
  end.

Definition raise_decode {A} (raw : string) : M A :=
  fun E w => (Raise (Exc UnicodeDecodeError (decode_error_text E raw)), w).

(** [f.read()] on a text stream opened with [encoding='utf-8']:
    decoding, then newline translation. *)
Definition read_text (raw : string) : M string :=
  if Codec.utf8_valid raw then ret (PyStr.universal_newlines raw)
  else raise_decode raw.

(** [f.read()] on a text stream opened without an [encoding]: the
    locale's codec decodes. *)
Definition read_locale_text (raw : string) : M string :=
  E <- ask ;;
  match locale_decode E raw with
  | Some text => ret (PyStr.universal_newlines text)
  | None => raise_decode raw
  end.

(** [for line in f] on a text stream opened with [encoding='utf-8']: the
    lines the loop is given and, when the bytes do not decode, the error
    that ends it.  The stream decodes block by block, on demand: a file
    that is valid UTF-8 gives the lines of its text, another one the
    lines of the blocks before the one the decoder fails on. *)
Definition iter_lines (raw : string) : M (list string * option raised) :=
  E <- ask ;;
  if Codec.utf8_valid raw then ret (PyStr.lines (PyStr.universal_newlines raw), None)
  else ret (lines_before_decode_error E raw,
            Some (Exc UnicodeDecodeError (decode_error_text E raw))).

(** [open(p, 'w', ...)]: creates the file or truncates it. *)
Definition open_write (p : path) : M unit :=
  f <- get_fs ;;
  match fs_get f p with
  | Some Dir => raise_os IsADirectoryError p
  | _ =>
      match fs_get f (parent p) with
      | Some Dir => put_fs (<[p := File ""]> f) ;;; emit (EvWrite p)
      | Some (File _) => raise_os NotADirectoryError p
      | None => raise_os FileNotFoundError p
      end
  end.

(** [f.write(text)] on the stream just opened by [open_write], and the
    flush when the stream is closed. *)
Definition write_text (p : path) (text : string) : M unit :=
  E <- ask ;;
  f <- get_fs ;;
  put_fs (<[p := File (PyStr.write_newlines (linesep E) text)]> f).

(** [Path.unlink()] *)
Definition unlink (p : path) : M unit :=
  f <- get_fs ;;
  match fs_get f p with
  | None => raise_os FileNotFoundError p
  | Some Dir => raise_os IsADirectoryError p
  | Some (File _) => put_fs (delete p f) ;;; emit (EvUnlink p)
  end.

(** [Path.unlink()] on a file the caller still holds open.  Windows does
    not remove a file that is in use: the call is refused there. *)
Definition unlink_open (p : path) : M unit :=
  E <- ask ;;
  if windows E then raise_os PermissionError p else unlink p.

(** [Path.mkdir(exist_ok=True)] *)
Definition mkdir_exist_ok (p : path) : M unit :=
  f <- get_fs ;;
  match fs_get f p with
  | Some Dir => ret tt
  | Some (File _) => raise_os FileExistsError p
  | None =>
      match fs_get f (parent p) with
      | Some Dir => put_fs (<[p := Dir]> f) ;;; emit (EvMkdir p)
      | Some (File _) => raise_os NotADirectoryError p
      | None => raise_os FileNotFoundError p
      end
  end.

(** [len(list(p.glob('*'))) > 0] *)
Definition has_children (f : gmap path entry) (p : path) : bool :=
  match fs_get f p with
  | Some Dir =>
      existsb (fun kv : path * entry =>
                 match fst kv with
                 | [] => false
                 | _ => bool_decide (parent (fst kv) = p)
                 end)
              (map_to_list f)
  | _ => false
  end.

Definition subprocess_run (cmd : list string) (cwd : option path)
    (env : list (string * string)) : M completed :=
  fun E w =>
    let '(r, f') := sys_run E cmd cwd env (fs w) in
    (r, mkWorld f' (EvRun cmd :: trace w)).

Definition popen (cmd : list string) (env : list (string * string)) : M Z :=
  fun E w =>
    match sys_popen E cmd env (fs w) with
    | Ret pid => (Ret pid, mkWorld (fs w) (EvSpawn cmd pid :: trace w))
    | Raise e => (Raise e, w)
    end.

Definition wait (pid : Z) : M Z :=
  fun E w =>
    let '(r, f') := sys_wait E pid (fs w) in
    (r, mkWorld f' (EvWait pid :: trace w)).

Definition connect_ex (host : string) (port : Z) : M Z :=
  fun E w =>
    (sys_connect_ex E host port, mkWorld (fs w) (EvConnect host port :: trace w)).

Definition kill (pid sig : Z) : M unit :=
  fun E w => (sys_kill E pid sig, mkWorld (fs w) (EvKill pid sig :: trace w)).

Definition input (prompt : string) : M string :=
  fun E w => (sys_input E prompt, mkWorld (fs w) (EvPrompt prompt :: trace w)).

(** [int(s)] *)
Definition int_ (s : string) : M Z :=
  match PyStr.py_int s with
  | Some n => ret n
  | None => raise (Exc ValueError (PyStr.int_error_text s))
  end.

Definition is_FileExistsError (e : raised) : bool :=
  match e with Exc FileExistsError _ => true | _ => false end.

(** [os.mkdir(p)] *)
Definition mkdir (p : path) : M unit :=
  f <- get_fs ;;
  match fs_get f p with
  | Some _ => raise_os FileExistsError p
  | None =>
      match fs_get f (parent p) with
      | Some Dir => put_fs (<[p := Dir]> f) ;;; emit (EvMkdir p)
      | Some (File _) => raise_os NotADirectoryError p
      | None => raise_os FileNotFoundError p
      end
  end.

(** [os.makedirs(p, exist_ok=True)], on the components of [p] in reverse:
    the missing parent is made first (a [FileExistsError] from that is
    ignored), then the directory itself; an [OSError] of the final [mkdir]
    is dropped when the path is a directory by then. *)
Fixpoint makedirs_rev (rp : list string) : M unit :=
  match rp with
  | [] => ret tt
  | _ :: rhead =>
      head_exists <- path_exists (rev rhead) ;;
      (if negb head_exists then
         try_except (makedirs_rev rhead) is_FileExistsError (fun _ => ret tt)
       else ret tt) ;;;
      try_except (mkdir (rev rp)) is_OSError
        (fun e =>
           f <- get_fs ;;
           match fs_get f (rev rp) with
           | Some Dir => ret tt
           | _ => raise e
           end)
  end.

Definition makedirs_exist_ok (p : path) : M unit := makedirs_rev (rev p).

(** [open(p, 'a', ...)]: creates the file when it is missing and leaves an
    existing one as it is. *)
Definition open_append (p : path) : M unit :=
  f <- get_fs ;;
  match fs_get f p with
  | Some Dir => raise_os IsADirectoryError p
  | Some (File _) => emit (EvWrite p)
  | None =>
      match fs_get f (parent p) with
      | Some Dir => put_fs (<[p := File ""]> f) ;;; emit (EvWrite p)
      | Some (File _) => raise_os NotADirectoryError p
      | None => raise_os FileNotFoundError p
      end
  end.

(** [time.sleep(seconds)]: the world has no clock, and sleeping changes
    neither the file system nor the trace. *)
Definition sleep (seconds : Z) : M unit := ret tt.

End Os.

(** ** [scripts/start_utils.py] *)

Module SystemChecker.
Import PyStr Os.

Definition check_node_version : M (bool * string) :=
  try_except
    (result <- subprocess_run ["node"; "--version"] None [] ;;
     if returncode result =? 0 then
       let version := strip (stdout result) in
       let version_num := split_head "." (lstrip_char "v" version) in
       n <- int_ version_num ;;
       if 18 <=? n then ret (true, version)
       else ret (false, "需要Node.js >= 18.0.0, 当前版本: " +:+ version)
     else ret (false, "Node.js未安装或无法执行"))
    is_Exception
    (fun e => ret (false, "检查Node.js失败: " +:+ exn_str e)).

(** [check_npm_installed], [check_docker_installed] and
    [check_docker_compose_installed] have one body, up to the command and
    the two messages. *)
Definition check_tool (cmd : string) (missing failed : string) : M (bool * string) :=
  try_except
    (result <- subprocess_run [cmd; "--version"] None [] ;;
     if returncode result =? 0 then ret (true, strip (stdout result))
     else ret (false, missing))
    is_Exception
    (fun e => ret (false, failed +:+ exn_str e)).

Definition check_npm_installed : M (bool * string) :=
  check_tool "npm" "npm未安装" "检查npm失败: ".

Definition check_docker_installed : M (bool * string) :=
  check_tool "docker" "Docker未安装" "检查Docker失败: ".

Definition check_docker_compose_installed : M (bool * string) :=
  check_tool "docker-compose" "Docker Compose未安装" "检查Docker Compose失败: ".

Definition check_dependencies_installed : M bool :=
  a <- path_exists ["node_modules"] ;;
  if a then path_exists ["package-lock.json"] else ret false.

Definition check_frontend_built : M bool :=
  a <- path_exists ["web"; "admin-spa"; "dist"] ;;
  if a then f <- get_fs ;; ret (has_children f ["web"; "admin-spa"; "dist"])
  else ret false.

Definition check_port_available (port : Z) : M bool :=
  try_except
    (result <- connect_ex "localhost" port ;;
     ret (negb (result =? 0)))
    is_Exception
    (fun _ => ret true).

Definition check_redis_connection (host : string) (port : Z) : M bool :=
  try_except
    (result <- connect_ex host port ;;
     ret (result =? 0))
    is_Exception
    (fun _ => ret false).

Definition get_system_info : M (string * string * string * string * string) :=
  E <- ask ;;
  ret (platform_system E, platform_machine E, python_version E,
       cwd_str E, project_root_str E).

End SystemChecker.

(** JSON values as [json.load] returns them. *)
#[local] Set Warnings "-register-all".
Inductive json : Type :=
  | JNull
  | JBool (b : bool)
  | JInt (n : Z)
  | JFloat (repr : string)
  | JStr (s : string)
  | JArr (items : list json)
  | JObj (members : list (string * json)).

Module ConfigManager.
Import PyStr Os.

Definition env_file : path := [".env"].
Definition env_example : path := [".env.example"].
Definition config_file : path := ["config"; "config.js"].
Definition config_example : path := ["config"; "config.example.js"].
Definition start_config_file : path := ["config"; "start_config.json"].

(** The body shared by [ensure_env_file] and [ensure_config_file], which
    differ in the two paths and the two messages only. *)
Definition ensure_file (target template : path) (copying missing : string) : M bool :=
  present <- path_exists target ;;
  if negb present then
    have_template <- path_exists template ;;
    if have_template then
      Logger.info copying ;;;
      src <- open_read template ;;
      open_write target ;;;
      text <- read_text src ;;
      write_text target text ;;;
      ret true
    else
      Logger.warning missing ;;;
      ret false
  else ret true.

Definition ensure_env_file : M bool :=
  ensure_file env_file env_example
    "复制.env.example到.env" ".env.example文件不存在，无法自动生成.env".

Definition ensure_config_file : M bool :=
  ensure_file config_file config_example
    "复制config.example.js到config.js"
    "config.example.js文件不存在，无法自动生成config.js".

Definition default_config : gmap string json :=
  <["default_mode" := JStr "dev"]>
  (<["ports" := JObj [("dev", JInt 3000); ("prod", JInt 3000); ("redis", JInt 6379)]]>
  (<["docker" := JObj [("image_name", JStr "claude-relay-service");
                       ("container_name", JStr "claude-relay")]]>
  (<["redis" := JObj [("host", JStr "localhost"); ("port", JInt 6379)]]> ∅))).

(** [d.update(u)] for two dictionaries: every key of [u] is set in [d]. *)
Definition dict_update (d u : gmap string json) : gmap string json := u ∪ d.

(** [load_start_config].  [json_load] is the standard library's decoder,
    taken as given: applied to the text of the file it raises or returns
    the document.  The start configuration is a JSON object; a document
    of another shape is outside this model. *)
Definition load_start_config (json_load : string -> res (gmap string json))
    : M (gmap string json) :=
  present <- path_exists start_config_file ;;
  if present then
    try_except
      (src <- open_read start_config_file ;;
       text <- read_text src ;;
       user_config <- lift_res (json_load text) ;;
       ret (dict_update default_config user_config))
      is_Exception
      (fun e => Logger.warning ("加载启动配置失败: " +:+ exn_str e) ;;;
                ret default_config)
  else ret default_config.

(** The first line that starts with [key=], scanned as the source does. *)
Fixpoint scan_env (key : string) (ls : list string) : option string :=
  match ls with
  | [] => None
  | l :: rest =>
      let line := strip l in
      if startswith (key +:+ "=") line then split_tail "=" line
      else scan_env key rest
  end.

(** [get_env_value]: the loop returns at the first line that matches; when
    the stream fails before that, the error is dropped and the default
    returned. *)
Definition get_env_value (key default : string) : M string :=
  present <- path_exists env_file ;;
  if negb present then ret default
  else
    try_except
      (src <- open_read env_file ;;
       stream <- iter_lines src ;;
       match scan_env key (fst stream) with
       | Some v => ret v
       | None =>
           match snd stream with
           | Some e => raise e
           | None => ret default
           end
       end)
      is_Exception
      (fun _ => ret default).

(** [save_start_config].  [json_dumps] is the standard library's encoder
    with [indent=2, ensure_ascii=False], taken as given: the text
    [json.dump] writes for a configuration. *)
Definition save_start_config (json_dumps : gmap string json -> string)
    (config : gmap string json) : M bool :=
  try_except
    (makedirs_exist_ok (parent start_config_file) ;;;
     open_write start_config_file ;;;
     write_text start_config_file (json_dumps config) ;;;
     ret true)
    is_Exception
    (fun e => Logger.error ("保存启动配置失败: " +:+ exn_str e) ;;; ret false).

End ConfigManager.

Module ProcessManager.
Import PyStr Os.

Definition pid_file : path := ["claude-relay-service.pid"].

Definition is_process_running (pid : Z) : M bool :=
  try_except
    (E <- ask ;;
     if windows E then
       result <- subprocess_run ["tasklist"; "/FI"; "PID eq " +:+ str_of_Z pid] None [] ;;
       ret (contains (str_of_Z pid) (stdout result))
     else
       kill pid 0 ;;;
       ret true)
    (fun e => is_OSError e || is_SubprocessError e)
    (fun _ => ret false).

(** The PID file is opened without an [encoding]: the locale's codec
    decodes it.  The probe and the removal of a stale file happen inside
    the [with] block, while the file is open. *)
Definition get_running_pid : M (option Z) :=
  present <- path_exists pid_file ;;
  if present then
    try_except
      (src <- open_read pid_file ;;
       text <- read_locale_text src ;;
       pid <- int_ (strip text) ;;
       alive <- is_process_running pid ;;
       if alive then ret (Some pid)
       else unlink_open pid_file ;;; ret None)
      (fun e => is_ValueError e || is_FileNotFoundError e)
      (fun _ => ret None)
  else ret None.

Definition kill_process (pid : Z) : M bool :=
  try_except
    (E <- ask ;;
     (if windows E then
        _ <- subprocess_run ["taskkill"; "/F"; "/PID"; str_of_Z pid] None [] ;;
        ret tt
      else
        kill pid 15 ;;;
        sleep 2 ;;;
        alive <- is_process_running pid ;;
        if alive then kill pid 9 else ret tt) ;;;
     ret true)
    is_Exception
    (fun e => Logger.error ("终止进程失败: " +:+ exn_str e) ;;; ret false).

(** [start_background_process]: the pid of the child stands for the
    [Popen] object. *)
Definition start_background_process (command : list string)
    (log_file : option path) : M (option Z) :=
  try_except
    (match log_file with
     | Some p => open_append p
     | None => ret tt
     end ;;;
     process <- popen command [] ;;
     ret (Some process))
    is_Exception
    (fun e => Logger.error ("启动后台进程失败: " +:+ exn_str e) ;;; ret None).

End ProcessManager.

Module ServiceStarter.
Import PyStr Os.

Definition prepare_environment : M bool :=
  Logger.header "环境准备" ;;;
  env_ok <- ConfigManager.ensure_env_file ;;
  if negb env_ok then ret false
  else
    config_ok <- ConfigManager.ensure_config_file ;;
    if negb config_ok then ret false
    else
      mkdir_exist_ok ["logs"] ;;;
      mkdir_exist_ok ["data"] ;;;
      mkdir_exist_ok ["temp"] ;;;
      Logger.success "环境准备完成" ;;;
      ret true.

Definition install_dependencies : M bool :=
  installed <- SystemChecker.check_dependencies_installed ;;
  if installed then Logger.success "依赖已安装" ;;; ret true
  else
    Logger.info "安装npm依赖..." ;;;
    try_except
      (result <- subprocess_run ["npm"; "install"] (Some []) [] ;;
       if returncode result =? 0 then Logger.success "依赖安装完成" ;;; ret true
       else Logger.error ("依赖安装失败: " +:+ stderr result) ;;; ret false)
      is_Exception
      (fun e => Logger.error ("依赖安装失败: " +:+ exn_str e) ;;; ret false).

Definition frontend_path : path := ["web"; "admin-spa"].

Definition run_frontend_build : M bool :=
  result <- subprocess_run ["npm"; "run"; "build"] (Some frontend_path) [] ;;
  if returncode result =? 0 then Logger.success "前端构建完成" ;;; ret true
  else Logger.error ("前端构建失败: " +:+ stderr result) ;;; ret false.

Definition build_frontend : M bool :=
  built <- SystemChecker.check_frontend_built ;;
  if built then Logger.success "前端已构建" ;;; ret true
  else
    Logger.info "构建前端..." ;;;
    try_except
      (have_modules <- path_exists (frontend_path ++ ["node_modules"])%list ;;
       if negb have_modules then
         Logger.info "安装前端依赖..." ;;;
         result <- subprocess_run ["npm"; "install"] (Some frontend_path) [] ;;
         if negb (returncode result =? 0) then
           Logger.error ("前端依赖安装失败: " +:+ stderr result) ;;; ret false
         else run_frontend_build
       else run_frontend_build)
      is_Exception
      (fun e => Logger.error ("前端构建失败: " +:+ exn_str e) ;;; ret false).

Definition check_redis_availability : M bool :=
  redis_host <- ConfigManager.get_env_value "REDIS_HOST" "localhost" ;;
  port_text <- ConfigManager.get_env_value "REDIS_PORT" "6379" ;;
  redis_port <- int_ port_text ;;
  ok <- SystemChecker.check_redis_connection redis_host redis_port ;;
  let where_ := " (" +:+ redis_host +:+ ":" +:+ str_of_Z redis_port +:+ ")" in
  if ok then Logger.success ("Redis连接正常" +:+ where_) ;;; ret true
  else Logger.warning ("Redis连接失败" +:+ where_) ;;; ret false.

End ServiceStarter.

(** ** [start.py] *)

(** The namespace [parse_args] returns.  An attribute the chosen sub-parser
    does not define is absent ([None]); [getattr(args, name, default)] and
    [hasattr] read it accordingly. *)
Record Namespace : Type := mkNamespace {
  ns_mode : option string;
  ns_port : option Z;
  ns_daemon : option bool;
  ns_rebuild : option bool;
  ns_action : option string
}.

Module ClaudeRelayStarter.
Import PyStr Os.

Definition _run_system_check : M bool :=
  Logger.header "系统环境检查" ;;;
  node <- SystemChecker.check_node_version ;;
  if fst node then
    Logger.success ("Node.js版本: " +:+ snd node) ;;;
    npm <- SystemChecker.check_npm_installed ;;
    if fst npm then
      Logger.success ("npm版本: " +:+ snd npm) ;;;
      ret true
    else
      Logger.error ("npm检查失败: " +:+ snd npm) ;;;
      ret false
  else
    Logger.error ("Node.js检查失败: " +:+ snd node) ;;;
    ret false.

(** The loop over the lines of [netstat -ano]. *)
Fixpoint report_listeners (port : Z) (ls : list string) : M unit :=
  match ls with
  | [] => ret tt
  | line :: rest =>
      (if contains (":" +:+ str_of_Z port) line && contains "LISTENING" line then
         let parts := words line in
         if (5 <=? length parts)%nat then
           Logger.warning ("端口被进程PID " +:+ List.last parts "" +:+ " 占用")
         else ret tt
       else ret tt) ;;;
      report_listeners port rest
  end.

Definition _check_port_conflicts (port : Z) : M bool :=
  free <- SystemChecker.check_port_available port ;;
  if negb free then
    Logger.error ("端口 " +:+ str_of_Z port +:+ " 已被占用") ;;;
    try_except
      (E <- ask ;;
       if windows E then
         result <- subprocess_run ["netstat"; "-ano"] None [] ;;
         report_listeners port (split_on "010" (stdout result))
       else
         result <- subprocess_run ["lsof"; "-i"; ":" +:+ str_of_Z port] None [] ;;
         if negb (is_empty (stdout result)) then
           Logger.warning ("端口占用详情:" +:+ String "010" (stdout result))
         else ret tt)
      is_Exception
      (fun _ => ret tt) ;;;
    ret false
  else ret true.

(** The environment of the child: [NODE_ENV] and, when the namespace has
    a port, [PORT]. *)
Definition child_env (node_env : string) (args : Namespace) : list (string * string) :=
  ("NODE_ENV", node_env) ::
  match ns_port args with
  | Some p => [("PORT", str_of_Z p)]
  | None => []
  end.

Definition port_of (args : Namespace) : Z := default 3000 (ns_port args).

(** The four gates dev and prod share: system check, environment,
    dependencies, front end. *)
Definition common_gates : M bool :=
  ok <- _run_system_check ;;
  if negb ok then ret false
  else
    ok <- ServiceStarter.prepare_environment ;;
    if negb ok then ret false
    else
      ok <- ServiceStarter.install_dependencies ;;
      if negb ok then ret false
      else ServiceStarter.build_frontend.

(** [start_dev_mode] up to the port check. *)
Definition dev_preflight (args : Namespace) : M bool :=
  ok <- common_gates ;;
  if negb ok then ret false
  else
    redis <- ServiceStarter.check_redis_availability ;;
    go <- (if negb redis then
             Logger.warning "Redis未连接，请确保Redis服务正在运行" ;;;
             answer <- input "是否继续启动? (y/N): " ;;
             ret (String.eqb (lower answer) "y")
           else ret true) ;;
    if negb go then ret false
    else _check_port_conflicts (port_of args).

(** A foreground server: spawn, announce, wait. *)
Definition foreground (cmd : list string) (node_env : string) (args : Namespace)
    (started interrupted failed : string) : M bool :=
  try_except2
    (Logger.debug ("执行命令: " +:+ join " " cmd) ;;;
     pid <- popen cmd (child_env node_env args) ;;
     Logger.success (started +:+ " (PID: " +:+ str_of_Z pid +:+ ")") ;;;
     Logger.info ("服务地址: http://localhost:" +:+ str_of_Z (port_of args)) ;;;
     Logger.info "按 Ctrl+C 停止服务" ;;;
     _ <- wait pid ;;
     ret true)
    is_KeyboardInterrupt
    (fun _ => Logger.info interrupted ;;; ret true)
    is_Exception
    (fun e => Logger.error (failed +:+ exn_str e) ;;; ret false).

(** [start_dev_mode] from "启动开发服务器" on. *)
Definition dev_launch (args : Namespace) : M bool :=
  Logger.info "启动开发服务器..." ;;;
  foreground ["npm"; "run"; "dev"] "development" args
    "开发服务器启动成功" "用户中断" "启动开发服务器失败: ".

Definition start_dev_mode (args : Namespace) : M bool :=
  Logger.header "启动开发模式" ;;;
  ok <- dev_preflight args ;;
  if negb ok then ret false else dev_launch args.

(** [start_prod_mode] up to the port check. *)
Definition prod_preflight (args : Namespace) : M bool :=
  ok <- common_gates ;;
  if negb ok then ret false
  else
    redis <- ServiceStarter.check_redis_availability ;;
    if negb redis then
      Logger.error "生产模式需要Redis连接" ;;;
      ret false
    else _check_port_conflicts (port_of args).

Definition prod_launch_daemon (args : Namespace) : M bool :=
  Logger.info "启动后台生产服务器..." ;;;
  try_except
    (result <- subprocess_run ["npm"; "run"; "service:start:daemon"] (Some [])
                 (child_env "production" args) ;;
     if returncode result =? 0 then
       Logger.success "后台生产服务器启动成功" ;;; ret true
     else
       Logger.error "后台生产服务器启动失败" ;;; ret false)
    is_Exception
    (fun e => Logger.error ("启动后台生产服务器失败: " +:+ exn_str e) ;;; ret false).

Definition prod_launch_foreground (args : Namespace) : M bool :=
  Logger.info "启动前台生产服务器..." ;;;
  foreground ["npm"; "start"] "production" args
    "生产服务器启动成功" "用户中断" "启动生产服务器失败: ".

Definition start_prod_mode (args : Namespace) : M bool :=
  Logger.header "启动生产模式" ;;;
  ok <- prod_preflight args ;;
  if negb ok then ret false
  else if default false (ns_daemon args) then prod_launch_daemon args
  else prod_launch_foreground args.

Definition docker_up (args : Namespace) : M bool :=
  Logger.info "启动Docker容器..." ;;;
  let daemon := default false (ns_daemon args) in
  let cmd := (["docker-compose"; "up"] ++ (if daemon then ["-d"] else []))%list in
  pid <- popen cmd [] ;;
  (if daemon then
     _ <- wait pid ;;
     Logger.success "Docker容器已在后台启动"
   else
     Logger.success "Docker容器启动成功" ;;;
     Logger.info "按 Ctrl+C 停止容器" ;;;
     _ <- wait pid ;;
     ret tt) ;;;
  ret true.

Definition start_docker_mode (args : Namespace) : M bool :=
  Logger.header "启动Docker模式" ;;;
  docker <- SystemChecker.check_docker_installed ;;
  if negb (fst docker) then
    Logger.error ("Docker检查失败: " +:+ snd docker) ;;; ret false
  else
    Logger.success ("Docker版本: " +:+ snd docker) ;;;
    compose <- SystemChecker.check_docker_compose_installed ;;
    if negb (fst compose) then
      Logger.error ("Docker Compose检查失败: " +:+ snd compose) ;;; ret false
    else
      Logger.success ("Docker Compose版本: " +:+ snd compose) ;;;
      try_except2
        (if default false (ns_rebuild args) then
           Logger.info "重新构建Docker镜像..." ;;;
           result <- subprocess_run ["docker-compose"; "build"] (Some []) [] ;;
           if negb (returncode result =? 0) then
             Logger.error "Docker镜像构建失败" ;;; ret false
           else docker_up args
         else docker_up args)
        is_KeyboardInterrupt
        (fun _ =>
           Logger.info "用户中断" ;;;
           _ <- subprocess_run ["docker-compose"; "down"] (Some []) [] ;;
           ret true)
        is_Exception
        (fun e => Logger.error ("Docker启动失败: " +:+ exn_str e) ;;; ret false).

Definition manage_service (action : string) : M bool :=
  Logger.header ("服务管理 - " +:+ action) ;;;
  try_except
    (result <- subprocess_run ["npm"; "run"; "service:" +:+ action] (Some []) [] ;;
     ret (returncode result =? 0))
    is_Exception
    (fun e => Logger.error ("服务管理失败: " +:+ exn_str e) ;;; ret false).

(** Truth value of an [Optional[int]]. *)
Definition truthy (pid : option Z) : bool :=
  match pid with
  | Some n => negb (n =? 0)
  | None => false
  end.

Definition show_status : M bool :=
  Logger.header "系统状态" ;;;
  system_info <- SystemChecker.get_system_info ;;
  let '(platform, architecture, python, _, project_root) := system_info in
  Logger.info ("操作系统: " +:+ platform +:+ " " +:+ architecture) ;;;
  Logger.info ("Python版本: " +:+ python) ;;;
  Logger.info ("项目路径: " +:+ project_root) ;;;
  node <- SystemChecker.check_node_version ;;
  Logger.info ("Node.js: " +:+ (if fst node then "✅" else "❌") +:+ " " +:+ snd node) ;;;
  redis_ok <- ServiceStarter.check_redis_availability ;;
  Logger.info ("Redis: " +:+ (if redis_ok then "✅" else "❌")) ;;;
  pid <- ProcessManager.get_running_pid ;;
  (if truthy pid then
     Logger.success ("服务运行中 (PID: " +:+ str_of_Z (default 0 pid) +:+ ")")
   else Logger.warning "服务未运行") ;;;
  port_ok <- SystemChecker.check_port_available 3000 ;;
  Logger.info ("端口 3000: " +:+ (if port_ok then "空闲" else "占用")) ;;;
  ret true.

End ClaudeRelayStarter.

(** The [try] block of [main]: the branch of the mode and the exit on
    failure. *)
Definition dispatch (args : Namespace) (mode : string) : M unit :=
  let finish (success : bool) : M unit :=
    if negb success then raise (SystemExit 1) else ret tt in
  if String.eqb mode "dev" then
    success <- ClaudeRelayStarter.start_dev_mode args ;; finish success
  else if String.eqb mode "prod" then
    success <- ClaudeRelayStarter.start_prod_mode args ;; finish success
  else if String.eqb mode "docker" then
    success <- ClaudeRelayStarter.start_docker_mode args ;; finish success
  else if String.eqb mode "service" then
    match ns_action args with
    | Some action =>
        success <- ClaudeRelayStarter.manage_service action ;; finish success
    | None =>
        raise (Exc AttributeError "'Namespace' object has no attribute 'action'")
    end
  else if String.eqb mode "status" then
    success <- ClaudeRelayStarter.show_status ;; finish success
  else
    emit EvPrintHelp.

(** [main], after [parse_args] has returned the namespace.  Constructing
    [ClaudeRelayStarter] only builds the helper objects and registers the
    signal handler; a signal that arrives later is an outcome of the
    oracle of the call it interrupts ([SystemExit 0], which no [except]
    clause of the launcher catches). *)
Definition main (args : Namespace) : M unit :=
  match ns_mode args with
  | None | Some EmptyString => emit EvPrintHelp
  | Some mode =>
      try_except2
        (dispatch args mode)
        is_KeyboardInterrupt
        (fun _ => Logger.info "用户中断")
        is_Exception
        (fun e =>
           Logger.error ("启动失败: " +:+ exn_str e) ;;;
           raise (SystemExit 1))
  end.

(** The exit status of the interpreter: 0 when [main] returns, the code of
    [SystemExit], 1 after an uncaught exception (130 for an uncaught
    [KeyboardInterrupt], which [main] never lets through). *)
Definition exit_status {A} (r : res A) : Z :=
  match r with
  | Ret _ => 0
  | Raise (SystemExit code) => code
  | Raise (Exc KeyboardInterrupt _) => 130
  | Raise (Exc _ _) => 1
  end.

Definition launcher (args : Namespace) (E : Env) (w : World) : Z * World :=
  let '(r, w') := main args E w in (exit_status r, w').

(** ** Vocabulary of the properties *)

(** The banner [vMAJOR.MINOR.PATCH] the runtime prints. *)
Definition version_banner (major minor patch : N) : string :=
  "v" +:+ PyStr.str_of_Z (Z.of_N major) +:+ "." +:+ PyStr.str_of_Z (Z.of_N minor)
      +:+ "." +:+ PyStr.str_of_Z (Z.of_N patch).

(** The interpreter's side of the sample hosts: a UTF-8 locale, the error
    texts of Linux with the path under the project root, and an [.env]
    that, when it does not decode, fails within its first block. *)
Definition utf8_locale (raw : string) : option string :=
  if Codec.utf8_valid raw then Some raw else None.

Definition errno_text (sep root : string) (c : exn_class) (p : path) : string :=
  match c with
  | FileNotFoundError => "[Errno 2] No such file or directory"
  | PermissionError => "[Errno 13] Permission denied"
  | FileExistsError => "[Errno 17] File exists"
  | NotADirectoryError => "[Errno 20] Not a directory"
  | IsADirectoryError => "[Errno 21] Is a directory"
  | _ => "[Errno 5] Input/output error"
  end +:+ ": " +:+ PyStr.py_repr (PyStr.join sep (root :: p)).

Definition invalid_start_byte (raw : string) : string :=
  "'utf-8' codec can't decode byte 0xff in position 0: invalid start byte".

(** An environment with this interpreter's side, from the operating
    system's. *)
Definition mkEnv (windows : bool)
    (sys_run : list string -> option path -> list (string * string) ->
               gmap path entry -> res completed * gmap path entry)
    (sys_popen : list string -> list (string * string) -> gmap path entry -> res Z)
    (sys_wait : Z -> gmap path entry -> res Z * gmap path entry)
    (sys_connect_ex : string -> Z -> res Z)
    (sys_kill : Z -> Z -> res unit)
    (sys_input : string -> res string)
    (platform_system platform_machine python_version cwd_str project_root_str : string)
    : Env := {|
  windows := windows;
  sys_run := sys_run;
  sys_popen := sys_popen;
  sys_wait := sys_wait;
  sys_connect_ex := sys_connect_ex;
  sys_kill := sys_kill;
  sys_input := sys_input;
  platform_system := platform_system;
  platform_machine := platform_machine;
  python_version := python_version;
  cwd_str := cwd_str;
  project_root_str := project_root_str;
  locale_decode := utf8_locale;
  os_error_text := errno_text (if windows then "\" else "/") project_root_str;
  decode_error_text := invalid_start_byte;
  lines_before_decode_error := fun _ => []
|}.

(** A sample environment on a POSIX host: a recent runtime and package
    manager, every command succeeding, Redis listening on 6379 and nothing
    on the other ports, no live process, an operator who answers "n"; the
    foreground child exits with [wait_status]. *)
Definition demo_run (cmd : list string) (cwd : option path) (env : list (string * string))
    (f : gmap path entry) : res completed * gmap path entry :=
  if bool_decide (cmd = ["node"; "--version"]) then
    (Ret (mkCompleted 0 ("v20.11.1" +:+ String "010" "") ""), f)
  else if bool_decide (cmd = ["npm"; "--version"]) then
    (Ret (mkCompleted 0 ("10.2.4" +:+ String "010" "") ""), f)
  else (Ret (mkCompleted 0 "" ""), f).

Definition demo_env (wait_status : Z) : Env :=
  mkEnv false demo_run
    (fun _ _ _ => Ret 4242)
    (fun _ f => (Ret wait_status, f))
    (fun host port => Ret (if port =? 6379 then 0 else 111))
    (fun _ _ => Raise (Exc ProcessLookupError "No such process"))
    (fun _ => Ret "n")
    "Linux" "x86_64" "3.11.4" "/srv/claude-relay-service" "/srv/claude-relay-service".

(** A runtime whose banner has a MAJOR of 4301 digits: 10^4300, given by
    its numeral, a one and 4300 zeros. *)
Definition huge_tail : Decimal.uint := Nat.iter 4298 Decimal.D0 Decimal.Nil.

Definition huge_uint : Decimal.uint := Decimal.D1 (Decimal.D0 (Decimal.D0 huge_tail)).

Definition huge_major : N := N.of_uint huge_uint.

Definition huge_env : Env :=
  mkEnv false
    (fun _ _ _ f =>
       (Ret (mkCompleted 0 (version_banner huge_major 0 0 +:+ String "010" "") ""), f))
    (fun _ _ _ => Ret 1) (fun _ f => (Ret 0, f)) (fun _ _ => Ret 0)
    (fun _ _ => Ret tt) (fun _ => Ret "") "" "" "" "" "".

(** Calling an operation twice in a row. *)
Definition twice {A} (m : M A) : M (A * A) :=
  a <- m ;; b <- m ;; ret (a, b).

(** Every entry lies in a directory: the shape of any real file system. *)
Definition fs_wf (f : gmap path entry) : Prop :=
  map_Forall (fun p _ => fs_get f (parent p) = Some Dir) f.

#[global] Instance entry_eq_dec : EqDecision entry.
Proof. solve_decision. Defined.

#[global] Instance fs_wf_dec (f : gmap path entry) : Decision (fs_wf f).
Proof. unfold fs_wf. apply _. Defined.

(** The line ends of [c] are the ones text mode writes on this platform:
    no carriage return on POSIX; on Windows every line end is CR LF. *)
Fixpoint crlf_only (s : string) : bool :=
  match s with
  | EmptyString => true
  | String c r =>
      if Ascii.eqb c "013" then
        match r with
        | String d r' => Ascii.eqb d "010" && crlf_only r'
        | EmptyString => false
        end
      else negb (Ascii.eqb c "010") && crlf_only r
  end.

Definition native_newlines (E : Env) (c : string) : bool :=
  if windows E then crlf_only c else PyStr.none_of (Ascii.eqb "013") c.

(** A project directory with both templates and neither configuration
    file; the templates have CR LF line ends. *)
Definition crlf_template : string :=
  "PORT=3000" +:+ String "013" (String "010" "").

Definition fresh_checkout : gmap path entry :=
  <[ [".env.example"] := File crlf_template ]>
  (<[ ["config"] := Dir ]>
  (<[ ["config"; "config.example.js"] := File crlf_template ]> ∅)).

(** The two ensure operations. *)
Inductive config_kind : Type := EnvFile | ConfigJs.

Definition ensure (k : config_kind) : M bool :=
  match k with
  | EnvFile => ConfigManager.ensure_env_file
  | ConfigJs => ConfigManager.ensure_config_file
  end.

Definition target_of (k : config_kind) : path :=
  match k with
  | EnvFile => ConfigManager.env_file
  | ConfigJs => ConfigManager.config_file
  end.

Definition template_of (k : config_kind) : path :=
  match k with
  | EnvFile => ConfigManager.env_example
  | ConfigJs => ConfigManager.config_example
  end.

Definition copying_msg (k : config_kind) : string :=
  match k with
  | EnvFile => "复制.env.example到.env"
  | ConfigJs => "复制config.example.js到config.js"
  end.

Definition missing_msg (k : config_kind) : string :=
  match k with
  | EnvFile => ".env.example文件不存在，无法自动生成.env"
  | ConfigJs => "config.example.js文件不存在，无法自动生成config.js"
  end.

(** What [get_running_pid] reads from the bytes of the PID file: the
    integer, or nothing when the bytes do not decode or the text is not an
    integer literal. *)
Definition read_pid (E : Env) (raw : string) : option Z :=
  match locale_decode E raw with
  | Some text => PyStr.py_int (PyStr.strip (PyStr.universal_newlines text))
  | None => None
  end.

(** A start configuration with one key the defaults do not have. *)
Definition theme_config : gmap string json := {[ "theme" := JStr "dark" ]}.

Definition theme_text : string :=
  "{" +:+ String "034" "theme" +:+ String "034" ": " +:+ String "034" "dark"
      +:+ String "034" "}".

Definition theme_loader (text : string) : res (gmap string json) :=
  if String.eqb text theme_text then Ret theme_config
  else Raise (Exc ValueError "Expecting value").

Definition theme_project : gmap path entry :=
  <[ ["config"] := Dir ]> (<[ ["config"; "start_config.json"] := File theme_text ]> ∅).

(** The two modes with a foreground server. *)
Inductive fg_mode : Type := FgDev | FgProd.

Definition mode_name (m : fg_mode) : string :=
  match m with FgDev => "dev" | FgProd => "prod" end.

Definition mode_header (m : fg_mode) : string :=
  match m with FgDev => "启动开发模式" | FgProd => "启动生产模式" end.

Definition preflight (m : fg_mode) : Namespace -> M bool :=
  match m with
  | FgDev => ClaudeRelayStarter.dev_preflight
  | FgProd => ClaudeRelayStarter.prod_preflight
  end.

Definition server_cmd (m : fg_mode) : list string :=
  match m with FgDev => ["npm"; "run"; "dev"] | FgProd => ["npm"; "start"] end.

Definition node_env (m : fg_mode) : string :=
  match m with FgDev => "development" | FgProd => "production" end.

(** A project in which every gate passes: configuration in place,
    dependencies installed, front end built. *)
Definition ready_project : gmap path entry :=
  <[ [".env"] := File ("REDIS_HOST=localhost" +:+ String "010" "REDIS_PORT=6379") ]>
  (<[ ["config"] := Dir ]>
  (<[ ["config"; "config.js"] := File "module.exports = {}" ]>
  (<[ ["node_modules"] := Dir ]>
  (<[ ["package-lock.json"] := File "{}" ]>
  (<[ ["web"] := Dir ]>
  (<[ ["web"; "admin-spa"] := Dir ]>
  (<[ ["web"; "admin-spa"; "dist"] := Dir ]>
  (<[ ["web"; "admin-spa"; "dist"; "index.html"] := File "<html></html>" ]> ∅)))))))).

Definition dev_args : Namespace := mkNamespace (Some "dev") (Some 3000) None None None.
Definition prod_args : Namespace := mkNamespace (Some "prod") (Some 3000) (Some false) None None.
Definition status_args : Namespace := mkNamespace (Some "status") None None None None.

(** A project whose [.env] gives a Redis port that is not a number. *)
Definition bad_port_project : gmap path entry :=
  {[ [".env"] := File "REDIS_PORT=abc" ]}.

(** A computation that lets no [Exception] out: what it raises, if
    anything, is an interrupt or an exit. *)
Definition contains_exceptions {A} (m : M A) : Prop :=
  forall E w, match fst (m E w) with
              | Ret _ => True
              | Raise e => is_Exception e = false
              end.

(** The command of the liveness probe on Windows. *)
Definition tasklist_cmd (pid : Z) : list string :=
  ["tasklist"; "/FI"; "PID eq " +:+ PyStr.str_of_Z pid].


(** Project directories with a PID file. *)
Definition pid_project (content : string) : gmap path entry :=
  {[ ["claude-relay-service.pid"] := File content ]}.

(** The sample environment with every process alive. *)
Definition live_env : Env :=
  mkEnv false demo_run
    (fun _ _ _ => Ret 4242)
    (fun _ f => (Ret 0, f))
    (fun host port => Ret (if port =? 6379 then 0 else 111))
    (fun _ _ => Ret tt)
    (fun _ => Ret "n")
    "Linux" "x86_64" "3.11.4" "/srv/claude-relay-service" "/srv/claude-relay-service".

(** The sample environment on a Windows host. *)
Definition windows_env : Env :=
  mkEnv true demo_run
    (fun _ _ _ => Ret 4242)
    (fun _ f => (Ret 0, f))
    (fun host port => Ret (if port =? 6379 then 0 else 111))
    (fun _ _ => Raise (Exc ProcessLookupError "No such process"))
    (fun _ => Ret "n")
    "Windows" "AMD64" "3.11.4" "C:\claude-relay-service" "C:\claude-relay-service".





(** An [.env] with a comment, a near miss and the same key twice. *)
Definition sample_env_text : string :=
  "# cache" +:+ String "010" ("REDIS_PORT = 1" +:+ String "013" (String "010"
  ("  REDIS_PORT=6380=x " +:+ String "010" "REDIS_PORT=1"))).

(** The file system and the trace once [makedirs] has seen to the
    [config] directory. *)
Definition with_config_dir (w : World) : World :=
  match fs_get (fs w) ["config"] with
  | None => mkWorld (<[ ["config"] := Dir ]> (fs w)) (EvMkdir ["config"] :: trace w)
  | Some _ => w
  end.

(** A computation that only ever adds entries to the file system: what
    was there before is there afterwards, unchanged, whatever the outcome. *)
Definition grows {A} (m : M A) : Prop :=
  forall E w, fs w ⊆ fs (snd (m E w)).

(** The sample environment with nothing listening anywhere, Redis
    included. *)
Definition redis_down_env : Env :=
  mkEnv false demo_run
    (fun _ _ _ => Ret 4242)
    (fun _ f => (Ret 0, f))
    (fun _ _ => Ret 111)
    (fun _ _ => Raise (Exc ProcessLookupError "No such process"))
    (fun _ => Ret "n")
    "Linux" "x86_64" "3.11.4" "/srv/claude-relay-service" "/srv/claude-relay-service".

(** The sample environment with Docker installed and every other
    command exiting with [status]. *)
Definition failing_run (status : Z) (cmd : list string) (cwd : option path)
    (env : list (string * string)) (f : gmap path entry)
    : res completed * gmap path entry :=
  if bool_decide (cmd = ["node"; "--version"]) then
    (Ret (mkCompleted 0 ("v20.11.1" +:+ String "010" "") ""), f)
  else if bool_decide (cmd = ["npm"; "--version"]) then
    (Ret (mkCompleted 0 ("10.2.4" +:+ String "010" "") ""), f)
  else if bool_decide (cmd = ["docker"; "--version"]) then
    (Ret (mkCompleted 0 "Docker version 24.0.7" ""), f)
  else if bool_decide (cmd = ["docker-compose"; "--version"]) then
    (Ret (mkCompleted 0 "Docker Compose version v2.23.0" ""), f)
  else (Ret (mkCompleted status "" ""), f).

Definition failing_env (status : Z) : Env :=
  mkEnv false (failing_run status)
    (fun _ _ _ => Ret 4242)
    (fun _ f => (Ret 0, f))
    (fun host port => Ret (if port =? 6379 then 0 else 111))
    (fun _ _ => Raise (Exc ProcessLookupError "No such process"))
    (fun _ => Ret "n")
    "Linux" "x86_64" "3.11.4" "/srv/claude-relay-service" "/srv/claude-relay-service".

Definition service_args (action : string) : Namespace :=
  mkNamespace (Some "service") None None None (Some action).

Definition prod_daemon_args : Namespace :=
  mkNamespace (Some "prod") (Some 3000) (Some true) None None.

Definition docker_rebuild_args : Namespace :=
  mkNamespace (Some "docker") None (Some false) (Some true) None.

(** * Properties *)

(** ** Strings and integers *)

Section StringFacts.
Import PyStr.

Example py_int_examples :
  py_int " 42 " = Some 42 /\ py_int "-1_000" = Some (-1000)
  /\ py_int "abc" = None /\ py_int "" = None /\ py_int "1__0" = None
  /\ py_int "018" = Some 18 /\ py_int "12_" = None /\ py_int "+7" = Some 7.
Proof. repeat split; reflexivity. Qed.

Example strip_example : strip (" v18.0.1 " +:+ String "010" "") = "v18.0.1".
Proof. reflexivity. Qed.

Example universal_newlines_example :
  universal_newlines (String "a" (String "013" (String "010" (String "b" (String "013" "")))))
  = String "a" (String "010" (String "b" (String "010" ""))).
Proof. reflexivity. Qed.

Lemma lstrip_by_none p s : none_of p s = true -> lstrip_by p s = s.
Proof.
  destruct s as [|c r]; simpl; [done|].
  intros [Hc _]%andb_prop. by destruct (p c).
Qed.

Lemma none_of_weaken (p q : ascii -> bool) s :
  (forall c, q c = true -> p c = true) -> none_of p s = true -> none_of q s = true.
Proof.
  intros Hpq. induction s as [|c r IH]; simpl; [done|].
  intros [Hc Hr]%andb_prop. rewrite IH by done.
  destruct (q c) eqn:Hq; [|done].
  by rewrite (Hpq _ Hq) in Hc.
Qed.

Lemma digit_not_cspace c : is_cspace c = true -> negb (is_digit c) = true.
Proof.
  unfold is_cspace, is_digit. destruct (code c) as [|q]; [done|].
  intros H. apply negb_true_iff, not_true_is_false. intros H'.
  apply andb_prop in H' as [H1 H2].
  apply N.leb_le in H1, H2.
  apply orb_prop in H as [[H3 H4]%andb_prop | H3].
  - apply N.leb_le in H3, H4. lia.
  - apply N.eqb_eq in H3. lia.
Qed.

Lemma all_digits_no_cspace s : all_digits s = true -> none_of is_cspace s = true.
Proof. apply none_of_weaken, digit_not_cspace. Qed.

Lemma split_head_digits s rest :
  all_digits s = true -> split_head "." (s +:+ String "." rest) = s.
Proof.
  induction s as [|c r IH]; simpl; [done|].
  intros [Hc Hr]%andb_prop. rewrite IH by done.
  destruct (Ascii.eqb_spec c "."); [subst; done | done].
Qed.

Lemma int_digits_step c r prev acc :
  is_digit c = true ->
  int_digits (String c r) prev acc = int_digits r true (10 * acc + digit_val c).
Proof. intros H. simpl. by rewrite H. Qed.

Local Ltac digit_case IH a0 ap :=
  cbn [NilEmpty.string_of_uint]; rewrite int_digits_step by reflexivity;
  match goal with
  | |- context [Z.of_N ?a] =>
      destruct a as [|p];
      [ etransitivity; [| exact (IH a0)] | etransitivity; [| exact (IH (ap p))] ];
      f_equal; unfold digit_val; cbn [code N_of_ascii N_of_digits N.add N.mul]; lia
  end.

Lemma int_digits_uint d : forall a,
  int_digits (NilEmpty.string_of_uint d) true (Z.of_N a) = Some (Z.of_N (uint_acc d a)).
Proof.
  induction d as [|d IH|d IH|d IH|d IH|d IH|d IH|d IH|d IH|d IH|d IH]; intros a.
  - by destruct a.
  - digit_case IH 0%N (fun p => Npos (10 * p)).
  - digit_case IH 1%N (fun p => Npos (1 + 10 * p)).
  - digit_case IH 2%N (fun p => Npos (2 + 10 * p)).
  - digit_case IH 3%N (fun p => Npos (3 + 10 * p)).
  - digit_case IH 4%N (fun p => Npos (4 + 10 * p)).
  - digit_case IH 5%N (fun p => Npos (5 + 10 * p)).
  - digit_case IH 6%N (fun p => Npos (6 + 10 * p)).
  - digit_case IH 7%N (fun p => Npos (7 + 10 * p)).
  - digit_case IH 8%N (fun p => Npos (8 + 10 * p)).
  - digit_case IH 9%N (fun p => Npos (9 + 10 * p)).
Qed.

Lemma all_digits_uint d : all_digits (NilEmpty.string_of_uint d) = true.
Proof. induction d; simpl; done. Qed.

Lemma int_digits_prev s a :
  s <> "" -> all_digits s = true -> int_digits s false a = int_digits s true a.
Proof.
  destruct s as [|c r]; [done|]. simpl. intros _ [Hc _]%andb_prop.
  apply negb_true_iff, negb_false_iff in Hc. by rewrite Hc.
Qed.

(** [str(n)] of a natural number is its decimal numeral. *)
Lemma str_of_Z_uint (n : N) :
  str_of_Z (Z.of_N n) = NilEmpty.string_of_uint (N.to_uint n)
  /\ N.to_uint n <> Decimal.Nil.
Proof.
  destruct n as [|p]; [done|].
  pose proof (DecimalPos.Unsigned.to_uint_nonnil p) as Hnil.
  split; [|done].
  unfold str_of_Z. cbn [Z.of_N Z.to_int NilZero.string_of_int N.to_uint].
  unfold NilZero.string_of_uint. by destruct (Pos.to_uint p).
Qed.

Lemma str_of_Z_digits (n : N) :
  all_digits (str_of_Z (Z.of_N n)) = true /\ str_of_Z (Z.of_N n) <> "".
Proof.
  destruct (str_of_Z_uint n) as [-> Hnil]. split; [apply all_digits_uint|].
  by destruct (N.to_uint n).
Qed.

Lemma int_digits_str_of_Z (n : N) :
  int_digits (str_of_Z (Z.of_N n)) false 0 = Some (Z.of_N n).
Proof.
  destruct (str_of_Z_digits n) as [Hd Hne].
  rewrite int_digits_prev by done.
  destruct (str_of_Z_uint n) as [-> _].
  etransitivity; [exact (int_digits_uint (N.to_uint n) 0%N)|]. cbn [uint_acc].
  by rewrite DecimalN.Unsigned.of_to.
Qed.

Lemma to_ascii_digits s : all_digits s = true -> to_ascii s = s.
Proof.
  unfold to_ascii. induction s as [|c r IH]; [done|].
  cbn [all_digits none_of]. intros [Hc Hr]%andb_prop.
  apply negb_true_iff, negb_false_iff in Hc.
  cbn [to_ascii_from head_char].
  assert (Hlo : between 0 127 c = true).
  { unfold is_digit in Hc. unfold between. apply andb_prop in Hc as [H1 H2].
    apply N.leb_le in H1, H2. apply andb_true_intro. split; apply N.leb_le; lia. }
  rewrite Hlo. unfold to_ascii_char.
  assert (Hlt : (code c <? 127)%N = true).
  { unfold is_digit in Hc. apply andb_prop in Hc as [H1 H2].
    apply N.leb_le in H2. apply N.ltb_lt. lia. }
  rewrite Hlt. unfold code. rewrite ascii_N_embedding. f_equal. by apply IH.
Qed.

Lemma digit_run_digits s : all_digits s = true -> digit_run s = s.
Proof.
  induction s as [|c r IH]; [done|]. cbn [all_digits none_of digit_run].
  intros [Hc Hr]%andb_prop. apply negb_true_iff, negb_false_iff in Hc.
  unfold is_digit_or_underscore. rewrite Hc. cbn [orb]. f_equal. by apply IH.
Qed.

Lemma after_digit_run_digits s : all_digits s = true -> after_digit_run s = "".
Proof.
  induction s as [|c r IH]; [done|]. cbn [all_digits none_of after_digit_run].
  intros [Hc Hr]%andb_prop. apply negb_true_iff, negb_false_iff in Hc.
  unfold is_digit_or_underscore. rewrite Hc. cbn [orb]. by apply IH.
Qed.

Lemma digit_count_digits s :
  all_digits s = true -> digit_count s = N.of_nat (String.length s).
Proof.
  induction s as [|c r IH]; [done|]. cbn [all_digits none_of digit_count String.length].
  intros [Hc Hr]%andb_prop. apply negb_true_iff, negb_false_iff in Hc.
  rewrite Hc, IH by done. lia.
Qed.

(** [int(str(n)) == n] for a natural number within the limit on the
    number of digits. *)
Lemma py_int_str_of_Z (n : N) :
  (N.of_nat (String.length (str_of_Z (Z.of_N n))) <= int_max_str_digits)%N ->
  py_int (str_of_Z (Z.of_N n)) = Some (Z.of_N n).
Proof.
  intros Hlen. destruct (str_of_Z_digits n) as [Hd Hne].
  assert (Hu : int_unsigned (str_of_Z (Z.of_N n)) = IntOk (Z.of_N n)).
  { unfold int_unsigned. rewrite digit_run_digits, after_digit_run_digits by done.
    rewrite int_digits_str_of_Z, digit_count_digits by done.
    apply N.ltb_ge in Hlen. by rewrite Hlen. }
  unfold py_int, int_result_of.
  rewrite to_ascii_digits by done.
  rewrite lstrip_by_none by by apply all_digits_no_cspace.
  destruct (str_of_Z (Z.of_N n)) as [|c r]; [done|].
  simpl in Hd. apply andb_prop in Hd as [Hc _].
  apply negb_true_iff, negb_false_iff in Hc.
  destruct c as [[] [] [] [] [] [] [] []]; try done; by rewrite Hu.
Qed.

(** A literal with more digits than the limit is refused. *)
Lemma py_int_too_long (n : N) :
  (int_max_str_digits < N.of_nat (String.length (str_of_Z (Z.of_N n))))%N ->
  int_result_of (str_of_Z (Z.of_N n))
  = IntTooLong (N.of_nat (String.length (str_of_Z (Z.of_N n)))).
Proof.
  intros Hlen. destruct (str_of_Z_digits n) as [Hd Hne].
  assert (Hu : int_unsigned (str_of_Z (Z.of_N n))
               = IntTooLong (N.of_nat (String.length (str_of_Z (Z.of_N n))))).
  { unfold int_unsigned. rewrite digit_run_digits by done.
    rewrite int_digits_str_of_Z, digit_count_digits by done.
    apply N.ltb_lt in Hlen. by rewrite Hlen. }
  unfold int_result_of.
  rewrite to_ascii_digits by done.
  rewrite lstrip_by_none by by apply all_digits_no_cspace.
  destruct (str_of_Z (Z.of_N n)) as [|c r]; [done|].
  simpl in Hd. apply andb_prop in Hd as [Hc _].
  apply negb_true_iff, negb_false_iff in Hc.
  destruct c as [[] [] [] [] [] [] [] []]; try done; by rewrite Hu.
Qed.

Lemma lstrip_by_head p c r : p c = false -> lstrip_by p (String c r) = String c r.
Proof. simpl. by intros ->. Qed.

(** What [check_node_version] extracts from a banner [v<digits>.<rest>]. *)
Lemma node_major s rest :
  s <> "" -> all_digits s = true ->
  split_head "." (lstrip_char "v" (String "v" (s +:+ String "." rest))) = s.
Proof.
  intros Hne Hd. unfold lstrip_char. cbn [lstrip_by Ascii.eqb Bool.eqb].
  destruct s as [|c r]; [done|].
  change (String c r +:+ String "." rest) with (String c (r +:+ String "." rest)).
  rewrite lstrip_by_head.
  - by apply (split_head_digits (String c r)).
  - simpl in Hd. apply andb_prop in Hd as [Hc _].
    destruct (Ascii.eqb_spec "v" c) as [<-|]; done.
Qed.

End StringFacts.

(** ** The runtime version check *)

Section NodeVersion.
Import PyStr Os.

(** Within the limit on the digits that [int] converts, the check
    compares MAJOR with 18. *)
Lemma check_node_version_within (E : Env) (w : World) (major minor patch : N)
    (out err : string) (f' : gmap path entry) :
  sys_run E ["node"; "--version"] None [] (fs w) = (Ret (mkCompleted 0 out err), f') ->
  strip out = version_banner major minor patch ->
  (N.of_nat (String.length (str_of_Z (Z.of_N major))) <= int_max_str_digits)%N ->
  SystemChecker.check_node_version E w =
    (Ret (if 18 <=? Z.of_N major
          then (true, version_banner major minor patch)
          else (false, "需要Node.js >= 18.0.0, 当前版本: " +:+ version_banner major minor patch)),
     mkWorld f' (EvRun ["node"; "--version"] :: trace w)).
Proof.
  intros Hrun Hout Hlen.
  unfold SystemChecker.check_node_version, try_except, bind, subprocess_run.
  rewrite Hrun. cbn [returncode stdout Z.eqb]. rewrite Hout.
  destruct (str_of_Z_digits major) as [Hd Hne].
  unfold version_banner at 1.
  change ("v" +:+ ?x) with (String "v" x).
  change ("." +:+ ?y) with (String "." y).
  rewrite node_major by done.
  unfold int_. rewrite py_int_str_of_Z by done. unfold ret.
  by destruct (18 <=? Z.of_N major).
Qed.

(** Beyond the limit the conversion of MAJOR is refused, and the refusal
    is reported as a failed check. *)
Lemma check_node_version_too_long (E : Env) (w : World) (major minor patch : N)
    (out err : string) (f' : gmap path entry) :
  sys_run E ["node"; "--version"] None [] (fs w) = (Ret (mkCompleted 0 out err), f') ->
  strip out = version_banner major minor patch ->
  (int_max_str_digits < N.of_nat (String.length (str_of_Z (Z.of_N major))))%N ->
  SystemChecker.check_node_version E w =
    (Ret (false,
          "检查Node.js失败: Exceeds the limit (4300 digits) for integer string "
          +:+ "conversion: value has "
          +:+ str_of_Z (Z.of_nat (String.length (str_of_Z (Z.of_N major))))
          +:+ " digits; use sys.set_int_max_str_digits() to increase the limit"),
     mkWorld f' (EvRun ["node"; "--version"] :: trace w)).
Proof.
  intros Hrun Hout Hlen.
  unfold SystemChecker.check_node_version, try_except, bind, subprocess_run.
  rewrite Hrun. cbn [returncode stdout Z.eqb]. rewrite Hout.
  destruct (str_of_Z_digits major) as [Hd Hne].
  unfold version_banner at 1.
  change ("v" +:+ ?x) with (String "v" x).
  change ("." +:+ ?y) with (String "." y).
  rewrite node_major by done.
  unfold int_, py_int, int_error_text. rewrite py_int_too_long by done.
  unfold raise. cbn [is_Exception exn_str]. unfold ret.
  by rewrite nat_N_Z.
Qed.

(** C4, as the code has it: when [node --version] exits with 0 and prints
    [vMAJOR.MINOR.PATCH] (surrounded by any white space), with MAJOR
    written in at most 4300 digits - the most [int] converts - the check
    succeeds exactly when MAJOR >= 18, whatever MINOR and PATCH are; it
    then returns the banner, and otherwise a message that names the
    required version 18.0.0 and the banner found.  With a longer MAJOR
    the check fails, and its message is that of the refused conversion. *)
Theorem check_node_version_major (E : Env) (w : World) (major minor patch : N)
    (out err : string) (f' : gmap path entry) :
  sys_run E ["node"; "--version"] None [] (fs w) = (Ret (mkCompleted 0 out err), f') ->
  strip out = version_banner major minor patch ->
  SystemChecker.check_node_version E w =
    (Ret (if (N.of_nat (String.length (str_of_Z (Z.of_N major))) <=? int_max_str_digits)%N
          then
            if 18 <=? Z.of_N major
            then (true, version_banner major minor patch)
            else (false,
                  "需要Node.js >= 18.0.0, 当前版本: " +:+ version_banner major minor patch)
          else
            (false,
             "检查Node.js失败: Exceeds the limit (4300 digits) for integer string "
             +:+ "conversion: value has "
             +:+ str_of_Z (Z.of_nat (String.length (str_of_Z (Z.of_N major))))
             +:+ " digits; use sys.set_int_max_str_digits() to increase the limit")),
     mkWorld f' (EvRun ["node"; "--version"] :: trace w)).
Proof.
  intros Hrun Hout.
  destruct (N.le_gt_cases (N.of_nat (String.length (str_of_Z (Z.of_N major))))
              int_max_str_digits) as [Hlen|Hlen].
  - apply N.leb_le in Hlen as Hle. rewrite Hle.
    by apply (check_node_version_within E w major minor patch out err f').
  - apply N.leb_gt in Hlen as Hgt. rewrite Hgt.
    by apply (check_node_version_too_long E w major minor patch out err f').
Qed.

Lemma check_node_version_major_witness :
  SystemChecker.check_node_version (demo_env 0) (mkWorld ∅ []) =
    (Ret (true, "v20.11.1"), mkWorld ∅ [EvRun ["node"; "--version"]]).
Proof.
  exact (check_node_version_major (demo_env 0) (mkWorld ∅ []) 20 11 1
           ("v20.11.1" +:+ String "010" "") "" ∅ eq_refl eq_refl).
Defined.

Lemma of_uint_acc_ge d : forall acc, (acc <= Pos.of_uint_acc d acc)%positive.
Proof.
  induction d as [|d IH|d IH|d IH|d IH|d IH|d IH|d IH|d IH|d IH|d IH]; intros acc;
    cbn [Pos.of_uint_acc]; [lia | etransitivity; [|apply IH]; lia ..].
Qed.

Lemma huge_major_digits : str_of_Z (Z.of_N huge_major) = NilEmpty.string_of_uint huge_uint.
Proof.
  destruct (str_of_Z_uint huge_major) as [-> _].
  unfold huge_major. by rewrite DecimalN.Unsigned.to_of.
Qed.

Lemma huge_major_length : String.length (NilEmpty.string_of_uint huge_uint) = 4301%nat.
Proof. vm_compute. reflexivity. Qed.

(** C4 as stated fails: the runtime exits with 0 and prints a banner whose
    MAJOR has 4301 digits, hence is at least 18, and the check fails. *)
Lemma check_node_version_huge_major :
  18 <= Z.of_N huge_major
  /\ sys_run huge_env ["node"; "--version"] None [] ∅
     = (Ret (mkCompleted 0 (version_banner huge_major 0 0 +:+ String "010" "") ""), ∅)
  /\ strip (version_banner huge_major 0 0 +:+ String "010" "") = version_banner huge_major 0 0
  /\ SystemChecker.check_node_version huge_env (mkWorld ∅ []) =
       (Ret (false,
             "检查Node.js失败: Exceeds the limit (4300 digits) for integer string "
             +:+ "conversion: value has 4301 digits; "
             +:+ "use sys.set_int_max_str_digits() to increase the limit"),
        mkWorld ∅ [EvRun ["node"; "--version"]]).
Proof.
  assert (Hstrip : strip (version_banner huge_major 0 0 +:+ String "010" "")
                   = version_banner huge_major 0 0).
  { unfold version_banner. rewrite huge_major_digits. vm_compute. reflexivity. }
  split; [|split; [reflexivity|split; [exact Hstrip|]]].
  - unfold huge_major, huge_uint. cbn [N.of_uint Pos.of_uint Pos.of_uint_acc Z.of_N].
    pose proof (of_uint_acc_ge huge_tail (10 * (10 * 1))). lia.
  - rewrite (check_node_version_too_long huge_env (mkWorld ∅ []) huge_major 0 0
               (version_banner huge_major 0 0 +:+ String "010" "") "" ∅ eq_refl Hstrip).
    + rewrite huge_major_digits, huge_major_length. reflexivity.
    + rewrite huge_major_digits, huge_major_length. vm_compute. reflexivity.
Qed.

Lemma check_node_version_old :
  SystemChecker.check_node_version
    (mkEnv false (fun _ _ _ f => (Ret (mkCompleted 0 "v16.20.2" ""), f))
       (fun _ _ _ => Ret 1) (fun _ f => (Ret 0, f)) (fun _ _ => Ret 0)
       (fun _ _ => Ret tt) (fun _ => Ret "") "" "" "" "" "")
    (mkWorld ∅ []) =
    (Ret (false, "需要Node.js >= 18.0.0, 当前版本: v16.20.2"),
     mkWorld ∅ [EvRun ["node"; "--version"]]).
Proof. vm_compute. reflexivity. Qed.
End NodeVersion.

(** ** Materialising configuration files *)

Section EnsureFile.
Import PyStr Os ConfigManager.

Lemma path_exists_eq p E w :
  path_exists p E w = (Ret (match fs_get (fs w) p with Some _ => true | None => false end), w).
Proof. reflexivity. Qed.

(** Nothing is done when the target exists. *)
Lemma ensure_file_present target template copying missing E w :
  fs_get (fs w) target <> None ->
  ensure_file target template copying missing E w = (Ret true, w).
Proof.
  intros H. unfold ensure_file, bind. rewrite path_exists_eq.
  by destruct (fs_get (fs w) target).
Qed.

(** Without target and template there is a warning and nothing else. *)
Lemma ensure_file_no_template target template copying missing E w :
  fs_get (fs w) target = None ->
  fs_get (fs w) template = None ->
  ensure_file target template copying missing E w =
    (Ret false, mkWorld (fs w) (EvLog Warning missing :: trace w)).
Proof.
  intros Ht Hs. unfold ensure_file, bind. rewrite !path_exists_eq, Ht. cbn [negb].
  rewrite path_exists_eq, Hs. reflexivity.
Qed.

Lemma ensure_file_idempotent target template copying missing E w :
  fs_get (fs w) target <> None \/ fs_get (fs w) template = None ->
  twice (ensure_file target template copying missing) E w =
    match fs_get (fs w) target with
    | Some _ => (Ret (true, true), w)
    | None =>
        (Ret (false, false),
         mkWorld (fs w) (EvLog Warning missing :: EvLog Warning missing :: trace w))
    end.
Proof.
  intros H. unfold twice, bind.
  destruct (fs_get (fs w) target) as [e|] eqn:Ht.
  - rewrite !ensure_file_present by (rewrite Ht; done). reflexivity.
  - destruct H as [H|Hs]; [done|].
    rewrite ensure_file_no_template by done.
    rewrite ensure_file_no_template by done. reflexivity.
Qed.

Lemma ensure_unfold k :
  ensure k = ensure_file (target_of k) (template_of k) (copying_msg k) (missing_msg k).
Proof. by destruct k. Qed.

(** C6: an ensure operation ([ensure_config_file], and [ensure_env_file]
    alike) called twice.  When the target exists, both calls return
    success and the world is left as it was: no write, no event at all.
    When the target and its template are both missing, both calls return
    failure, the file system is unchanged (so the target is still missing)
    and the only events are the two warnings. *)
Theorem ensure_idempotent (k : config_kind) (E : Env) (w : World) :
  fs_get (fs w) (target_of k) <> None \/ fs_get (fs w) (template_of k) = None ->
  twice (ensure k) E w =
    match fs_get (fs w) (target_of k) with
    | Some _ => (Ret (true, true), w)
    | None =>
        (Ret (false, false),
         mkWorld (fs w)
           (EvLog Warning (missing_msg k) :: EvLog Warning (missing_msg k) :: trace w))
    end.
Proof. rewrite ensure_unfold. apply ensure_file_idempotent. Qed.

Lemma ensure_idempotent_witness :
  twice ConfigManager.ensure_config_file (demo_env 0)
    (mkWorld (<[ ["config"; "config.js"] := File "x" ]> ∅) []) =
    (Ret (true, true), mkWorld (<[ ["config"; "config.js"] := File "x" ]> ∅) [])
  /\ twice ConfigManager.ensure_config_file (demo_env 0) (mkWorld ∅ []) =
    (Ret (false, false),
     mkWorld ∅
       [EvLog Warning "config.example.js文件不存在，无法自动生成config.js";
        EvLog Warning "config.example.js文件不存在，无法自动生成config.js"]).
Proof.
  split.
  - pose proof (ensure_idempotent ConfigJs (demo_env 0)
                  (mkWorld (<[ ["config"; "config.js"] := File "x" ]> ∅) [])) as H.
    vm_compute in H. vm_compute. apply H. by left.
  - pose proof (ensure_idempotent ConfigJs (demo_env 0) (mkWorld ∅ [])) as H.
    vm_compute in H. vm_compute. apply H. by right.
Defined.

End EnsureFile.

Section Copy.
Import PyStr Os ConfigManager.

Lemma write_newlines_posix t : write_newlines (String "010" "") t = t.
Proof.
  induction t as [|c r IH]; simpl; [done|].
  rewrite IH. by destruct (Ascii.eqb_spec c "010") as [->|].
Qed.

Lemma universal_newlines_no_cr c :
  none_of (Ascii.eqb "013") c = true -> universal_newlines c = c.
Proof.
  induction c as [|a r IH]; [done|]. cbn [none_of universal_newlines].
  intros [Ha Hr]%andb_prop. rewrite IH by done.
  rewrite Ascii.eqb_sym. apply negb_true_iff in Ha. by rewrite Ha.
Qed.

Lemma crlf_roundtrip_aux s :
  (crlf_only s = true ->
     write_newlines (String "013" (String "010" "")) (universal_newlines s) = s)
  /\ (forall a, crlf_only (String a s) = true ->
     write_newlines (String "013" (String "010" "")) (universal_newlines (String a s))
     = String a s).
Proof.
  induction s as [|b r [IH1 IH2]].
  - split; [done|]. intros a. cbn [crlf_only universal_newlines].
    destruct (Ascii.eqb_spec a "013"); [done|].
    intros [Hn _]%andb_prop. apply negb_true_iff in Hn.
    cbn [write_newlines]. by rewrite Hn.
  - split; [apply IH2|].
    intros a H. cbn [crlf_only] in H. cbn [universal_newlines].
    destruct (Ascii.eqb a "013") eqn:Ha.
    + apply Ascii.eqb_eq in Ha. subst a.
      apply andb_prop in H as [Hb Hr]. rewrite Hb.
      apply Ascii.eqb_eq in Hb. subst b.
      cbn [write_newlines]. change (Ascii.eqb "010" "010") with true. cbv iota.
      by rewrite IH1.
    + apply andb_prop in H as [Hn Hr].
      cbn [write_newlines]. apply negb_true_iff in Hn. rewrite Hn.
      f_equal. by apply IH2.
Qed.

(** Reading in text mode and writing back gives the same bytes when the
    line ends are the platform's. *)
Lemma native_newlines_roundtrip E c :
  native_newlines E c = true ->
  write_newlines (linesep E) (universal_newlines c) = c.
Proof.
  unfold native_newlines, linesep. destruct (windows E); intros H.
  - by apply crlf_roundtrip_aux.
  - rewrite write_newlines_posix. by apply universal_newlines_no_cr.
Qed.

Lemma universal_newlines_leaves_no_cr_aux s :
  none_of (Ascii.eqb "013") (universal_newlines s) = true
  /\ forall a, none_of (Ascii.eqb "013") (universal_newlines (String a s)) = true.
Proof.
  induction s as [|b r [IH1 IH2]].
  - split; [done|]. intros a. cbn [universal_newlines].
    destruct (Ascii.eqb a "013") eqn:Ha; [done|].
    cbn [none_of]. by rewrite Ascii.eqb_sym, Ha.
  - split; [apply IH2|]. intros a. cbn [universal_newlines].
    destruct (Ascii.eqb a "013") eqn:Ha.
    + destruct (Ascii.eqb b "010"); cbn [none_of];
        change (Ascii.eqb "013" "010") with false; cbn [negb andb]; [exact IH1|apply IH2].
    + cbn [none_of]. rewrite Ascii.eqb_sym, Ha. cbn [negb andb]. apply IH2.
Qed.

(** A text that has been read has no carriage return. *)
Lemma universal_newlines_leaves_no_cr s :
  none_of (Ascii.eqb "013") (universal_newlines s) = true.
Proof. apply universal_newlines_leaves_no_cr_aux. Qed.

(** Written on Windows, such a text has CR LF line ends only. *)
Lemma write_newlines_crlf_only t :
  none_of (Ascii.eqb "013") t = true ->
  crlf_only (write_newlines (String "013" (String "010" "")) t) = true.
Proof.
  induction t as [|c r IH]; [done|]. cbn [none_of write_newlines].
  intros [Hc Hr]%andb_prop. apply negb_true_iff in Hc. rewrite Ascii.eqb_sym in Hc.
  destruct (Ascii.eqb c "010") eqn:Hlf.
  - change (String "013" (String "010" "") +:+ ?x) with (String "013" (String "010" x)).
    cbn [crlf_only]. change (Ascii.eqb "013" "013") with true.
    change (Ascii.eqb "010" "010") with true. cbn [andb]. by apply IH.
  - cbn [crlf_only]. rewrite Hc, Hlf. cbn [negb andb]. by apply IH.
Qed.

(** The copy gives the bytes back exactly for the texts whose line ends
    are the platform's. *)
Lemma native_newlines_iff E c :
  native_newlines E c = true <->
  write_newlines (linesep E) (universal_newlines c) = c.
Proof.
  split; [apply native_newlines_roundtrip|].
  unfold native_newlines, linesep. destruct (windows E); intros H.
  - rewrite <- H. apply write_newlines_crlf_only, universal_newlines_leaves_no_cr.
  - rewrite write_newlines_posix in H. rewrite <- H.
    apply universal_newlines_leaves_no_cr.
Qed.

(** The copy, for every template that is a file: the text goes through a
    decoding read and an encoding write. *)
Lemma ensure_file_copies target template copying missing E w c :
  fs_get (fs w) target = None ->
  fs_get (fs w) (parent target) = Some Dir ->
  fs_get (fs w) template = Some (File c) ->
  ensure_file target template copying missing E w =
    if Codec.utf8_valid c then
      (Ret true,
       mkWorld (<[target := File (write_newlines (linesep E) (universal_newlines c))]> (fs w))
               (EvWrite target :: EvLog Info copying :: trace w))
    else
      (Raise (Exc UnicodeDecodeError (decode_error_text E c)),
       mkWorld (<[target := File ""]> (fs w))
               (EvWrite target :: EvLog Info copying :: trace w)).
Proof.
  intros Ht Hp Hs.
  unfold ensure_file, bind. rewrite !path_exists_eq, Ht. cbn [negb].
  rewrite path_exists_eq, Hs.
  unfold Logger.info, emit, open_read, bind, get_fs. cbn [fs trace].
  rewrite Hs. unfold ret at 1. unfold open_write, bind, get_fs; cbn [fs trace].
  rewrite Ht, Hp. unfold put_fs, emit; cbn [fs trace].
  unfold read_text. destruct (Codec.utf8_valid c); [|reflexivity].
  unfold ret at 1.
  unfold write_text, bind, ask, get_fs, put_fs, ret; cbn [fs trace].
  by rewrite insert_insert_eq.
Qed.

Lemma wf_parent f p e : fs_wf f -> f !! p = Some e -> fs_get f (parent p) = Some Dir.
Proof. intros Hwf Hp. exact (Hwf p e Hp). Qed.

(** C8, as the code has it: the copy is a copy of text.  When the target
    is absent and the template is a file of valid UTF-8, the ensure
    operation returns success and leaves the target with the template's
    text, its line ends translated: CR LF and CR are read as LF, and LF is
    written as the platform's line end.  That is the template's content,
    byte for byte, exactly when its line ends are the platform's own (no
    carriage return on POSIX, CR LF pairs only on Windows).  When the
    template is not valid UTF-8 the operation raises [UnicodeDecodeError]
    and leaves the target created and empty.  The template and every
    other entry are untouched either way. *)
Theorem ensure_copies_text (k : config_kind) (E : Env) (w : World) (c : string) :
  fs_wf (fs w) ->
  fs_get (fs w) (target_of k) = None ->
  fs_get (fs w) (template_of k) = Some (File c) ->
  if Codec.utf8_valid c then
    ensure k E w =
      (Ret true,
       mkWorld (<[target_of k :=
                    File (write_newlines (linesep E) (universal_newlines c))]> (fs w))
               (EvWrite (target_of k) :: EvLog Info (copying_msg k) :: trace w))
    /\ (native_newlines E c = true <->
        write_newlines (linesep E) (universal_newlines c) = c)
  else
    ensure k E w =
      (Raise (Exc UnicodeDecodeError (decode_error_text E c)),
       mkWorld (<[target_of k := File ""]> (fs w))
               (EvWrite (target_of k) :: EvLog Info (copying_msg k) :: trace w)).
Proof.
  intros Hwf Ht Hs.
  assert (Hp : fs_get (fs w) (parent (target_of k)) = Some Dir).
  { destruct k; [done|]. exact (wf_parent _ _ _ Hwf Hs). }
  rewrite ensure_unfold.
  rewrite (ensure_file_copies _ _ _ _ E w c Ht Hp Hs).
  destruct (Codec.utf8_valid c); [|done].
  split; [done|]. apply native_newlines_iff.
Qed.

Lemma fresh_checkout_wf : fs_wf fresh_checkout.
Proof. apply (bool_decide_unpack _). vm_compute. reflexivity. Qed.

Lemma ensure_copies_text_witness :
  (ensure ConfigJs (demo_env 0)
     (mkWorld (<[ ["config"; "config.example.js"] := File "PORT=3000" ]> fresh_checkout) []) =
     (Ret true,
      mkWorld (<[ ["config"; "config.js"] :=
                    File (write_newlines (linesep (demo_env 0))
                            (universal_newlines "PORT=3000")) ]>
                 (<[ ["config"; "config.example.js"] := File "PORT=3000" ]> fresh_checkout))
              [EvWrite ["config"; "config.js"];
               EvLog Info "复制config.example.js到config.js"])
   /\ (native_newlines (demo_env 0) "PORT=3000" = true <->
       write_newlines (linesep (demo_env 0)) (universal_newlines "PORT=3000") = "PORT=3000"))
  /\ ensure EnvFile (demo_env 0)
       (mkWorld (<[ [".env.example"] := File (String "255" "") ]> fresh_checkout) []) =
       (Raise (Exc UnicodeDecodeError (decode_error_text (demo_env 0) (String "255" ""))),
        mkWorld (<[ [".env"] := File "" ]>
                   (<[ [".env.example"] := File (String "255" "") ]> fresh_checkout))
                [EvWrite [".env"]; EvLog Info "复制.env.example到.env"]).
Proof.
  set (w := mkWorld (<[ ["config"; "config.example.js"] := File "PORT=3000" ]> fresh_checkout) []).
  set (w2 := mkWorld (<[ [".env.example"] := File (String "255" "") ]> fresh_checkout) []).
  assert (Hwf : fs_wf (fs w)) by (apply (bool_decide_unpack _); vm_compute; reflexivity).
  assert (Ht : fs_get (fs w) (target_of ConfigJs) = None) by (vm_compute; reflexivity).
  assert (Hs : fs_get (fs w) (template_of ConfigJs) = Some (File "PORT=3000"))
    by (vm_compute; reflexivity).
  assert (Hwf2 : fs_wf (fs w2)) by (apply (bool_decide_unpack _); vm_compute; reflexivity).
  assert (Ht2 : fs_get (fs w2) (target_of EnvFile) = None) by (vm_compute; reflexivity).
  assert (Hs2 : fs_get (fs w2) (template_of EnvFile) = Some (File (String "255" "")))
    by (vm_compute; reflexivity).
  split.
  - exact (ensure_copies_text ConfigJs (demo_env 0) w "PORT=3000" Hwf Ht Hs).
  - exact (ensure_copies_text EnvFile (demo_env 0) w2 (String "255" "") Hwf2 Ht2 Hs2).
Defined.

(** C8 as stated fails: a template with CR LF line ends is copied with
    LF line ends on a POSIX host. *)
Lemma ensure_copy_not_bytewise :
  fs_get fresh_checkout config_file = None
  /\ fs_get fresh_checkout config_example = Some (File crlf_template)
  /\ exists w',
       ensure_config_file (demo_env 0) (mkWorld fresh_checkout []) = (Ret true, w')
       /\ fs_get (fs w') config_file = Some (File ("PORT=3000" +:+ String "010" ""))
       /\ fs_get (fs w') config_file <> fs_get fresh_checkout config_example.
Proof.
  split; [vm_compute; reflexivity|]. split; [vm_compute; reflexivity|].
  exists (mkWorld (<[config_file := File ("PORT=3000" +:+ String "010" "")]> fresh_checkout)
            [EvWrite config_file; EvLog Info "复制config.example.js到config.js"]).
  split; [vm_compute; reflexivity|].
  split; [vm_compute; reflexivity|]. vm_compute. discriminate.
Qed.

End Copy.

(** ** The start configuration *)

Section StartConfig.
Import PyStr Os ConfigManager.

(** C5, as the code has it: when the start-config file holds a JSON
    object, loading returns the defaults overlaid by it.  Every key of
    the file is in the result with the file's value - whether it
    overrides a default or is unknown to the defaults - and every other
    key has its default. *)
Theorem load_start_config_overlay (json_load : string -> res (gmap string json))
    (E : Env) (w : World) (raw : string) (user : gmap string json) :
  fs_get (fs w) start_config_file = Some (File raw) ->
  Codec.utf8_valid raw = true ->
  json_load (universal_newlines raw) = Ret user ->
  exists cfg,
    load_start_config json_load E w = (Ret cfg, w)
    /\ (forall k v, user !! k = Some v -> cfg !! k = Some v)
    /\ (forall k, user !! k = None -> cfg !! k = default_config !! k).
Proof.
  intros Hf Hv Hj. exists (user ∪ default_config). split; [|split].
  - unfold load_start_config, bind. rewrite path_exists_eq, Hf.
    unfold try_except, open_read, bind, get_fs. cbn [fs]. rewrite Hf.
    unfold ret at 1. unfold read_text. rewrite Hv. unfold ret at 1.
    unfold lift_res. rewrite Hj. reflexivity.
  - intros k v Hk. by apply lookup_union_Some_l.
  - intros k Hk. by apply lookup_union_r.
Qed.

Lemma load_start_config_overlay_witness :
  exists cfg,
    load_start_config theme_loader (demo_env 0) (mkWorld theme_project []) =
      (Ret cfg, mkWorld theme_project [])
    /\ (forall k v, theme_config !! k = Some v -> cfg !! k = Some v)
    /\ (forall k, theme_config !! k = None -> cfg !! k = default_config !! k).
Proof.
  assert (Hf : fs_get (fs (mkWorld theme_project [])) start_config_file
               = Some (File theme_text)) by (vm_compute; reflexivity).
  exact (load_start_config_overlay theme_loader (demo_env 0) (mkWorld theme_project [])
           theme_text theme_config Hf eq_refl eq_refl).
Defined.

(** C5 as stated fails: a key of the file that the defaults do not have
    is not ignored, it is in the result. *)
Lemma load_start_config_keeps_unknown_key :
  default_config !! "theme" = None
  /\ exists cfg w',
       load_start_config theme_loader (demo_env 0) (mkWorld theme_project []) = (Ret cfg, w')
       /\ cfg !! "theme" = Some (JStr "dark").
Proof.
  split; [vm_compute; reflexivity|].
  exists (theme_config ∪ default_config), (mkWorld theme_project []).
  split; vm_compute; reflexivity.
Qed.

(** When the file is missing the defaults are returned. *)
Lemma load_start_config_absent json_load E w :
  fs_get (fs w) start_config_file = None ->
  load_start_config json_load E w = (Ret default_config, w).
Proof.
  intros Hf. unfold load_start_config, bind. by rewrite path_exists_eq, Hf.
Qed.

End StartConfig.

(** ** The PID file *)

Section PidFile.
Import PyStr Os ProcessManager.


(** The liveness probe on POSIX, in terms of [os.kill(pid, 0)]. *)
Lemma is_process_running_posix E w pid :
  windows E = false ->
  is_process_running pid E w =
    let w1 := mkWorld (fs w) (EvKill pid 0 :: trace w) in
    match sys_kill E pid 0 with
    | Ret _ => (Ret true, w1)
    | Raise e =>
        if is_OSError e || is_SubprocessError e then (Ret false, w1)
        else (Raise e, w1)
    end.
Proof.
  intros Hw. unfold is_process_running, try_except, bind, ask.
  rewrite Hw. unfold kill. by destruct (sys_kill E pid 0).
Qed.




(** C9: a PID file whose content is not an integer - bytes that do not
    decode, or a text that [int] refuses - makes [get_running_pid] return
    none and is left in place; nothing at all changes, and no process is
    probed. *)
Theorem get_running_pid_malformed (E : Env) (w : World) (raw : string) :
  fs_get (fs w) pid_file = Some (File raw) ->
  read_pid E raw = None ->
  get_running_pid E w = (Ret None, w)
  /\ fs_get (fs w) pid_file = Some (File raw).
Proof.
  intros Hf Hp. split; [|done]. unfold read_pid in Hp.
  unfold get_running_pid, bind. rewrite path_exists_eq, Hf.
  unfold try_except, open_read, bind, get_fs. cbn [fs]. rewrite Hf.
  unfold ret at 1. unfold read_locale_text, bind, ask.
  destruct (locale_decode E raw); [|reflexivity].
  unfold ret at 1. unfold int_. by rewrite Hp.
Qed.

End PidFile.

(** ** The launcher *)

Section Launcher.
Import PyStr Os ClaudeRelayStarter.

(** C10: without a mode the launcher prints the help text, does nothing
    else, and exits with status 0. *)
Theorem launcher_no_mode (E : Env) (w : World)
    (port : option Z) (daemon rebuild : option bool) (action : option string) :
  launcher (mkNamespace None port daemon rebuild action) E w =
    (0, mkWorld (fs w) (EvPrintHelp :: trace w)).
Proof. reflexivity. Qed.

(** C2 fails on the code: with [REDIS_PORT=abc] in [.env] the status mode
    ends with exit status 1. *)
Lemma status_bad_port_exit_1 :
  fst (launcher status_args (demo_env 0) (mkWorld bad_port_project [])) = 1.
Proof. vm_compute. reflexivity. Qed.

(** C3 fails on the code: with [REDIS_PORT=abc] in [.env] the Redis
    availability check raises [ValueError]. *)
Lemma check_redis_availability_raises :
  fst (ServiceStarter.check_redis_availability (demo_env 0) (mkWorld bad_port_project []))
  = Raise (Exc ValueError "invalid literal for int() with base 10: 'abc'").
Proof. vm_compute. reflexivity. Qed.

Example status_ready_exit_0 :
  fst (launcher status_args (demo_env 0) (mkWorld ready_project [])) = 0.
Proof. vm_compute. reflexivity. Qed.

(** C1 as stated fails: the gates pass, the dev server is spawned and
    exits with status 1, and the launcher exits with status 0. *)
Lemma foreground_child_failure_exit_0 :
  sys_wait (demo_env 1) 4242 ready_project = (Ret 1, ready_project)
  /\ fst (launcher dev_args (demo_env 1) (mkWorld ready_project [])) = 0
  /\ hd_error (trace (snd (launcher dev_args (demo_env 1) (mkWorld ready_project []))))
     = Some (EvWait 4242)
  /\ In (EvSpawn ["npm"; "run"; "dev"] 4242)
        (trace (snd (launcher dev_args (demo_env 1) (mkWorld ready_project [])))).
Proof.
  split; [reflexivity|]. split; [vm_compute; reflexivity|].
  split; [vm_compute; reflexivity|]. vm_compute. tauto.
Qed.

Example prod_child_failure_exit_0 :
  fst (launcher prod_args (demo_env 1) (mkWorld ready_project [])) = 0.
Proof. vm_compute. reflexivity. Qed.

End Launcher.

Section Foreground.
Import PyStr Os ClaudeRelayStarter.

(** A foreground server that is spawned and runs to its end makes
    [foreground] return [True], whatever the child's exit status. *)
Lemma foreground_waits cmd env_name args started interrupted failed E w pid C f2 :
  sys_popen E cmd (child_env env_name args) (fs w) = Ret pid ->
  sys_wait E pid (fs w) = (Ret C, f2) ->
  exists tr,
    foreground cmd env_name args started interrupted failed E w =
      (Ret true, mkWorld f2 (EvWait pid :: tr)).
Proof.
  intros Hp Hw. eexists.
  unfold foreground, try_except2, bind, Logger.debug, Logger.success, Logger.info,
    emit, popen, wait. cbn [fs trace].
  rewrite Hp. cbn [fs trace]. rewrite Hw. reflexivity.
Qed.

(** C1, as the code has it: in dev mode and in foreground prod mode, when
    the gates pass and the server is spawned and exits with status [C],
    the launcher waits for it and exits with status 0 - for [C = 0] and
    for every other [C] alike. *)
Theorem foreground_exit_status (m : fg_mode) (args : Namespace) (E : Env)
    (w w1 : World) (pid C : Z) (f2 : gmap path entry) :
  ns_mode args = Some (mode_name m) ->
  (m = FgProd -> default false (ns_daemon args) = false) ->
  preflight m args E (mkWorld (fs w) (EvLog Header (mode_header m) :: trace w)) = (Ret true, w1) ->
  sys_popen E (server_cmd m) (child_env (node_env m) args) (fs w1) = Ret pid ->
  sys_wait E pid (fs w1) = (Ret C, f2) ->
  exists tr, launcher args E w = (0, mkWorld f2 (EvWait pid :: tr)).
Proof.
  intros Hmode Hfg Hpre Hp Hw.
  unfold launcher, main. rewrite Hmode.
  destruct m; cbn [mode_name mode_header preflight server_cmd node_env] in *.
  - unfold try_except2, dispatch. cbn [String.eqb Ascii.eqb Bool.eqb].
    unfold bind at 1. unfold start_dev_mode. unfold bind at 1 2.
    unfold Logger.header, emit at 1. rewrite Hpre. cbn [negb].
    unfold dev_launch, bind at 1. unfold Logger.info at 1. unfold emit at 1.
    cbn [fs trace].
    edestruct (foreground_waits ["npm"; "run"; "dev"] "development" args
                "开发服务器启动成功" "用户中断" "启动开发服务器失败: " E
                (mkWorld (fs w1) (EvLog Info "启动开发服务器..." :: trace w1)))
      as [tr Hrun]; [exact Hp | exact Hw |].
    rewrite Hrun. eexists. reflexivity.
  - unfold try_except2, dispatch. cbn [String.eqb Ascii.eqb Bool.eqb].
    unfold bind at 1. unfold start_prod_mode. unfold bind at 1 2.
    unfold Logger.header, emit at 1. rewrite Hpre. cbn [negb].
    rewrite (Hfg eq_refl).
    unfold prod_launch_foreground, bind at 1. unfold Logger.info at 1. unfold emit at 1.
    cbn [fs trace].
    edestruct (foreground_waits ["npm"; "start"] "production" args
                "生产服务器启动成功" "用户中断" "启动生产服务器失败: " E
                (mkWorld (fs w1) (EvLog Info "启动前台生产服务器..." :: trace w1)))
      as [tr Hrun]; [exact Hp | exact Hw |].
    rewrite Hrun. eexists. reflexivity.
Qed.
Lemma foreground_exit_status_witness :
  exists tr,
    launcher prod_args (demo_env 1) (mkWorld ready_project []) =
      (0, mkWorld
            (fs (snd (preflight FgProd prod_args (demo_env 1)
                        (mkWorld ready_project [EvLog Header (mode_header FgProd)]))))
            (EvWait 4242 :: tr)).
Proof.
  set (w1 := snd (preflight FgProd prod_args (demo_env 1)
                    (mkWorld ready_project [EvLog Header (mode_header FgProd)]))).
  assert (Hpre : preflight FgProd prod_args (demo_env 1)
                   (mkWorld ready_project [EvLog Header (mode_header FgProd)])
                 = (Ret true, w1)) by (vm_compute; reflexivity).
  exact (foreground_exit_status FgProd prod_args (demo_env 1) (mkWorld ready_project [])
           w1 4242 1 (fs w1) eq_refl (fun _ => eq_refl) Hpre eq_refl eq_refl).
Defined.

End Foreground.

(** ** Probes and exceptions *)

Section Probes.
Import PyStr Os SystemChecker.

Lemma ret_contains {A} (a : A) : contains_exceptions (ret a).
Proof. by intros E w. Qed.

Lemma try_except_contains {A} (body : M A) (handler : raised -> M A) :
  (forall e, contains_exceptions (handler e)) ->
  contains_exceptions (try_except body is_Exception handler).
Proof.
  intros Hh E w. unfold try_except.
  destruct (body E w) as [[a|e] w']; [done|].
  destruct (is_Exception e) eqn:He; [apply Hh | done].
Qed.

(** The probes of [SystemChecker] fold every [Exception] into their
    result. *)
Lemma check_node_version_contains : contains_exceptions check_node_version.
Proof. apply try_except_contains. intros e. apply ret_contains. Qed.

Lemma check_tool_contains cmd missing failed :
  contains_exceptions (check_tool cmd missing failed).
Proof. apply try_except_contains. intros e. apply ret_contains. Qed.

Lemma check_port_available_contains port :
  contains_exceptions (check_port_available port).
Proof. apply try_except_contains. intros e. apply ret_contains. Qed.

Lemma check_redis_connection_contains host port :
  contains_exceptions (check_redis_connection host port).
Proof. apply try_except_contains. intros e. apply ret_contains. Qed.

(** [get_env_value] does too. *)
Lemma get_env_value_contains key default :
  contains_exceptions (ConfigManager.get_env_value key default).
Proof.
  intros E w. unfold ConfigManager.get_env_value, bind. rewrite path_exists_eq.
  destruct (fs_get (fs w) ConfigManager.env_file); [|done]. cbn [negb].
  apply try_except_contains. intros x. apply ret_contains.
Qed.

End Probes.

Section PidFileExamples.
Import PyStr Os ProcessManager.



(** On Windows a stale PID file is not removed: it is still open when
    the launcher asks for its removal, the call is refused, and the
    [PermissionError] reaches the caller. *)
Example get_running_pid_windows_stale :
  get_running_pid windows_env (mkWorld (pid_project "4242") []) =
    (Raise (Exc PermissionError
              (os_error_text windows_env PermissionError pid_file)),
     mkWorld (pid_project "4242") [EvRun (tasklist_cmd 4242)]).
Proof. vm_compute. reflexivity. Qed.

Lemma get_running_pid_malformed_witness :
  get_running_pid (demo_env 0) (mkWorld (pid_project "not-a-pid") []) =
    (Ret None, mkWorld (pid_project "not-a-pid") [])
  /\ fs_get (pid_project "not-a-pid") pid_file = Some (File "not-a-pid").
Proof.
  assert (Hf : fs_get (fs (mkWorld (pid_project "not-a-pid") [])) pid_file
               = Some (File "not-a-pid")) by (vm_compute; reflexivity).
  exact (get_running_pid_malformed (demo_env 0) (mkWorld (pid_project "not-a-pid") [])
           "not-a-pid" Hf eq_refl).
Defined.

(** An empty PID file and one that is not text are malformed too; white
    space and digits of any script are read as [int] reads them. *)
Example read_pid_examples :
  read_pid (demo_env 0) "" = None /\ read_pid (demo_env 0) (String "255" "") = None
  /\ read_pid (demo_env 0) " 17 " = Some 17 /\ read_pid (demo_env 0) "12a" = None
  /\ read_pid (demo_env 0) (String "194" (String "160" "4242")) = Some 4242
  /\ read_pid (demo_env 0) "４２４２" = Some 4242.
Proof. repeat split; vm_compute; reflexivity. Qed.

End PidFileExamples.

(** ** The status report *)

Section Status.
Import PyStr Os ClaudeRelayStarter.

Lemma bind_ret_inv {A B} (m : M A) (k : A -> M B) E w b w' :
  bind m k E w = (Ret b, w') ->
  exists a w1, m E w = (Ret a, w1) /\ k a E w1 = (Ret b, w').
Proof.
  unfold bind. destruct (m E w) as [[a|e] w1]; [|done]. eauto.
Qed.

(** [show_status] has one result, [True]. *)
Lemma show_status_returns_true E w b w' :
  show_status E w = (Ret b, w') -> b = true.
Proof.
  unfold show_status. intros H.
  do 2 (apply bind_ret_inv in H as (? & ? & _ & H)).
  match type of H with
  | ?f E ?wx = _ =>
      match goal with
      | x : (string * string * string * string * string)%type |- _ =>
          destruct x as [[[[? ?] ?] ?] ?]
      end
  end.
  repeat (apply bind_ret_inv in H as (? & ? & _ & H)).
  by inversion H.
Qed.

(** The exit status of the status mode: 0 unless something is raised on
    the way, and then 1 for an [Exception]. *)
Lemma launcher_status E w :
  fst (launcher status_args E w) =
    match fst (show_status E w) with
    | Ret _ => 0
    | Raise (Exc KeyboardInterrupt _) => 0
    | Raise (Exc _ _) => 1
    | Raise (SystemExit code) => code
    end.
Proof.
  unfold launcher, main, status_args, ns_mode, try_except2, dispatch.
  cbn [String.eqb Ascii.eqb Bool.eqb]. unfold bind.
  destruct (show_status E w) as [[b|e] w1] eqn:Hs.
  - apply show_status_returns_true in Hs as ->. reflexivity.
  - cbn [fst]. destruct e as [c msg|code]; [|reflexivity]. by destruct c.
Qed.

(** The defect behind C2 and C3, in general: whenever the first
    [REDIS_PORT=] line of [.env] does not hold an integer literal,
    [check_redis_availability] raises [ValueError] before any probe. *)
Lemma check_redis_availability_bad_port E w raw v :
  fs_get (fs w) ConfigManager.env_file = Some (File raw) ->
  Codec.utf8_valid raw = true ->
  ConfigManager.scan_env "REDIS_PORT" (lines (universal_newlines raw)) = Some v ->
  py_int v = None ->
  ServiceStarter.check_redis_availability E w =
    (Raise (Exc ValueError (int_error_text v)), w).
Proof.
  intros Hf Hv Hs Hp.
  assert (Hget : forall key default,
    ConfigManager.get_env_value key default E w =
      (Ret (match ConfigManager.scan_env key (lines (universal_newlines raw)) with
            | Some x => x | None => default end), w)).
  { intros key default. unfold ConfigManager.get_env_value, bind.
    rewrite path_exists_eq, Hf. cbn [negb].
    unfold try_except, open_read, bind, get_fs. rewrite Hf.
    unfold ret at 1. unfold iter_lines, bind, ask. rewrite Hv. unfold ret at 1.
    cbn [fst snd]. by destruct (ConfigManager.scan_env key _). }
  unfold ServiceStarter.check_redis_availability, bind.
  rewrite !Hget, Hs. unfold int_. by rewrite Hp.
Qed.

End Status.

(** ** Further examples *)

Section Examples.
Import PyStr Os.

Example utf8_valid_examples :
  Codec.utf8_valid "复制.env.example到.env ✅" = true
  /\ Codec.utf8_valid (String "239" (String "187" (String "191" "x"))) = true
  /\ Codec.utf8_valid (String "240" (String "159" (String "154" (String "128" "")))) = true
  /\ Codec.utf8_valid (String "192" (String "128" "")) = false
  /\ Codec.utf8_valid (String "237" (String "160" (String "128" ""))) = false
  /\ Codec.utf8_valid (String "244" (String "144" (String "128" (String "128" "")))) = false
  /\ Codec.utf8_valid (String "228" (String "184" "")) = false
  /\ Codec.utf8_valid (String "128" "") = false
  /\ Codec.utf8_valid (String "255" "") = false.
Proof. repeat split; vm_compute; reflexivity. Qed.

Example string_method_examples :
  words "  TCP    0.0.0.0:3000   0.0.0.0:0    LISTENING   4711 "
    = ["TCP"; "0.0.0.0:3000"; "0.0.0.0:0"; "LISTENING"; "4711"]
  /\ split_on "," "a,,b," = ["a"; ""; "b"; ""]
  /\ split_on "," "" = [""]
  /\ lines ("a" +:+ String "010" "b") = ["a" +:+ String "010" ""; "b"]
  /\ lines "" = []
  /\ contains "LISTENING" "x LISTENING y" = true
  /\ lower "Y" = "y"
  /\ join " " ["npm"; "run"; "dev"] = "npm run dev".
Proof. repeat split; vm_compute; reflexivity. Qed.

Example scan_env_examples :
  ConfigManager.scan_env "REDIS_PORT" ["# c"; " REDIS_PORT=6380 "; "REDIS_PORT=1"] = Some "6380"
  /\ ConfigManager.scan_env "A" ["A=b=c"] = Some "b=c"
  /\ ConfigManager.scan_env "A" ["AB=1"] = None.
Proof. repeat split; vm_compute; reflexivity. Qed.

(** On Windows a template with LF line ends is copied with CR LF. *)
Example ensure_env_file_windows :
  fs_get (fs (snd (ConfigManager.ensure_env_file windows_env
                     (mkWorld {[ [".env.example"] := File ("A=1" +:+ String "010" "") ]} []))))
         [".env"]
  = Some (File ("A=1" +:+ String "013" (String "010" ""))).
Proof. vm_compute. reflexivity. Qed.

(** A template that is not UTF-8 makes the copy raise, after the target
    has been created empty. *)
Example ensure_env_file_not_utf8 :
  ConfigManager.ensure_env_file (demo_env 0)
    (mkWorld {[ [".env.example"] := File (String "255" "") ]} [])
  = (Raise (Exc UnicodeDecodeError
              "'utf-8' codec can't decode byte 0xff in position 0: invalid start byte"),
     mkWorld (<[ [".env"] := File "" ]> {[ [".env.example"] := File (String "255" "") ]})
             [EvWrite [".env"]; EvLog Info "复制.env.example到.env"]).
Proof. vm_compute. reflexivity. Qed.

(** The service mode does read the exit status of its command. *)
Example service_failure_exit_1 :
  fst (launcher (mkNamespace (Some "service") None None None (Some "start"))
         (mkEnv false (fun _ _ _ f => (Ret (mkCompleted 3 "" ""), f))
            (fun _ _ _ => Ret 1) (fun _ f => (Ret 0, f)) (fun _ _ => Ret 0)
            (fun _ _ => Ret tt) (fun _ => Ret "") "" "" "" "" "")
         (mkWorld ∅ [])) = 1.
Proof. vm_compute. reflexivity. Qed.

End Examples.

(** * Further properties of the code *)

(** ** Environment prober *)

Section ProberExtras.
Import PyStr Os SystemChecker.

(** X1: none of the six probes of [SystemChecker] lets an [Exception] out,
    whatever the subprocess or the socket does: a missing tool, a timeout,
    an unparsable banner, an unresolvable host all end in a result. *)
Theorem probes_contain_exceptions :
  contains_exceptions check_node_version
  /\ contains_exceptions check_npm_installed
  /\ contains_exceptions check_docker_installed
  /\ contains_exceptions check_docker_compose_installed
  /\ (forall port, contains_exceptions (check_port_available port))
  /\ (forall host port, contains_exceptions (check_redis_connection host port)).
Proof.
  repeat split; intros; apply try_except_contains; intros x; apply ret_contains.
Qed.

(** X2: on [localhost] the port check and the Redis check are exact
    opposites for every outcome of the connect: a connect that succeeds
    means "port occupied" and "Redis reachable"; a refused connect and a
    failing one (an [Exception]) both mean "port free" and "Redis
    unreachable". *)
Theorem port_and_redis_checks_are_opposite (E : Env) (w : World) (port : Z) :
  match sys_connect_ex E "localhost" port with
  | Raise e => is_Exception e = true
  | Ret _ => True
  end ->
  exists b,
    check_port_available port E w
      = (Ret b, mkWorld (fs w) (EvConnect "localhost" port :: trace w))
    /\ check_redis_connection "localhost" port E w
      = (Ret (negb b), mkWorld (fs w) (EvConnect "localhost" port :: trace w))
    /\ (b = false <-> sys_connect_ex E "localhost" port = Ret 0).
Proof.
  intros H. unfold check_port_available, check_redis_connection, try_except, bind, connect_ex.
  destruct (sys_connect_ex E "localhost" port) as [r|e] eqn:Hc.
  - exists (negb (r =? 0)). rewrite negb_involutive. repeat split.
    + intros Hb. apply negb_false_iff, Z.eqb_eq in Hb. by subst.
    + intros [= ->]. reflexivity.
  - rewrite H. exists true. repeat split; [done|]. intros [=].
Qed.

Lemma port_and_redis_checks_are_opposite_witness :
  exists b,
    check_port_available 3000 (demo_env 0) (mkWorld ∅ [])
      = (Ret b, mkWorld ∅ [EvConnect "localhost" 3000])
    /\ check_redis_connection "localhost" 3000 (demo_env 0) (mkWorld ∅ [])
      = (Ret (negb b), mkWorld ∅ [EvConnect "localhost" 3000])
    /\ (b = false <-> sys_connect_ex (demo_env 0) "localhost" 3000 = Ret 0).
Proof.
  exact (port_and_redis_checks_are_opposite (demo_env 0) (mkWorld ∅ []) 3000 I).
Defined.

(** X3: the runtime check succeeds only on a zero exit status and a banner
    whose text before the first dot, leading [v]s removed, is an integer
    literal of at least 18; the detail it returns is the stripped banner. *)
Theorem check_node_version_sound (E : Env) (w w' : World) (v : string) :
  check_node_version E w = (Ret (true, v), w') ->
  exists out err f',
    sys_run E ["node"; "--version"] None [] (fs w) = (Ret (mkCompleted 0 out err), f')
    /\ v = strip out
    /\ exists n, py_int (split_head "." (lstrip_char "v" v)) = Some n /\ 18 <= n.
Proof.
  unfold check_node_version, try_except, bind, subprocess_run.
  destruct (sys_run E ["node"; "--version"] None [] (fs w)) as [[[rc out err]|e] f'] eqn:Hr.
  - cbn [returncode stdout]. destruct (Z.eqb_spec rc 0) as [->|Hrc].
    + unfold int_. destruct (py_int _) as [n|] eqn:Hn.
      * unfold ret at 1. destruct (Z.leb_spec 18 n) as [Hle|Hlt].
        -- intros [= <- <-]. exists out, err, f'. repeat split. eauto.
        -- intros [=].
      * unfold raise. cbn [is_Exception]. intros [=].
    + intros [=].
  - destruct (is_Exception e); intros [=].
Qed.

Lemma check_node_version_sound_witness :
  exists out err f',
    sys_run (demo_env 0) ["node"; "--version"] None [] ∅ = (Ret (mkCompleted 0 out err), f')
    /\ "v20.11.1" = strip out
    /\ exists n, py_int (split_head "." (lstrip_char "v" "v20.11.1")) = Some n /\ 18 <= n.
Proof.
  exact (check_node_version_sound (demo_env 0) (mkWorld ∅ [])
           (mkWorld ∅ [EvRun ["node"; "--version"]]) "v20.11.1" eq_refl).
Defined.

End ProberExtras.

(** ** Configuration files *)

Section ConfigExtras.
Import PyStr Os ConfigManager.

Lemma startswith_app p s : startswith p (p +:+ s) = true.
Proof.
  induction p as [|a p IH]; [done|].
  change (String a p +:+ s) with (String a (p +:+ s)). cbn [startswith].
  by rewrite Ascii.eqb_refl.
Qed.

Lemma split_tail_key key v :
  none_of (Ascii.eqb "=") key = true ->
  split_tail "=" (key +:+ String "=" v) = Some v.
Proof.
  induction key as [|a key IH]; [done|].
  change (String a key +:+ String "=" v) with (String a (key +:+ String "=" v)).
  cbn [none_of split_tail].
  intros [Ha Hk]%andb_prop. apply negb_true_iff in Ha.
  rewrite Ascii.eqb_sym, Ha. by apply IH.
Qed.

Lemma startswith_key key v : startswith (key +:+ "=") (key +:+ String "=" v) = true.
Proof.
  induction key as [|a key IH]; [done|].
  change (String a key +:+ ?x) with (String a (key +:+ x)). cbn [startswith].
  by rewrite Ascii.eqb_refl.
Qed.

Lemma scan_env_skip key pre rest :
  Forall (fun x => startswith (key +:+ "=") (strip x) = false) pre ->
  scan_env key (pre ++ rest) = scan_env key rest.
Proof.
  induction 1 as [|x pre Hx _ IH]; [done|].
  cbn [app scan_env]. by rewrite Hx.
Qed.

Lemma get_env_value_file key default E w raw :
  fs_get (fs w) env_file = Some (File raw) ->
  Codec.utf8_valid raw = true ->
  get_env_value key default E w =
    (Ret (match scan_env key (lines (universal_newlines raw)) with
          | Some v => v
          | None => default
          end), w).
Proof.
  intros Hf Hv. unfold get_env_value, bind. rewrite path_exists_eq, Hf. cbn [negb].
  unfold try_except, open_read, bind, get_fs. rewrite Hf.
  unfold ret at 1. unfold iter_lines, bind, ask. rewrite Hv. unfold ret at 1.
  cbn [fst snd]. by destruct (scan_env key _).
Qed.

(** The same for an [.env] that does not decode: the lines handed out
    before the decoder fails are scanned, and the failure gives the
    default. *)
Lemma get_env_value_undecodable key default E w raw :
  fs_get (fs w) env_file = Some (File raw) ->
  Codec.utf8_valid raw = false ->
  get_env_value key default E w =
    (Ret (match scan_env key (lines_before_decode_error E raw) with
          | Some v => v
          | None => default
          end), w).
Proof.
  intros Hf Hv. unfold get_env_value, bind. rewrite path_exists_eq, Hf. cbn [negb].
  unfold try_except, open_read, bind, get_fs. rewrite Hf.
  unfold ret at 1. unfold iter_lines, bind, ask. rewrite Hv. unfold ret at 1.
  cbn [fst snd]. by destruct (scan_env key _).
Qed.

Lemma get_env_value_no_file key default E w :
  match fs_get (fs w) env_file with Some (File _) => False | _ => True end ->
  get_env_value key default E w = (Ret default, w).
Proof.
  intros H. unfold get_env_value, bind. rewrite path_exists_eq.
  destruct (fs_get (fs w) env_file) as [[raw|]|] eqn:Hf; [done| |done].
  cbn [negb]. unfold try_except, open_read, bind, get_fs. by rewrite Hf.
Qed.

(** X4: [get_env_value] always returns a value and leaves the world as it
    found it: no exception, no write, no event, whatever [.env] is (absent,
    a directory, not UTF-8, without the key). *)
Theorem get_env_value_total (key default : string) (E : Env) (w : World) :
  exists v, get_env_value key default E w = (Ret v, w).
Proof.
  destruct (fs_get (fs w) env_file) as [[raw|]|] eqn:Hf.
  - destruct (Codec.utf8_valid raw) eqn:Hv.
    + eexists. by apply get_env_value_file.
    + eexists. by apply get_env_value_undecodable.
  - exists default. apply get_env_value_no_file. by rewrite Hf.
  - exists default. apply get_env_value_no_file. by rewrite Hf.
Qed.

(** X5: the first line that, stripped, starts with [KEY=] decides: the
    value is everything after that first [=], stripped of the white space
    around the line, further [=] signs included; later lines with the same
    key are not looked at. *)
Theorem get_env_value_first_match (E : Env) (w : World) (raw key default : string)
    (pre post : list string) (l v : string) :
  fs_get (fs w) env_file = Some (File raw) ->
  Codec.utf8_valid raw = true ->
  lines (universal_newlines raw) = (pre ++ l :: post)%list ->
  Forall (fun x => startswith (key +:+ "=") (strip x) = false) pre ->
  strip l = key +:+ String "=" v ->
  none_of (Ascii.eqb "=") key = true ->
  get_env_value key default E w = (Ret v, w).
Proof.
  intros Hf Hv Hl Hpre Hline Hkey.
  rewrite (get_env_value_file key default E w raw Hf Hv), Hl.
  rewrite scan_env_skip by done. cbn [scan_env]. rewrite Hline.
  by rewrite startswith_key, split_tail_key.
Qed.

Lemma get_env_value_first_match_witness :
  ConfigManager.get_env_value "REDIS_PORT" "6379" (demo_env 0)
    (mkWorld {[ [".env"] := File sample_env_text ]} [])
  = (Ret "6380=x", mkWorld {[ [".env"] := File sample_env_text ]} []).
Proof.
  apply (get_env_value_first_match (demo_env 0)
           (mkWorld {[ [".env"] := File sample_env_text ]} []) sample_env_text
           "REDIS_PORT" "6379"
           ["# cache" +:+ String "010" ""; "REDIS_PORT = 1" +:+ String "010" ""]
           ["REDIS_PORT=1"] ("  REDIS_PORT=6380=x " +:+ String "010" "") "6380=x").
  - vm_compute. reflexivity.
  - vm_compute. reflexivity.
  - vm_compute. reflexivity.
  - repeat constructor.
  - vm_compute. reflexivity.
  - vm_compute. reflexivity.
Defined.

(** X6: the caller's default comes back when [.env] is missing or is a
    directory, and when no line the loop is given, stripped, starts with
    [KEY=]: the lines of the text for an [.env] that is valid UTF-8, and
    for one that is not, the lines handed out before the decoder fails. *)
Theorem get_env_value_default (E : Env) (w : World) (key default : string) :
  match fs_get (fs w) env_file with
  | Some (File raw) =>
      Forall (fun x => startswith (key +:+ "=") (strip x) = false)
             (if Codec.utf8_valid raw then lines (universal_newlines raw)
              else lines_before_decode_error E raw)
  | _ => True
  end ->
  get_env_value key default E w = (Ret default, w).
Proof.
  intros H. destruct (fs_get (fs w) env_file) as [[raw|]|] eqn:Hf.
  - destruct (Codec.utf8_valid raw) eqn:Hv.
    + rewrite (get_env_value_file key default E w raw Hf Hv).
      rewrite <- (app_nil_r (lines (universal_newlines raw))).
      by rewrite scan_env_skip.
    + rewrite (get_env_value_undecodable key default E w raw Hf Hv).
      rewrite <- (app_nil_r (lines_before_decode_error E raw)).
      by rewrite scan_env_skip.
  - apply get_env_value_no_file. by rewrite Hf.
  - apply get_env_value_no_file. by rewrite Hf.
Qed.

Lemma get_env_value_default_witness :
  ConfigManager.get_env_value "REDIS_HOST" "localhost" (demo_env 0)
    (mkWorld {[ [".env"] := File sample_env_text ]} [])
  = (Ret "localhost", mkWorld {[ [".env"] := File sample_env_text ]} []).
Proof.
  pose proof (get_env_value_default (demo_env 0)
                (mkWorld {[ [".env"] := File sample_env_text ]} []) "REDIS_HOST" "localhost")
    as H.
  assert (Hf : fs_get (fs (mkWorld {[ [".env"] := File sample_env_text ]} [])) env_file
               = Some (File sample_env_text)) by (vm_compute; reflexivity).
  rewrite Hf in H. apply H.
  apply (bool_decide_unpack _). vm_compute. reflexivity.
Defined.

(** An [.env] whose first block decodes and holds the key gives the value,
    whatever bytes come later: the loop returns before the stream reads
    them. *)
Lemma get_env_value_before_decode_error (E : Env) (w : World) (raw key default : string)
    (pre post : list string) (l v : string) :
  fs_get (fs w) env_file = Some (File raw) ->
  Codec.utf8_valid raw = false ->
  lines_before_decode_error E raw = (pre ++ l :: post)%list ->
  Forall (fun x => startswith (key +:+ "=") (strip x) = false) pre ->
  strip l = key +:+ String "=" v ->
  none_of (Ascii.eqb "=") key = true ->
  get_env_value key default E w = (Ret v, w).
Proof.
  intros Hf Hv Hl Hpre Hline Hkey.
  rewrite (get_env_value_undecodable key default E w raw Hf Hv), Hl.
  rewrite scan_env_skip by done. cbn [scan_env]. rewrite Hline.
  by rewrite startswith_key, split_tail_key.
Qed.

End ConfigExtras.

Section StartConfigExtras.
Import PyStr Os ConfigManager.

(** What [load_start_config] does, by the state of the file. *)
Lemma load_start_config_cases json_load E w :
  load_start_config json_load E w =
    match fs_get (fs w) start_config_file with
    | None => (Ret default_config, w)
    | Some Dir =>
        (Ret default_config,
         mkWorld (fs w)
           (EvLog Warning ("加载启动配置失败: "
                           +:+ os_error_text E IsADirectoryError start_config_file)
            :: trace w))
    | Some (File raw) =>
        if Codec.utf8_valid raw then
          match json_load (universal_newlines raw) with
          | Ret user => (Ret (user ∪ default_config), w)
          | Raise e =>
              if is_Exception e then
                (Ret default_config,
                 mkWorld (fs w) (EvLog Warning ("加载启动配置失败: " +:+ exn_str e) :: trace w))
              else (Raise e, w)
          end
        else
          (Ret default_config,
           mkWorld (fs w)
             (EvLog Warning ("加载启动配置失败: " +:+ decode_error_text E raw) :: trace w))
    end.
Proof.
  unfold load_start_config, bind. rewrite path_exists_eq.
  destruct (fs_get (fs w) start_config_file) as [[raw|]|] eqn:Hf; [| |done].
  - unfold try_except, open_read, bind, get_fs. rewrite Hf.
    unfold ret at 1. unfold read_text.
    destruct (Codec.utf8_valid raw); [|reflexivity].
    unfold ret at 1. unfold lift_res.
    destruct (json_load _) as [user|e]; [reflexivity|].
    destruct (is_Exception e); [|reflexivity]. destruct w; reflexivity.
  - unfold try_except, open_read, bind, get_fs. rewrite Hf. reflexivity.
Qed.

(** X7: loading the start configuration never fails the caller and never
    touches the file system: as long as the decoder raises nothing but
    [Exception]s, the call returns a configuration, and that configuration
    has every key of the defaults. *)
Theorem load_start_config_total (json_load : string -> res (gmap string json))
    (E : Env) (w : World) :
  (forall text e, json_load text = Raise e -> is_Exception e = true) ->
  exists cfg w',
    load_start_config json_load E w = (Ret cfg, w')
    /\ fs w' = fs w
    /\ forall k, is_Some (default_config !! k) -> is_Some (cfg !! k).
Proof.
  intros Hj. rewrite load_start_config_cases.
  destruct (fs_get (fs w) start_config_file) as [[raw|]|].
  - destruct (Codec.utf8_valid raw).
    + destruct (json_load _) as [user|e] eqn:He.
      * exists (user ∪ default_config), w. repeat split. intros k [v Hk].
        destruct (user !! k) as [u|] eqn:Hu.
        -- exists u. by apply lookup_union_Some_l.
        -- exists v. by rewrite lookup_union_r.
      * rewrite (Hj _ _ He). by eexists _, _.
    + by eexists _, _.
  - by eexists _, _.
  - by eexists _, _.
Qed.

Lemma load_start_config_total_witness :
  exists cfg w',
    load_start_config theme_loader (demo_env 0) (mkWorld theme_project []) = (Ret cfg, w')
    /\ fs w' = fs (mkWorld theme_project [])
    /\ forall k, is_Some (default_config !! k) -> is_Some (cfg !! k).
Proof.
  apply (load_start_config_total theme_loader (demo_env 0) (mkWorld theme_project [])).
  intros text e. unfold theme_loader. destruct (String.eqb text theme_text); [done|].
  by intros [= <-].
Defined.

(** X8: a start-config file that cannot be read as text or that the
    decoder rejects gives the defaults, all of them and nothing else, and
    one warning. *)
Theorem load_start_config_falls_back (json_load : string -> res (gmap string json))
    (E : Env) (w : World) (raw : string) :
  fs_get (fs w) start_config_file = Some (File raw) ->
  (Codec.utf8_valid raw = false
   \/ exists e, json_load (universal_newlines raw) = Raise e /\ is_Exception e = true) ->
  exists msg,
    load_start_config json_load E w =
      (Ret default_config, mkWorld (fs w) (EvLog Warning msg :: trace w)).
Proof.
  intros Hf H. rewrite load_start_config_cases, Hf.
  destruct (Codec.utf8_valid raw).
  - destruct H as [H|(e & He & Hx)]; [done|]. rewrite He, Hx. by eexists.
  - by eexists.
Qed.

Lemma load_start_config_falls_back_witness :
  exists msg,
    load_start_config theme_loader (demo_env 0)
      (mkWorld (<[ ["config"; "start_config.json"] := File "{" ]> theme_project) []) =
      (Ret default_config,
       mkWorld (<[ ["config"; "start_config.json"] := File "{" ]> theme_project)
               [EvLog Warning msg]).
Proof.
  set (w := mkWorld (<[ ["config"; "start_config.json"] := File "{" ]> theme_project) []).
  assert (Hf : fs_get (fs w) start_config_file = Some (File "{")) by (vm_compute; reflexivity).
  assert (He : theme_loader (universal_newlines "{") = Raise (Exc ValueError "Expecting value"))
    by (vm_compute; reflexivity).
  exact (load_start_config_falls_back theme_loader (demo_env 0) w "{" Hf
           (or_intror (ex_intro _ _ (conj He eq_refl)))).
Defined.

End StartConfigExtras.

(** ** Saving the start configuration *)

Section SaveConfigExtras.
Import PyStr Os ConfigManager.


Lemma makedirs_config E w :
  makedirs_exist_ok ["config"] E w =
    match fs_get (fs w) ["config"] with
    | Some (File _) =>
        (Raise (Exc FileExistsError (os_error_text E FileExistsError ["config"])), w)
    | _ => (Ret tt, with_config_dir w)
    end.
Proof.
  unfold makedirs_exist_ok, with_config_dir. cbn [rev app makedirs_rev].
  unfold bind at 1 2. rewrite path_exists_eq.
  change (fs_get (fs w) []) with (Some Dir). cbn [negb].
  unfold ret at 1. unfold try_except, mkdir, bind, get_fs.
  destruct (fs_get (fs w) ["config"]) as [[c|]|] eqn:Hc.
  - unfold raise_os, raise. cbn [is_OSError class_is_OSError fs]. by rewrite Hc.
  - unfold raise_os, raise. cbn [is_OSError class_is_OSError fs]. by rewrite Hc.
  - cbn [parent removelast]. reflexivity.
Qed.

Lemma with_config_dir_is_dir w :
  fs_get (fs w) ["config"] <> None \/ True ->
  match fs_get (fs w) ["config"] with
  | Some (File _) => True
  | _ => fs_get (fs (with_config_dir w)) ["config"] = Some Dir
  end.
Proof.
  intros _. unfold with_config_dir.
  destruct (fs_get (fs w) ["config"]) as [[c|]|] eqn:Hc; [done| |].
  - exact Hc.
  - cbn [fs fs_get]. apply lookup_insert_eq.
Qed.

Lemma with_config_dir_file w :
  fs_get (fs (with_config_dir w)) start_config_file = fs_get (fs w) start_config_file.
Proof.
  unfold with_config_dir. destruct (fs_get (fs w) ["config"]); [done|].
  cbn [fs]. unfold start_config_file. cbn [fs_get]. by rewrite lookup_insert_ne.
Qed.

(** What [save_start_config] does, by the state of the two paths. *)
Lemma save_start_config_cases json_dumps config E w :
  save_start_config json_dumps config E w =
    match fs_get (fs w) ["config"] with
    | Some (File _) =>
        (Ret false,
         mkWorld (fs w)
           (EvLog Error ("保存启动配置失败: " +:+ os_error_text E FileExistsError ["config"])
            :: trace w))
    | _ =>
        let w1 := with_config_dir w in
        match fs_get (fs w) start_config_file with
        | Some Dir =>
            (Ret false,
             mkWorld (fs w1)
               (EvLog Error ("保存启动配置失败: "
                             +:+ os_error_text E IsADirectoryError start_config_file)
                :: trace w1))
        | _ =>
            (Ret true,
             mkWorld (<[start_config_file :=
                          File (write_newlines (linesep E) (json_dumps config))]> (fs w1))
                     (EvWrite start_config_file :: trace w1))
        end
    end.
Proof.
  unfold save_start_config, try_except. unfold bind at 1.
  change (parent start_config_file) with ["config"]. rewrite makedirs_config.
  pose proof (with_config_dir_is_dir w (or_intror I)) as Hd.
  pose proof (with_config_dir_file w) as Hf.
  destruct (fs_get (fs w) ["config"]) as [[c|]|] eqn:Hc.
  - cbn [is_Exception]. destruct w; reflexivity.
  - cbv zeta. set (w1 := with_config_dir w) in *.
    unfold open_write, bind, get_fs. rewrite Hf.
    destruct (fs_get (fs w) start_config_file) as [[raw|]|] eqn:Hs.
    + change (parent start_config_file) with ["config"]. rewrite Hd.
      unfold put_fs, emit, write_text, bind, ask, get_fs, put_fs, ret. cbn [fs trace].
      by rewrite insert_insert_eq.
    + reflexivity.
    + change (parent start_config_file) with ["config"]. rewrite Hd.
      unfold put_fs, emit, write_text, bind, ask, get_fs, put_fs, ret. cbn [fs trace].
      by rewrite insert_insert_eq.
  - cbv zeta. set (w1 := with_config_dir w) in *.
    unfold open_write, bind, get_fs. rewrite Hf.
    destruct (fs_get (fs w) start_config_file) as [[raw|]|] eqn:Hs.
    + change (parent start_config_file) with ["config"]. rewrite Hd.
      unfold put_fs, emit, write_text, bind, ask, get_fs, put_fs, ret. cbn [fs trace].
      by rewrite insert_insert_eq.
    + reflexivity.
    + change (parent start_config_file) with ["config"]. rewrite Hd.
      unfold put_fs, emit, write_text, bind, ask, get_fs, put_fs, ret. cbn [fs trace].
      by rewrite insert_insert_eq.
Qed.

End SaveConfigExtras.
Section TextRoundTrip.
Import PyStr Os ConfigManager Codec.

Lemma linesep_cases E :
  linesep E = String "010" "" \/ linesep E = String "013" (String "010" "").
Proof. unfold linesep. destruct (windows E); auto. Qed.

Lemma read_back_newlines E t :
  none_of (Ascii.eqb "013") t = true ->
  universal_newlines (write_newlines (linesep E) t) = t.
Proof.
  destruct (linesep_cases E) as [Hl|Hl]; rewrite Hl; clear Hl;
    (induction t as [|c r IH]; [done|]);
    cbn [none_of]; intros [Hc Hr]%andb_prop; apply negb_true_iff in Hc;
    cbn [write_newlines]; (destruct (Ascii.eqb c "010") eqn:Hlf;
      [ apply Ascii.eqb_eq in Hlf; subst c
      | cbn [universal_newlines]; rewrite Ascii.eqb_sym, Hc; by rewrite IH ]).
  - change (String "010" "" +:+ ?x) with (String "010" x).
    cbn [universal_newlines]. change (Ascii.eqb "010" "013") with false. cbv iota.
    by rewrite IH.
  - change (String "013" (String "010" "") +:+ ?x) with (String "013" (String "010" x)).
    cbn [universal_newlines]. change (Ascii.eqb "013" "013") with true.
    change (Ascii.eqb "010" "010") with true. cbv iota. by rewrite IH.
Qed.

Lemma high_not_lf lo hi c : (128 <= lo)%N -> between lo hi c = true -> Ascii.eqb c "010" = false.
Proof.
  intros Hlo H. destruct (Ascii.eqb_spec c "010") as [->|]; [|done].
  unfold between in H. apply andb_prop in H as [H _]. apply N.leb_le in H.
  change (code "010") with 10%N in H. lia.
Qed.

Lemma cont_not_lf c : cont c = true -> Ascii.eqb c "010" = false.
Proof. apply high_not_lf. lia. Qed.

Lemma lead3_not_lf a b : lead3 a b = true -> Ascii.eqb b "010" = false.
Proof.
  unfold lead3. intros H.
  repeat (apply orb_prop in H as [H|H]); apply andb_prop in H as [_ H];
    (apply cont_not_lf in H || (eapply high_not_lf in H; [|lia])); done.
Qed.

Lemma lead4_not_lf a b : lead4 a b = true -> Ascii.eqb b "010" = false.
Proof.
  unfold lead4. intros H.
  repeat (apply orb_prop in H as [H|H]); apply andb_prop in H as [_ H];
    (apply cont_not_lf in H || (eapply high_not_lf in H; [|lia])); done.
Qed.

Lemma ascii_lf : between 0 127 "010" = true.
Proof. reflexivity. Qed.

Lemma nonascii_not_lf a : between 0 127 a = false -> Ascii.eqb a "010" = false.
Proof.
  intros H. destruct (Ascii.eqb_spec a "010") as [->|]; [|done]. by rewrite ascii_lf in H.
Qed.

Lemma utf8_valid_write_newlines_len (ls : string) n :
  ls = String "010" "" \/ ls = String "013" (String "010" "") ->
  forall t,
  (String.length t <= n)%nat ->
  utf8_valid t = true -> utf8_valid (write_newlines ls t) = true.
Proof.
  intros Hls. induction n as [|n IH]; intros t Hlen Hv.
  - destruct t; [done|]. simpl in Hlen. lia.
  - destruct t as [|a r]; [done|]. cbn [String.length] in Hlen.
    cbn [utf8_valid] in Hv. destruct (between 0 127 a) eqn:Ha.
    + assert (Hr : utf8_valid (write_newlines ls r) = true) by (apply IH; [lia|done]).
      cbn [write_newlines]. destruct (Ascii.eqb a "010").
      * destruct Hls as [Hl | Hl]; rewrite Hl in *.
        -- change (String "010" "" +:+ ?x) with (String "010" x).
           cbn [utf8_valid]. by rewrite ascii_lf.
        -- change (String "013" (String "010" "") +:+ ?x) with (String "013" (String "010" x)).
           cbn [utf8_valid]. change (between 0 127 "013") with true. cbv iota.
           by rewrite ascii_lf.
      * cbn [utf8_valid]. by rewrite Ha.
    + cbn [write_newlines]. rewrite (nonascii_not_lf a Ha).
      destruct r as [|b r1]; [done|]. cbn [String.length] in Hlen.
      destruct (lead2 a) eqn:H2.
      * apply andb_prop in Hv as [Hb Hv].
        cbn [write_newlines]. rewrite (cont_not_lf b Hb).
        cbn [utf8_valid]. rewrite Ha, H2, Hb. apply IH; [lia|done].
      * destruct r1 as [|c r2]; [done|]. cbn [String.length] in Hlen.
        destruct (lead3 a b) eqn:H3.
        -- apply andb_prop in Hv as [Hc Hv].
           cbn [write_newlines]. rewrite (lead3_not_lf a b H3), (cont_not_lf c Hc).
           cbn [utf8_valid]. rewrite Ha, H2, H3, Hc. apply IH; [lia|done].
        -- destruct r2 as [|d r3]; [done|]. cbn [String.length] in Hlen.
           apply andb_prop in Hv as [Hv Hr]. apply andb_prop in Hv as [Hv Hd].
           apply andb_prop in Hv as [H4 Hc].
           cbn [write_newlines].
           rewrite (lead4_not_lf a b H4), (cont_not_lf c Hc), (cont_not_lf d Hd).
           cbn [utf8_valid]. rewrite Ha, H2, H3, H4, Hc, Hd. apply IH; [lia|done].
Qed.

Lemma utf8_valid_write_newlines E t :
  utf8_valid t = true -> utf8_valid (write_newlines (linesep E) t) = true.
Proof.
  apply (utf8_valid_write_newlines_len (linesep E) (String.length t)); [|lia].
  apply linesep_cases.
Qed.

End TextRoundTrip.
Section SaveConfigTheorems.
Import PyStr Os ConfigManager.

(** X9: saving the start configuration never raises: it returns a
    boolean.  When it returns [True], [config] is a directory and
    [start_config.json] holds the encoder's text, its line ends written as
    the platform's. *)
Theorem save_start_config_total (json_dumps : gmap string json -> string)
    (config : gmap string json) (E : Env) (w : World) :
  exists b w',
    save_start_config json_dumps config E w = (Ret b, w')
    /\ (b = true ->
        fs_get (fs w') ["config"] = Some Dir
        /\ fs_get (fs w') start_config_file
           = Some (File (write_newlines (linesep E) (json_dumps config)))).
Proof.
  rewrite save_start_config_cases.
  pose proof (with_config_dir_is_dir w (or_intror I)) as Hd.
  destruct (fs_get (fs w) ["config"]) as [[c|]|] eqn:Hc.
  - by eexists _, _.
  - cbv zeta. destruct (fs_get (fs w) start_config_file) as [[raw|]|];
      eexists _, _; (split; [reflexivity|]); try done; intros _; cbn [fs]; split;
      try (unfold start_config_file; cbn [fs_get]; apply lookup_insert_eq);
      (cbn [fs_get]; rewrite lookup_insert_ne by done; exact Hd).
  - cbv zeta. destruct (fs_get (fs w) start_config_file) as [[raw|]|];
      eexists _, _; (split; [reflexivity|]); try done; intros _; cbn [fs]; split;
      try (unfold start_config_file; cbn [fs_get]; apply lookup_insert_eq);
      (cbn [fs_get]; rewrite lookup_insert_ne by done; exact Hd).
Qed.

(** X10: when [config] exists as a regular file the configuration cannot
    be saved: the call returns [False], logs the text of the
    [FileExistsError] that making the directory raises, and leaves the
    file system as it was. *)
Theorem save_start_config_blocked (json_dumps : gmap string json -> string)
    (config : gmap string json) (E : Env) (w : World) (c : string) :
  fs_get (fs w) ["config"] = Some (File c) ->
  save_start_config json_dumps config E w =
    (Ret false,
     mkWorld (fs w)
       (EvLog Error ("保存启动配置失败: " +:+ os_error_text E FileExistsError ["config"])
        :: trace w)).
Proof. intros H. by rewrite save_start_config_cases, H. Qed.

Lemma save_start_config_blocked_witness :
  save_start_config (fun _ => theme_text) theme_config (demo_env 0)
    (mkWorld {[ ["config"] := File "x" ]} []) =
    (Ret false,
     mkWorld {[ ["config"] := File "x" ]}
       [EvLog Error ("保存启动配置失败: "
                     +:+ "[Errno 17] File exists: '/srv/claude-relay-service/config'")]).
Proof.
  assert (H : fs_get (fs (mkWorld {[ ["config"] := File "x" ]} [])) ["config"]
              = Some (File "x")) by (vm_compute; reflexivity).
  exact (save_start_config_blocked (fun _ => theme_text) theme_config (demo_env 0)
           (mkWorld {[ ["config"] := File "x" ]} []) "x" H).
Defined.

(** X11: save, then load.  When nothing blocks the two paths, the
    encoder's text is UTF-8 without carriage returns and the decoder reads
    it back as the configuration, saving returns [True] and a load right
    after it returns the saved configuration over the defaults: every
    saved key with its saved value, every other default key with its
    default.  This holds on POSIX and on Windows, where the file has
    CR LF line ends in between. *)
Theorem save_then_load (json_dumps : gmap string json -> string)
    (json_load : string -> res (gmap string json))
    (config : gmap string json) (E : Env) (w : World) :
  (forall c, fs_get (fs w) ["config"] <> Some (File c)) ->
  fs_get (fs w) start_config_file <> Some Dir ->
  Codec.utf8_valid (json_dumps config) = true ->
  none_of (Ascii.eqb "013") (json_dumps config) = true ->
  json_load (json_dumps config) = Ret config ->
  exists w1,
    save_start_config json_dumps config E w = (Ret true, w1)
    /\ load_start_config json_load E w1 = (Ret (config ∪ default_config), w1).
Proof.
  intros Hc Hs Hv Hcr Hj.
  assert (Hload : forall w1,
    fs_get (fs w1) start_config_file
      = Some (File (write_newlines (linesep E) (json_dumps config))) ->
    load_start_config json_load E w1 = (Ret (config ∪ default_config), w1)).
  { intros w1 Hf. rewrite load_start_config_cases, Hf.
    rewrite utf8_valid_write_newlines by done.
    by rewrite read_back_newlines, Hj. }
  rewrite save_start_config_cases.
  destruct (fs_get (fs w) ["config"]) as [[c|]|] eqn:Hcfg; [by destruct (Hc c)| |];
    cbv zeta; (destruct (fs_get (fs w) start_config_file) as [[raw|]|]; [|done|]);
    eexists; (split; [reflexivity|]); apply Hload; cbn [fs];
    unfold start_config_file; cbn [fs_get]; apply lookup_insert_eq.
Qed.

Lemma save_then_load_witness :
  exists w1,
    save_start_config (fun _ => theme_text) theme_config windows_env (mkWorld ∅ [])
      = (Ret true, w1)
    /\ load_start_config theme_loader windows_env w1
      = (Ret (theme_config ∪ default_config), w1).
Proof.
  apply (save_then_load (fun _ => theme_text) theme_loader theme_config windows_env
           (mkWorld ∅ [])).
  - intros c. vm_compute. discriminate.
  - vm_compute. discriminate.
  - vm_compute. reflexivity.
  - vm_compute. reflexivity.
  - vm_compute. reflexivity.
Defined.

End SaveConfigTheorems.

(** ** Process registry *)

Section ProcessExtras.
Import PyStr Os ProcessManager.

(** X12: on POSIX, reading the running pid changes the file system in one
    way at most, by removing the PID file; and a pid it returns is the
    integer the file holds - its bytes decoded by the locale's codec and
    read as [int] reads them - with the file left in place. *)
Theorem get_running_pid_only_unlinks (E : Env) (w w' : World) (r : res (option Z)) :
  windows E = false ->
  get_running_pid E w = (r, w') ->
  (fs w' = fs w \/ fs w' = delete pid_file (fs w))
  /\ forall pid, r = Ret (Some pid) ->
       fs w' = fs w
       /\ exists raw, fs_get (fs w) pid_file = Some (File raw) /\ read_pid E raw = Some pid.
Proof.
  intros Hposix. unfold get_running_pid, bind. rewrite path_exists_eq.
  destruct (fs_get (fs w) pid_file) as [[raw|]|] eqn:Hf.
  - unfold try_except, open_read, bind, get_fs. rewrite Hf.
    unfold ret at 1. unfold read_locale_text, read_pid, bind, ask.
    destruct (locale_decode E raw) as [text|] eqn:Hv.
    + unfold ret at 1. unfold int_.
      destruct (py_int (strip (universal_newlines text))) as [pid|] eqn:Hp.
      * unfold ret at 1. rewrite is_process_running_posix by done. cbv zeta.
        destruct (sys_kill E pid 0) as [[]|e].
        -- intros [= <- <-]. cbn [fs]. split; [by left|].
           intros ? [= <-]. split; [done|]. exists raw. by rewrite Hv.
        -- destruct (is_OSError e || is_SubprocessError e) eqn:Ho.
           ++ unfold unlink_open, bind, ask. rewrite Hposix.
              unfold unlink, bind, get_fs. cbn [fs]. rewrite Hf.
              intros [= <- <-]. cbn [fs]. split; [by right|]. intros ? [=].
           ++ destruct (is_ValueError e || is_FileNotFoundError e);
                intros [= <- <-]; cbn [fs]; (split; [by left|]); intros ? [=].
      * intros [= <- <-]. split; [by left|]. intros ? [=].
    + intros [= <- <-]. split; [by left|]. intros ? [=].
  - unfold try_except, open_read, bind, get_fs. rewrite Hf.
    intros [= <- <-]. split; [by left|]. intros ? [=].
  - intros [= <- <-]. split; [by left|]. intros ? [=].
Qed.

Lemma get_running_pid_only_unlinks_witness :
  (fs (mkWorld (pid_project "4242") [EvKill 4242 0]) = fs (mkWorld (pid_project "4242") [])
   \/ fs (mkWorld (pid_project "4242") [EvKill 4242 0])
      = delete pid_file (fs (mkWorld (pid_project "4242") [])))
  /\ forall pid, Ret (Some 4242) = Ret (Some pid) ->
       fs (mkWorld (pid_project "4242") [EvKill 4242 0]) = fs (mkWorld (pid_project "4242") [])
       /\ exists raw,
            fs_get (fs (mkWorld (pid_project "4242") [])) pid_file = Some (File raw)
            /\ read_pid live_env raw = Some pid.
Proof.
  assert (Hrun : get_running_pid live_env (mkWorld (pid_project "4242") [])
                 = (Ret (Some 4242), mkWorld (pid_project "4242") [EvKill 4242 0]))
    by (vm_compute; reflexivity).
  exact (get_running_pid_only_unlinks live_env _ _ _ eq_refl Hrun).
Defined.

(** X13: on POSIX, when SIGTERM is delivered, [kill_process] probes the
    process once more and escalates only if the probe still finds it: a
    process that is gone gets no SIGKILL, one that is still there gets
    exactly one; with the signals delivered the result is [True]. *)
Theorem kill_process_escalates (E : Env) (w w0 : World) (pid : Z) (alive : bool) :
  windows E = false ->
  sys_kill E pid 15 = Ret tt ->
  is_process_running pid E (mkWorld (fs w) (EvKill pid 15 :: trace w)) = (Ret alive, w0) ->
  (alive = true -> sys_kill E pid 9 = Ret tt) ->
  kill_process pid E w =
    (Ret true,
     if alive then mkWorld (fs w0) (EvKill pid 9 :: trace w0) else w0).
Proof.
  intros Hposix H15 Hrun H9.
  unfold kill_process, try_except. unfold bind at 1 2. unfold ask. rewrite Hposix.
  unfold bind at 1. unfold kill at 1. rewrite H15.
  unfold bind at 1. unfold sleep, ret at 1. unfold bind at 1. rewrite Hrun.
  destruct alive; [|reflexivity].
  unfold kill. by rewrite (H9 eq_refl).
Qed.

Lemma kill_process_escalates_witness :
  kill_process 4242 live_env (mkWorld ∅ []) =
    (Ret true, mkWorld ∅ [EvKill 4242 9; EvKill 4242 0; EvKill 4242 15]).
Proof.
  exact (kill_process_escalates live_env (mkWorld ∅ [])
           (mkWorld ∅ [EvKill 4242 0; EvKill 4242 15]) 4242 true
           eq_refl eq_refl eq_refl (fun _ => eq_refl)).
Defined.

(** X14: on POSIX, when SIGTERM cannot be delivered - the process is
    already gone, or belongs to someone else - [kill_process] returns
    [False], logs the error and sends nothing more. *)
Theorem kill_process_undelivered (E : Env) (w : World) (pid : Z) (e : raised) :
  windows E = false ->
  sys_kill E pid 15 = Raise e ->
  is_Exception e = true ->
  kill_process pid E w =
    (Ret false,
     mkWorld (fs w) (EvLog Error ("终止进程失败: " +:+ exn_str e) :: EvKill pid 15 :: trace w)).
Proof.
  intros Hposix H15 He.
  unfold kill_process, try_except. unfold bind at 1 2. unfold ask. rewrite Hposix.
  unfold bind at 1. unfold kill at 1. rewrite H15, He. reflexivity.
Qed.

Lemma kill_process_undelivered_witness :
  kill_process 4242 (demo_env 0) (mkWorld ∅ []) =
    (Ret false,
     mkWorld ∅ [EvLog Error "终止进程失败: No such process"; EvKill 4242 15]).
Proof.
  exact (kill_process_undelivered (demo_env 0) (mkWorld ∅ []) 4242
           (Exc ProcessLookupError "No such process") eq_refl eq_refl eq_refl).
Defined.

(** X15: on Windows the result of [kill_process] does not depend on what
    [taskkill] reports: whenever the command runs, whatever its exit
    status, the result is [True]. *)
Theorem kill_process_windows (E : Env) (w : World) (pid : Z) (done_ : completed)
    (f' : gmap path entry) :
  windows E = true ->
  sys_run E ["taskkill"; "/F"; "/PID"; str_of_Z pid] None [] (fs w) = (Ret done_, f') ->
  kill_process pid E w =
    (Ret true, mkWorld f' (EvRun ["taskkill"; "/F"; "/PID"; str_of_Z pid] :: trace w)).
Proof.
  intros Hwin Hrun.
  unfold kill_process, try_except. unfold bind at 1 2. unfold ask. rewrite Hwin.
  unfold bind at 1. unfold subprocess_run. by rewrite Hrun.
Qed.

Lemma kill_process_windows_witness :
  kill_process 4242
    (mkEnv true (fun _ _ _ f => (Ret (mkCompleted 128 "" "not found"), f))
       (fun _ _ _ => Ret 1) (fun _ f => (Ret 0, f)) (fun _ _ => Ret 0)
       (fun _ _ => Ret tt) (fun _ => Ret "") "" "" "" "" "")
    (mkWorld ∅ []) =
    (Ret true, mkWorld ∅ [EvRun ["taskkill"; "/F"; "/PID"; "4242"]]).
Proof.
  exact (kill_process_windows
           (mkEnv true (fun _ _ _ f => (Ret (mkCompleted 128 "" "not found"), f))
              (fun _ _ _ => Ret 1) (fun _ f => (Ret 0, f)) (fun _ _ => Ret 0)
              (fun _ _ => Ret tt) (fun _ => Ret "") "" "" "" "" "")
           (mkWorld ∅ []) 4242 (mkCompleted 128 "" "not found") ∅ eq_refl eq_refl).
Defined.

(** X16: neither [kill_process] nor [start_background_process] lets an
    [Exception] out: every failure of a signal, a command, a log file or a
    spawn ends in [False] or [None]. *)
Theorem process_operations_contain_exceptions :
  (forall pid, contains_exceptions (kill_process pid))
  /\ (forall command log_file,
        contains_exceptions (start_background_process command log_file)).
Proof.
  split; intros; apply try_except_contains; intros x E w;
    unfold bind, Logger.error, emit, ret; done.
Qed.

(** X17: when the log file cannot be opened - its directory is missing,
    or the path is a directory - [start_background_process] returns
    [None], logs the error and spawns nothing. *)
Theorem start_background_process_no_log (E : Env) (w : World) (command : list string)
    (p : path) :
  fs_get (fs w) p = Some Dir
  \/ (fs_get (fs w) p = None /\ fs_get (fs w) (parent p) <> Some Dir) ->
  exists msg,
    start_background_process command (Some p) E w =
      (Ret None, mkWorld (fs w) (EvLog Error ("启动后台进程失败: " +:+ msg) :: trace w)).
Proof.
  intros H. unfold start_background_process, try_except. unfold bind at 1.
  unfold open_append, bind, get_fs.
  destruct H as [H|[H Hp]]; rewrite H.
  - eexists. reflexivity.
  - destruct (fs_get (fs w) (parent p)) as [[c|]|]; [|done|]; eexists; reflexivity.
Qed.

Lemma start_background_process_no_log_witness :
  exists msg,
    start_background_process ["npm"; "start"] (Some ["logs"; "service.log"]) (demo_env 0)
      (mkWorld ∅ []) =
      (Ret None, mkWorld ∅ [EvLog Error ("启动后台进程失败: " +:+ msg)]).
Proof.
  assert (H : fs_get (fs (mkWorld ∅ [])) ["logs"; "service.log"] = None
              /\ fs_get (fs (mkWorld ∅ [])) (parent ["logs"; "service.log"]) <> Some Dir)
    by (split; vm_compute; [reflexivity | discriminate]).
  exact (start_background_process_no_log (demo_env 0) (mkWorld ∅ []) ["npm"; "start"]
           ["logs"; "service.log"] (or_intror H)).
Defined.

(** X18: with a log file that can be opened, the child is spawned and its
    pid returned; a log file that exists keeps its content (it is opened
    for appending), a missing one is created empty. *)
Theorem start_background_process_log (E : Env) (w : World) (command : list string)
    (p : path) (pid : Z) :
  (exists old, fs_get (fs w) p = Some (File old))
  \/ (fs_get (fs w) p = None /\ fs_get (fs w) (parent p) = Some Dir) ->
  sys_popen E command []
    (match fs_get (fs w) p with Some _ => fs w | None => <[p := File ""]> (fs w) end)
    = Ret pid ->
  start_background_process command (Some p) E w =
    (Ret (Some pid),
     mkWorld (match fs_get (fs w) p with Some _ => fs w | None => <[p := File ""]> (fs w) end)
             (EvSpawn command pid :: EvWrite p :: trace w)).
Proof.
  intros H Hp. unfold start_background_process, try_except. unfold bind at 1 2.
  unfold open_append, bind, get_fs.
  destruct H as [[old H]|[H Hd]]; rewrite H in *.
  - unfold emit, popen. cbn [fs trace]. by rewrite Hp.
  - rewrite Hd. unfold put_fs, emit, popen. cbn [fs trace]. by rewrite Hp.
Qed.

Lemma start_background_process_log_witness :
  start_background_process ["npm"; "start"] (Some ["service.log"]) (demo_env 0)
    (mkWorld {[ ["service.log"] := File "old line" ]} []) =
    (Ret (Some 4242),
     mkWorld
       (match fs_get {[ ["service.log"] := File "old line" ]} ["service.log"] with
        | Some _ => {[ ["service.log"] := File "old line" ]}
        | None => <[ ["service.log"] := File "" ]> {[ ["service.log"] := File "old line" ]}
        end)
       [EvSpawn ["npm"; "start"] 4242; EvWrite ["service.log"]]).
Proof.
  assert (H : fs_get (fs (mkWorld {[ ["service.log"] := File "old line" ]} [])) ["service.log"]
              = Some (File "old line")) by (vm_compute; reflexivity).
  exact (start_background_process_log (demo_env 0)
           (mkWorld {[ ["service.log"] := File "old line" ]} []) ["npm"; "start"]
           ["service.log"] 4242 (or_introl (ex_intro _ _ H)) eq_refl).
Defined.

End ProcessExtras.

(** ** Preparing the environment *)

Section ServiceExtras.
Import PyStr Os ServiceStarter.

Lemma grows_ret {A} (a : A) : grows (ret a).
Proof. by intros E w. Qed.

Lemma grows_raise {A} e : grows (@raise A e).
Proof. by intros E w. Qed.

Lemma grows_emit e : grows (emit e).
Proof. by intros E w. Qed.

Lemma grows_bind {A B} (m : M A) (k : A -> M B) :
  grows m -> (forall a, grows (k a)) -> grows (bind m k).
Proof.
  intros Hm Hk E w. unfold bind. specialize (Hm E w).
  destruct (m E w) as [[a|e] w1]; cbn [snd] in *; [|done].
  etransitivity; [exact Hm|]. apply Hk.
Qed.

Lemma grows_path_exists p : grows (path_exists p).
Proof. by intros E w. Qed.

Lemma fs_get_insert_fresh (f : gmap path entry) p e :
  fs_get f p = None -> f ⊆ <[p := e]> f.
Proof.
  intros H. apply insert_subseteq. destruct p; [done|exact H].
Qed.

Lemma grows_mkdir_exist_ok p : grows (mkdir_exist_ok p).
Proof.
  intros E w. unfold mkdir_exist_ok, bind, get_fs.
  destruct (fs_get (fs w) p) as [[c|]|] eqn:Hp; [done|done|].
  destruct (fs_get (fs w) (parent p)) as [[c|]|]; [done| |done].
  cbn. by apply fs_get_insert_fresh.
Qed.

Lemma grows_ensure_file target template copying missing :
  grows (ConfigManager.ensure_file target template copying missing).
Proof.
  intros E w. unfold ConfigManager.ensure_file, bind. rewrite path_exists_eq.
  destruct (fs_get (fs w) target) as [e|] eqn:Ht; [done|]. cbn [negb].
  rewrite path_exists_eq.
  destruct (fs_get (fs w) template) as [e|] eqn:Hs; [|done].
  unfold Logger.info, emit, open_read, bind, get_fs. cbn [fs trace]. rewrite Hs.
  destruct e as [raw|]; [|done].
  unfold ret at 1. unfold open_write, bind, get_fs. cbn [fs trace]. rewrite Ht.
  destruct (fs_get (fs w) (parent target)) as [[c|]|]; [done| |done].
  unfold put_fs, emit. cbn [fs trace]. unfold read_text.
  destruct (Codec.utf8_valid raw).
  - unfold ret at 1. unfold write_text, bind, ask, get_fs, put_fs, ret. cbn.
    rewrite insert_insert_eq. by apply fs_get_insert_fresh.
  - cbn. by apply fs_get_insert_fresh.
Qed.

(** X19: [prepare_environment] only ever adds to the file system.  An
    [.env] or [config.js] that exists is never overwritten, nothing is
    removed, and this holds for every outcome, a failed copy included. *)
Theorem prepare_environment_grows : grows prepare_environment.
Proof.
  unfold prepare_environment.
  apply grows_bind; [apply grows_emit|]. intros _.
  apply grows_bind; [apply grows_ensure_file|]. intros [|]; [|apply grows_ret].
  apply grows_bind; [apply grows_ensure_file|]. intros [|]; [|apply grows_ret].
  repeat (apply grows_bind; [apply grows_mkdir_exist_ok|]; intros _).
  apply grows_bind; [apply grows_emit|]. intros _. apply grows_ret.
Qed.

Lemma grows_eq {A} (m : M A) E w r w' : grows m -> m E w = (r, w') -> fs w ⊆ fs w'.
Proof. intros Hm Heq. specialize (Hm E w). by rewrite Heq in Hm. Qed.

Lemma fs_get_weaken (f g : gmap path entry) p e :
  f ⊆ g -> fs_get f p = Some e -> fs_get g p = Some e.
Proof.
  intros Hfg. destruct p; [done|]. cbn [fs_get]. intros H.
  exact (lookup_weaken f g _ _ H Hfg).
Qed.

Lemma ensure_file_true target template copying missing E w w' :
  ConfigManager.ensure_file target template copying missing E w = (Ret true, w') ->
  is_Some (fs_get (fs w') target).
Proof.
  unfold ConfigManager.ensure_file, bind. rewrite path_exists_eq.
  destruct (fs_get (fs w) target) as [e|] eqn:Ht.
  { intros [= <-]. by rewrite Ht. }
  cbn [negb]. rewrite path_exists_eq.
  destruct (fs_get (fs w) template) as [e|] eqn:Hs; [|intros [=]].
  unfold Logger.info, emit, open_read, bind, get_fs. cbn [fs trace]. rewrite Hs.
  destruct e as [raw|]; [|intros [=]].
  unfold ret at 1. unfold open_write, bind, get_fs. cbn [fs trace]. rewrite Ht.
  destruct (fs_get (fs w) (parent target)) as [[c|]|]; [intros [=]| |intros [=]].
  unfold put_fs, emit. cbn [fs trace]. unfold read_text.
  destruct (Codec.utf8_valid raw); [|intros [=]].
  unfold ret at 1. unfold write_text, bind, ask, get_fs, put_fs, ret. cbn [fs trace].
  intros [= <-]. cbn [fs]. destruct target; [done|]. cbn [fs_get].
  rewrite lookup_insert_eq. by eexists.
Qed.

Lemma mkdir_exist_ok_dir p E w u w' :
  mkdir_exist_ok p E w = (Ret u, w') -> fs_get (fs w') p = Some Dir.
Proof.
  unfold mkdir_exist_ok, bind, get_fs.
  destruct (fs_get (fs w) p) as [[c|]|] eqn:Hp.
  - intros [=].
  - by intros [= _ <-].
  - destruct (fs_get (fs w) (parent p)) as [[c|]|]; [intros [=]| |intros [=]].
    unfold put_fs, emit. cbn [fs trace]. intros [= _ <-]. cbn [fs].
    destruct p; [done|]. cbn [fs_get]. apply lookup_insert_eq.
Qed.

(** X20: when [prepare_environment] returns [True], [.env] and
    [config/config.js] exist and [logs], [data] and [temp] are
    directories. *)
Theorem prepare_environment_post (E : Env) (w w' : World) :
  prepare_environment E w = (Ret true, w') ->
  is_Some (fs_get (fs w') ConfigManager.env_file)
  /\ is_Some (fs_get (fs w') ConfigManager.config_file)
  /\ fs_get (fs w') ["logs"] = Some Dir
  /\ fs_get (fs w') ["data"] = Some Dir
  /\ fs_get (fs w') ["temp"] = Some Dir.
Proof.
  unfold prepare_environment. intros H.
  apply bind_ret_inv in H as (? & w0 & _ & H).
  apply bind_ret_inv in H as ([|] & w1 & Henv & H); [|done]. cbn [negb] in H.
  apply bind_ret_inv in H as ([|] & w2 & Hcfg & H); [|done]. cbn [negb] in H.
  apply bind_ret_inv in H as (? & w3 & Hlogs & H).
  apply bind_ret_inv in H as (? & w4 & Hdata & H).
  apply bind_ret_inv in H as (? & w5 & Htemp & H).
  apply bind_ret_inv in H as (? & w6 & Hlog & H).
  injection H as <-. injection Hlog as _ <-. cbn [fs].
  apply ensure_file_true in Henv as [e1 Henv].
  pose proof (grows_eq _ _ _ _ _ (grows_ensure_file _ _ _ _) Hcfg) as G12.
  apply ensure_file_true in Hcfg as [e2 Hcfg].
  pose proof (grows_eq _ _ _ _ _ (grows_mkdir_exist_ok _) Hlogs) as G23.
  pose proof (grows_eq _ _ _ _ _ (grows_mkdir_exist_ok _) Hdata) as G34.
  pose proof (grows_eq _ _ _ _ _ (grows_mkdir_exist_ok _) Htemp) as G45.
  apply mkdir_exist_ok_dir in Hlogs, Hdata, Htemp.
  assert (G25 : fs w2 ⊆ fs w5) by (do 2 (etransitivity; [eassumption|]); done).
  split; [|split; [|split; [|split]]].
  - exists e1. eapply fs_get_weaken; [|exact Henv]. by etransitivity.
  - exists e2. exact (fs_get_weaken _ _ _ _ G25 Hcfg).
  - eapply fs_get_weaken; [|exact Hlogs]. by etransitivity.
  - exact (fs_get_weaken _ _ _ _ G45 Hdata).
  - done.
Qed.

Lemma prepare_environment_post_witness :
  is_Some (fs_get (fs (snd (prepare_environment (demo_env 0)
                              (mkWorld (<[ [".env.example"] := File "A=1" ]>
                                          (<[ ["config"; "config.example.js"] := File "x" ]>
                                             fresh_checkout)) []))))
                  ConfigManager.env_file)
  /\ is_Some (fs_get (fs (snd (prepare_environment (demo_env 0)
                              (mkWorld (<[ [".env.example"] := File "A=1" ]>
                                          (<[ ["config"; "config.example.js"] := File "x" ]>
                                             fresh_checkout)) []))))
                  ConfigManager.config_file)
  /\ fs_get (fs (snd (prepare_environment (demo_env 0)
                              (mkWorld (<[ [".env.example"] := File "A=1" ]>
                                          (<[ ["config"; "config.example.js"] := File "x" ]>
                                             fresh_checkout)) [])))) ["logs"] = Some Dir
  /\ fs_get (fs (snd (prepare_environment (demo_env 0)
                              (mkWorld (<[ [".env.example"] := File "A=1" ]>
                                          (<[ ["config"; "config.example.js"] := File "x" ]>
                                             fresh_checkout)) [])))) ["data"] = Some Dir
  /\ fs_get (fs (snd (prepare_environment (demo_env 0)
                              (mkWorld (<[ [".env.example"] := File "A=1" ]>
                                          (<[ ["config"; "config.example.js"] := File "x" ]>
                                             fresh_checkout)) [])))) ["temp"] = Some Dir.
Proof.
  set (w := mkWorld (<[ [".env.example"] := File "A=1" ]>
                       (<[ ["config"; "config.example.js"] := File "x" ]> fresh_checkout)) []).
  assert (H : prepare_environment (demo_env 0) w
              = (Ret true, snd (prepare_environment (demo_env 0) w)))
    by (vm_compute; reflexivity).
  exact (prepare_environment_post (demo_env 0) w _ H).
Defined.

(** X21: [install_dependencies] runs no command when [node_modules] and
    [package-lock.json] both exist, and returns [True]; otherwise it runs
    [npm install] in the project root and returns whether the exit status
    was 0, an [Exception] of the command counting as failure. *)
Theorem install_dependencies_result (E : Env) (w : World) (r : res completed)
    (f' : gmap path entry) :
  sys_run E ["npm"; "install"] (Some []) [] (fs w) = (r, f') ->
  (forall e, r = Raise e -> is_Exception e = true) ->
  let installed :=
    match fs_get (fs w) ["node_modules"], fs_get (fs w) ["package-lock.json"] with
    | Some _, Some _ => true
    | _, _ => false
    end in
  fst (install_dependencies E w)
    = Ret (installed || match r with Ret c => returncode c =? 0 | Raise _ => false end)
  /\ (installed = true ->
      snd (install_dependencies E w) = mkWorld (fs w) (EvLog Success "依赖已安装" :: trace w))
  /\ (installed = false -> fs (snd (install_dependencies E w)) = f').
Proof.
  intros Hrun Hr installed. subst installed.
  cbv [install_dependencies SystemChecker.check_dependencies_installed
       try_except bind path_exists get_fs ret Logger.info Logger.success
       Logger.error emit subprocess_run].
  destruct (fs_get (fs w) ["node_modules"]) as [e1|];
    [destruct (fs_get (fs w) ["package-lock.json"]) as [e2|]|];
    cbn [fs trace fst snd]; try (repeat split; done);
    rewrite Hrun; (destruct r as [c|e];
      [ destruct (returncode c =? 0); repeat split; done
      | rewrite (Hr e eq_refl); repeat split; done ]).
Qed.

Lemma install_dependencies_result_witness :
  fst (install_dependencies (demo_env 0) (mkWorld ∅ []))
    = Ret (false || (0 =? 0))
  /\ (false = true ->
      snd (install_dependencies (demo_env 0) (mkWorld ∅ []))
        = mkWorld ∅ [EvLog Success "依赖已安装"])
  /\ (false = false -> fs (snd (install_dependencies (demo_env 0) (mkWorld ∅ []))) = ∅).
Proof.
  assert (Hr : forall e, Ret (mkCompleted 0 "" "") = Raise e -> is_Exception e = true)
    by (intros e [=]).
  exact (install_dependencies_result (demo_env 0) (mkWorld ∅ [])
           (Ret (mkCompleted 0 "" "")) ∅ eq_refl Hr).
Defined.

End ServiceExtras.

(** ** Building the front end *)

Section FrontendExtras.
Import PyStr Os ServiceStarter.

Lemma has_children_intro (f : gmap path entry) (p : path) (name : string) (e : entry) :
  fs_get f p = Some Dir ->
  f !! (p ++ [name])%list = Some e ->
  has_children f p = true.
Proof.
  intros Hp Hc. unfold has_children. rewrite Hp.
  apply existsb_exists. exists ((p ++ [name])%list, e). split.
  - apply list_elem_of_In. by apply elem_of_map_to_list.
  - cbn [fst]. destruct (p ++ [name])%list eqn:Hq; [by destruct p|].
    rewrite <- Hq. apply bool_decide_eq_true. unfold parent. apply removelast_last.
Qed.

(** X22: a built front end is left alone: when [web/admin-spa/dist] is a
    directory with at least one entry, [build_frontend] returns [True]
    and runs no command. *)
Theorem build_frontend_skips (E : Env) (w : World) (name : string) (e : entry) :
  fs_get (fs w) ["web"; "admin-spa"; "dist"] = Some Dir ->
  fs w !! ["web"; "admin-spa"; "dist"; name] = Some e ->
  build_frontend E w = (Ret true, mkWorld (fs w) (EvLog Success "前端已构建" :: trace w)).
Proof.
  intros Hd He.
  unfold build_frontend, SystemChecker.check_frontend_built.
  unfold bind at 1 2. rewrite path_exists_eq, Hd.
  unfold bind at 1. unfold get_fs, ret at 1.
  rewrite (has_children_intro (fs w) ["web"; "admin-spa"; "dist"] name e Hd He).
  reflexivity.
Qed.

Lemma build_frontend_skips_witness :
  build_frontend (demo_env 0) (mkWorld ready_project []) =
    (Ret true, mkWorld ready_project [EvLog Success "前端已构建"]).
Proof.
  assert (Hd : fs_get (fs (mkWorld ready_project [])) ["web"; "admin-spa"; "dist"] = Some Dir)
    by (vm_compute; reflexivity).
  assert (He : fs (mkWorld ready_project []) !! ["web"; "admin-spa"; "dist"; "index.html"]
               = Some (File "<html></html>")) by (vm_compute; reflexivity).
  exact (build_frontend_skips (demo_env 0) (mkWorld ready_project []) "index.html" _ Hd He).
Defined.



End FrontendExtras.

(** ** The mode dispatcher *)

Section DispatcherExtras.
Import PyStr Os ClaudeRelayStarter.

Lemma pair_eta {A B} (x : A * B) (a : A) : fst x = a -> x = (a, snd x).
Proof. destruct x. cbn. by intros ->. Qed.

Lemma report_listeners_returns port ls E w :
  exists tr, report_listeners port ls E w = (Ret tt, mkWorld (fs w) tr).
Proof.
  revert w. induction ls as [|line rest IH]; intros w.
  - exists (trace w). by destruct w.
  - cbn [report_listeners]. unfold bind.
    destruct (contains (":" +:+ str_of_Z port) line && contains "LISTENING" line);
      [destruct (5 <=? length (words line))%nat|];
      cbv [Logger.warning emit ret];
      match goal with
      | |- exists tr, report_listeners _ _ _ ?w' = _ =>
          destruct (IH w') as [tr Htr]; exists tr; by rewrite Htr
      end.
Qed.

(** X24: an occupied port makes [_check_port_conflicts] return [False]
    whatever becomes of the diagnostic command ([lsof], or [netstat] on
    Windows): its exit status, its output and its [Exception]s do not
    change the answer and do not escape. *)
Theorem check_port_conflicts_occupied (E : Env) (w : World) (port : Z)
    (r : res completed) (f' : gmap path entry) :
  sys_connect_ex E "localhost" port = Ret 0 ->
  sys_run E (if windows E then ["netstat"; "-ano"]
             else ["lsof"; "-i"; ":" +:+ str_of_Z port]) None [] (fs w) = (r, f') ->
  (forall e, r = Raise e -> is_Exception e = true) ->
  exists tr, _check_port_conflicts port E w = (Ret false, mkWorld f' tr).
Proof.
  intros Hc Hrun Hr.
  cbv [_check_port_conflicts SystemChecker.check_port_available try_except bind
       connect_ex ask Logger.error emit subprocess_run ret].
  rewrite Hc. cbn [Z.eqb negb fs trace].
  destruct (windows E).
  - match goal with
    | |- context [sys_run E ?a ?b ?d ?g] =>
        replace (sys_run E a b d g) with (r, f') by (symmetry; exact Hrun)
    end.
    destruct r as [c|e].
    + edestruct (report_listeners_returns port (split_on "010" (stdout c)) E) as [tr ->].
      cbv [ret]. cbn [fs]. by eexists.
    + rewrite (Hr e eq_refl). cbv [ret]. by eexists.
  - match goal with
    | |- context [sys_run E ?a ?b ?d ?g] =>
        replace (sys_run E a b d g) with (r, f') by (symmetry; exact Hrun)
    end.
    destruct r as [c|e].
    + destruct (is_empty (stdout c)); cbv [ret Logger.warning emit negb]; by eexists.
    + rewrite (Hr e eq_refl). cbv [ret]. by eexists.
Qed.

Lemma check_port_conflicts_occupied_witness :
  exists tr,
    _check_port_conflicts 6379 (demo_env 0) (mkWorld ∅ []) = (Ret false, mkWorld ∅ tr).
Proof.
  assert (Hr : forall e, Ret (mkCompleted 0 "" "") = Raise e -> is_Exception e = true)
    by (intros e [=]).
  exact (check_port_conflicts_occupied (demo_env 0) (mkWorld ∅ []) 6379
           (Ret (mkCompleted 0 "" "")) ∅ eq_refl eq_refl Hr).
Defined.

(** X25: a gate that fails ends the run.  In dev and in prod mode, when
    the preflight returns [False] - a tool too old, a missing template, a
    failed install or build, Redis refused, the port occupied - the
    launcher exits with status 1 in the very state the preflight left:
    nothing is spawned afterwards. *)
Theorem failing_preflight_exit_1 (m : fg_mode) (args : Namespace) (E : Env) (w w1 : World) :
  ns_mode args = Some (mode_name m) ->
  preflight m args E (mkWorld (fs w) (EvLog Header (mode_header m) :: trace w))
    = (Ret false, w1) ->
  launcher args E w = (1, w1).
Proof.
  intros Hmode Hpre. unfold launcher, main. rewrite Hmode.
  destruct m; cbn [mode_name mode_header preflight] in *;
    unfold try_except2, dispatch; cbn [String.eqb Ascii.eqb Bool.eqb];
    unfold bind at 1; [unfold start_dev_mode | unfold start_prod_mode];
    unfold bind at 1 2; unfold Logger.header, emit at 1; by rewrite Hpre.
Qed.

Lemma failing_preflight_exit_1_witness :
  launcher prod_args (demo_env 0) (mkWorld ∅ []) =
    (1, snd (preflight FgProd prod_args (demo_env 0)
               (mkWorld ∅ [EvLog Header (mode_header FgProd)]))).
Proof.
  assert (Hfst : fst (preflight FgProd prod_args (demo_env 0)
                        (mkWorld ∅ [EvLog Header (mode_header FgProd)])) = Ret false)
    by (vm_compute; reflexivity).
  exact (failing_preflight_exit_1 FgProd prod_args (demo_env 0) (mkWorld ∅ []) _
           eq_refl (pair_eta _ _ Hfst)).
Defined.

(** X26: in prod mode Redis is a hard gate: when the four common gates
    pass and Redis is not reachable, the preflight fails at once, with one
    error line and without asking anyone or probing the port. *)
Theorem prod_requires_redis (args : Namespace) (E : Env) (w w1 w2 : World) :
  common_gates E w = (Ret true, w1) ->
  ServiceStarter.check_redis_availability E w1 = (Ret false, w2) ->
  prod_preflight args E w =
    (Ret false, mkWorld (fs w2) (EvLog Error "生产模式需要Redis连接" :: trace w2)).
Proof.
  intros Hg Hr. unfold prod_preflight. unfold bind at 1. rewrite Hg. cbn [negb].
  unfold bind at 1. rewrite Hr. reflexivity.
Qed.

Lemma prod_requires_redis_witness :
  prod_preflight prod_args redis_down_env (mkWorld ready_project []) =
    (Ret false,
     mkWorld
       (fs (snd (ServiceStarter.check_redis_availability redis_down_env
                   (snd (common_gates redis_down_env (mkWorld ready_project []))))))
       (EvLog Error "生产模式需要Redis连接"
        :: trace (snd (ServiceStarter.check_redis_availability redis_down_env
                         (snd (common_gates redis_down_env (mkWorld ready_project []))))))).
Proof.
  assert (Hg : fst (common_gates redis_down_env (mkWorld ready_project [])) = Ret true)
    by (vm_compute; reflexivity).
  assert (Hr : fst (ServiceStarter.check_redis_availability redis_down_env
                      (snd (common_gates redis_down_env (mkWorld ready_project []))))
               = Ret false) by (vm_compute; reflexivity).
  exact (prod_requires_redis prod_args redis_down_env (mkWorld ready_project []) _ _
           (pair_eta _ _ Hg) (pair_eta _ _ Hr)).
Defined.

(** X27: in dev mode Redis is a soft gate decided by the operator: with
    the common gates passed and Redis not reachable, the launcher asks,
    and any answer whose lower case is not exactly [y] ends the preflight
    with [False], the port never probed. *)
Theorem dev_redis_declined (args : Namespace) (E : Env) (w w1 w2 : World)
    (answer : string) :
  common_gates E w = (Ret true, w1) ->
  ServiceStarter.check_redis_availability E w1 = (Ret false, w2) ->
  sys_input E "是否继续启动? (y/N): " = Ret answer ->
  lower answer <> "y" ->
  dev_preflight args E w =
    (Ret false,
     mkWorld (fs w2)
       (EvPrompt "是否继续启动? (y/N): "
        :: EvLog Warning "Redis未连接，请确保Redis服务正在运行" :: trace w2)).
Proof.
  intros Hg Hr Hi Hn. unfold dev_preflight. unfold bind at 1. rewrite Hg. cbn [negb].
  unfold bind at 1. rewrite Hr. cbn [negb].
  cbv [bind Logger.warning emit input ret]. cbn [fs trace]. rewrite Hi.
  apply String.eqb_neq in Hn. by rewrite Hn.
Qed.

Lemma dev_redis_declined_witness :
  dev_preflight dev_args redis_down_env (mkWorld ready_project []) =
    (Ret false,
     mkWorld
       (fs (snd (ServiceStarter.check_redis_availability redis_down_env
                   (snd (common_gates redis_down_env (mkWorld ready_project []))))))
       (EvPrompt "是否继续启动? (y/N): "
        :: EvLog Warning "Redis未连接，请确保Redis服务正在运行"
        :: trace (snd (ServiceStarter.check_redis_availability redis_down_env
                         (snd (common_gates redis_down_env (mkWorld ready_project []))))))).
Proof.
  assert (Hg : fst (common_gates redis_down_env (mkWorld ready_project [])) = Ret true)
    by (vm_compute; reflexivity).
  assert (Hr : fst (ServiceStarter.check_redis_availability redis_down_env
                      (snd (common_gates redis_down_env (mkWorld ready_project []))))
               = Ret false) by (vm_compute; reflexivity).
  assert (Hn : lower "n" <> "y") by (vm_compute; discriminate).
  exact (dev_redis_declined dev_args redis_down_env (mkWorld ready_project []) _ _ "n"
           (pair_eta _ _ Hg) (pair_eta _ _ Hr) eq_refl Hn).
Defined.

(** X28: the service mode hands the exit status of its package-manager
    script on: the launcher exits with 0 when [npm run service:<action>]
    exits with 0, and with 1 when it exits with anything else or cannot be
    run. *)
Theorem service_exit_status (args : Namespace) (E : Env) (w : World) (action : string)
    (r : res completed) (f' : gmap path entry) :
  ns_mode args = Some "service" ->
  ns_action args = Some action ->
  sys_run E ["npm"; "run"; "service:" +:+ action] (Some []) [] (fs w) = (r, f') ->
  (forall e, r = Raise e -> is_Exception e = true) ->
  fst (launcher args E w) =
    match r with
    | Ret c => if returncode c =? 0 then 0 else 1
    | Raise _ => 1
    end.
Proof.
  intros Hmode Hact Hrun Hr. unfold launcher, main. rewrite Hmode.
  unfold try_except2, dispatch. cbn [String.eqb Ascii.eqb Bool.eqb]. rewrite Hact.
  cbv [manage_service try_except bind Logger.header Logger.error emit subprocess_run ret].
  cbn [fs trace].
  match goal with
  | |- context [sys_run E ?a ?b ?d ?g] =>
      replace (sys_run E a b d g) with (r, f') by (symmetry; exact Hrun)
  end.
  destruct r as [c|e].
  - by destruct (returncode c =? 0).
  - by rewrite (Hr e eq_refl).
Qed.

Lemma service_exit_status_witness :
  fst (launcher (service_args "restart") (failing_env 3) (mkWorld ∅ [])) =
    if returncode (mkCompleted 3 "" "") =? 0 then 0 else 1.
Proof.
  assert (Hr : forall e, Ret (mkCompleted 3 "" "") = Raise e -> is_Exception e = true)
    by (intros e [=]).
  exact (service_exit_status (service_args "restart") (failing_env 3) (mkWorld ∅ [])
           "restart" (Ret (mkCompleted 3 "" "")) ∅ eq_refl eq_refl eq_refl Hr).
Defined.

(** X29: prod mode with [--daemon] hands the exit status of the daemon
    start on: with the preflight passed, the launcher exits with 0 when
    [npm run service:start:daemon] exits with 0 and with 1 otherwise, and
    spawns no foreground server. *)
Theorem prod_daemon_exit_status (args : Namespace) (E : Env) (w w1 : World)
    (c : completed) (f' : gmap path entry) :
  ns_mode args = Some "prod" ->
  ns_daemon args = Some true ->
  prod_preflight args E (mkWorld (fs w) (EvLog Header "启动生产模式" :: trace w))
    = (Ret true, w1) ->
  sys_run E ["npm"; "run"; "service:start:daemon"] (Some [])
    (child_env "production" args) (fs w1) = (Ret c, f') ->
  launcher args E w =
    (if returncode c =? 0 then 0 else 1,
     mkWorld f'
       (EvLog (if returncode c =? 0 then Success else Error)
              (if returncode c =? 0 then "后台生产服务器启动成功" else "后台生产服务器启动失败")
        :: EvRun ["npm"; "run"; "service:start:daemon"]
        :: EvLog Info "启动后台生产服务器..." :: trace w1)).
Proof.
  intros Hmode Hd Hpre Hrun. unfold launcher, main. rewrite Hmode.
  unfold try_except2, dispatch. cbn [String.eqb Ascii.eqb Bool.eqb].
  unfold bind at 1. unfold start_prod_mode. unfold bind at 1 2.
  unfold Logger.header, emit at 1. rewrite Hpre. cbn [negb]. rewrite Hd.
  change (default false (Some true)) with true. cbv iota.
  cbv [prod_launch_daemon try_except bind Logger.info Logger.success Logger.error emit
       subprocess_run ret raise]. cbn [fs trace].
  match goal with
  | |- context [sys_run E ?a ?b ?d ?g] =>
      replace (sys_run E a b d g) with (@Ret completed c, f') by (symmetry; exact Hrun)
  end.
  by destruct (returncode c =? 0).
Qed.

Lemma prod_daemon_exit_status_witness :
  fst (launcher prod_daemon_args (failing_env 1) (mkWorld ready_project [])) = 1.
Proof.
  assert (Hfst : fst (prod_preflight prod_daemon_args (failing_env 1)
                        (mkWorld (fs (mkWorld ready_project []))
                           (EvLog Header "启动生产模式" :: trace (mkWorld ready_project []))))
                 = Ret true) by (vm_compute; reflexivity).
  assert (Hrun : forall f,
            sys_run (failing_env 1) ["npm"; "run"; "service:start:daemon"] (Some [])
              (child_env "production" prod_daemon_args) f
            = (Ret (mkCompleted 1 "" ""), f)) by (intros f; vm_compute; reflexivity).
  exact (f_equal fst (prod_daemon_exit_status prod_daemon_args (failing_env 1)
           (mkWorld ready_project []) _ (mkCompleted 1 "" "") _
           eq_refl eq_refl (pair_eta _ _ Hfst) (Hrun _))).
Defined.

(** X30: a failed image build ends docker mode.  With [--rebuild], when
    both tool checks pass and [docker-compose build] exits with a status
    other than 0, the launcher logs the failure and exits with status 1;
    the containers are never started. *)
Theorem docker_rebuild_failure (args : Namespace) (E : Env) (w w1 w2 : World)
    (v1 v2 : string) (c : completed) (f3 : gmap path entry) :
  ns_mode args = Some "docker" ->
  ns_rebuild args = Some true ->
  SystemChecker.check_docker_installed E
    (mkWorld (fs w) (EvLog Header "启动Docker模式" :: trace w)) = (Ret (true, v1), w1) ->
  SystemChecker.check_docker_compose_installed E
    (mkWorld (fs w1) (EvLog Success ("Docker版本: " +:+ v1) :: trace w1))
    = (Ret (true, v2), w2) ->
  sys_run E ["docker-compose"; "build"] (Some []) [] (fs w2) = (Ret c, f3) ->
  returncode c <> 0 ->
  launcher args E w =
    (1,
     mkWorld f3
       (EvLog Error "Docker镜像构建失败"
        :: EvRun ["docker-compose"; "build"]
        :: EvLog Info "重新构建Docker镜像..."
        :: EvLog Success ("Docker Compose版本: " +:+ v2)
        :: trace w2)).
Proof.
  intros Hmode Hre Hd Hc Hrun Hrc. unfold launcher, main. rewrite Hmode.
  unfold try_except2 at 1. unfold dispatch. cbn [String.eqb Ascii.eqb Bool.eqb].
  unfold bind at 1. unfold start_docker_mode. unfold bind at 1 2.
  unfold Logger.header, emit at 1. rewrite Hd. cbn [fst snd negb].
  unfold bind at 1 2. unfold Logger.success at 1. unfold emit at 1. rewrite Hc.
  cbn [fst snd negb]. unfold bind at 1. unfold Logger.success at 1. unfold emit at 1.
  rewrite Hre. change (default false (Some true)) with true. cbv iota.
  cbv [try_except2 bind Logger.info Logger.error emit subprocess_run ret raise].
  cbn [fs trace].
  match goal with
  | |- context [sys_run E ?a ?b ?d ?g] =>
      replace (sys_run E a b d g) with (@Ret completed c, f3) by (symmetry; exact Hrun)
  end.
  apply Z.eqb_neq in Hrc. by rewrite Hrc.
Qed.

Lemma docker_rebuild_failure_witness :
  launcher docker_rebuild_args (failing_env 1) (mkWorld ∅ []) =
    (1,
     mkWorld ∅
       [EvLog Error "Docker镜像构建失败";
        EvRun ["docker-compose"; "build"];
        EvLog Info "重新构建Docker镜像...";
        EvLog Success "Docker Compose版本: Docker Compose version v2.23.0";
        EvRun ["docker-compose"; "--version"];
        EvLog Success "Docker版本: Docker version 24.0.7";
        EvRun ["docker"; "--version"]; EvLog Header "启动Docker模式"]).
Proof.
  assert (Hrc : returncode (mkCompleted 1 "" "") <> 0) by (cbn; lia).
  exact (docker_rebuild_failure docker_rebuild_args (failing_env 1) (mkWorld ∅ [])
           (mkWorld ∅ [EvRun ["docker"; "--version"]; EvLog Header "启动Docker模式"])
           (mkWorld ∅ [EvRun ["docker-compose"; "--version"];
                       EvLog Success "Docker版本: Docker version 24.0.7";
                       EvRun ["docker"; "--version"]; EvLog Header "启动Docker模式"])
           "Docker version 24.0.7" "Docker Compose version v2.23.0"
           (mkCompleted 1 "" "") ∅ eq_refl eq_refl eq_refl eq_refl eq_refl Hrc).
Defined.

End DispatcherExtras.
